(** * Veille scientifique automatisee: the report pipeline, embedded in Rocq

    A shallow embedding of the Python sources of the repository
    ([tools/arxiv_tool.py], [mcp_servers/arxiv_server.py],
    [tools/arxiv_mcp_client.py], [tools/database.py], [tools/rag_tool.py],
    [tools/pdf_generator.py], [agents.py], [backend/api.py], [config.py],
    [healthcheck.py]) and the properties of its control flow and data
    contracts.

    Conventions of the embedding.
    - A Python [str] is the list of its Unicode code points.  The literals of
      the sources are written as UTF-8 text and decoded by [py].
    - A Python exception is a value of [exn]; code that may raise lives in the
      monad [M S], which threads a state of type [S] and keeps the state
      reached when an exception is raised (Python does not roll back).
    - The external collaborators (the arXiv API, the embedding service, the
      LLM behind [Crew.kickoff], the PostgreSQL server, the file system, the
      MCP transport, the clock) are the fields of [Env].  Every call of a
      collaborator advances the counter [tick] of the world, and the
      collaborator answers by the value of the counter, so one [Env] fixes one
      possible behaviour of the outside and the theorems quantify over all of
      them.
    - A failure that depends on the moment only (a server that is down, a
      broken pipe, a time-out) is the field [fault].  A refusal that depends
      on the values handed over is written out where it happens: the
      adaptation of the parameters by psycopg2, the column types of the
      table, the vector type, the validation of a tool call against its
      [inputSchema], the validation of the request body by FastAPI, the
      paragraph parser and the layout of reportlab and the file names.
    - [print] statements are console output only and are left out. *)

From Stdlib Require Import ZArith NArith List String Ascii Bool Lia Floats
  DecimalString Permutation Sorted.
Import ListNotations.

Set Implicit Arguments.
Open Scope list_scope.

(* ===================================================================== *)
(** * Python strings *)
(* ===================================================================== *)

Module PyStr.

Definition str := list N.

(** UTF-8 decoding of the bytes of a literal: [pending] continuation bytes are
    still expected for the code point accumulated in [acc]. *)
Fixpoint utf8_decode (pending acc : N) (bs : list N) : str :=
  match bs with
  | [] => []
  | b :: rest =>
      if (pending =? 0)%N then
        if (b <? 128)%N then b :: utf8_decode 0 0 rest
        else if (b <? 224)%N then utf8_decode 1 (b - 192) rest
        else if (b <? 240)%N then utf8_decode 2 (b - 224) rest
        else utf8_decode 3 (b - 240) rest
      else
        let acc' := (acc * 64 + (b - 128))%N in
        if (pending =? 1)%N then acc' :: utf8_decode 0 0 rest
        else utf8_decode (pending - 1) acc' rest
  end.

Definition py (s : string) : str :=
  utf8_decode 0 0 (map N_of_ascii (list_ascii_of_string s)).

(** The characters that a Rocq literal cannot hold conveniently. *)
Definition nl : str := [10%N].          (* '\n' *)
Definition dq : str := [34%N].          (* the double quote *)

Definition str_eqb (a b : str) : bool :=
  if list_eq_dec N.eq_dec a b then true else false.

(** [sep.join(parts)] *)
Fixpoint join (sep : str) (parts : list str) : str :=
  match parts with
  | [] => []
  | [p] => p
  | p :: rest => p ++ sep ++ join sep rest
  end.

(** [s.replace(old, new)] for a one-character [old], the only use in the
    sources ([' '] and ['\n']). *)
Definition replace (old : N) (new : str) (s : str) : str :=
  flat_map (fun c => if (c =? old)%N then new else [c]) s.

(** [str.isspace] on one code point (the Unicode white space of CPython). *)
Definition isspace (c : N) : bool :=
  ((9 <=? c) && (c <=? 13) || (28 <=? c) && (c <=? 32) || (c =? 133)
   || (c =? 160) || (c =? 5760) || (8192 <=? c) && (c <=? 8202)
   || (c =? 8232) || (c =? 8233) || (c =? 8239) || (c =? 8287)
   || (c =? 12288))%N.

Fixpoint lstrip (s : str) : str :=
  match s with
  | [] => []
  | c :: rest => if isspace c then lstrip rest else s
  end.

(** [s.strip()] *)
Definition strip (s : str) : str := rev (lstrip (rev (lstrip s))).

(** [s[:n]] *)
Definition slice_to (n : nat) (s : str) : str := firstn n s.

(** The code points U+D800 to U+DFFF; a Python string may hold them, and no
    codec encodes them. *)
Definition surrogate (c : N) : bool := ((55296 <=? c) && (c <=? 57343))%N.

(** [s.encode('utf-8')] succeeds. *)
Definition encodable (s : str) : bool :=
  forallb (fun c => negb (surrogate c)) s.

(** [str(z)] for an [int]. *)
Definition str_of_int (z : Z) : str := py (NilZero.string_of_int (Z.to_int z)).

(** Zero padding on the left, as the [%m], [%d], [%H] ... fields of
    [strftime] do. *)
Definition zfill (width : nat) (s : str) : str :=
  repeat 48%N (width - List.length s) ++ s.

End PyStr.
Import PyStr.

(* ===================================================================== *)
(** * Exceptions and the state-and-exception monad *)
(* ===================================================================== *)

(** The exceptions of the program.  All of them derive from Python's
    [Exception], so every [except Exception] clause catches all of them;
    [HTTPException] is FastAPI's (a subclass of [Exception] as well). *)
Inductive exn : Type :=
| HTTPException (status_code : Z) (detail : str)
| JSONDecodeError (msg : str)
| TimeoutError
| ServiceError (service : str) (msg : str).

(** [str(e)] *)
Definition str_of_exn (e : exn) : str :=
  match e with
  | HTTPException c d => str_of_int c ++ py ": " ++ d
  | JSONDecodeError m => m
  | TimeoutError => []
  | ServiceError _ m => m
  end.

Inductive outcome (A : Type) : Type :=
| Returns (a : A)
| Raises (e : exn).
Arguments Returns {A} a.
Arguments Raises {A} e.

Definition M (S A : Type) : Type := S -> outcome A * S.

Definition ret {S A} (a : A) : M S A := fun s => (Returns a, s).

Definition raise {S A} (e : exn) : M S A := fun s => (Raises e, s).

Definition bind {S A B} (m : M S A) (k : A -> M S B) : M S B :=
  fun s =>
    match m s with
    | (Returns a, s') => k a s'
    | (Raises e, s') => (Raises e, s')
    end.

(** [try: body  except Exception as e: handler(e)] *)
Definition try_except {S A} (body : M S A) (handler : exn -> M S A) : M S A :=
  fun s =>
    match body s with
    | (Returns a, s') => (Returns a, s')
    | (Raises e, s') => handler e s'
    end.

(** [try: body  finally: cleanup]: the clean-up runs on both exits, and an
    exception of the clean-up replaces the outcome of the body. *)
Definition try_finally {S A} (body : M S A) (cleanup : M S unit) : M S A :=
  fun s =>
    match body s with
    | (r, s') =>
        match cleanup s' with
        | (Returns _, s'') => (r, s'')
        | (Raises e, s'') => (Raises e, s'')
        end
    end.

Definition get {S} : M S S := fun s => (Returns s, s).
Definition put {S} (s : S) : M S unit := fun _ => (Returns tt, s).
Definition modify {S} (f : S -> S) : M S unit := fun s => (Returns tt, f s).

Declare Scope py_scope.
Delimit Scope py_scope with py.
Notation "x <- c1 ;; c2" := (bind c1 (fun x => c2))
  (at level 61, c1 at next level, right associativity) : py_scope.
Notation "c1 ;; c2" := (bind c1 (fun _ => c2))
  (at level 61, right associativity) : py_scope.
Open Scope py_scope.

(** [for x in xs: body(x)] *)
Fixpoint for_each {S A} (xs : list A) (body : A -> M S unit) : M S unit :=
  match xs with
  | [] => ret tt
  | x :: rest => body x ;; for_each rest body
  end.

(** Running a computation on a component of a larger state. *)
Definition lift_snd {S1 S2 A} (m : M S2 A) : M (S1 * S2) A :=
  fun s =>
    match m (snd s) with
    | (r, s2) => (r, (fst s, s2))
    end.

(* ===================================================================== *)
(** * Data model *)
(* ===================================================================== *)

(** [datetime.datetime], to the second. *)
Record datetime : Type := {
  year : Z; month : Z; day : Z; hour : Z; minute : Z; second : Z
}.

Definition two_digits (z : Z) : str := zfill 2 (str_of_int z).
Definition four_digits (z : Z) : str := zfill 4 (str_of_int z).

(** [d.strftime('%Y-%m-%d')] *)
Definition strftime_Ymd (d : datetime) : str :=
  four_digits (year d) ++ py "-" ++ two_digits (month d) ++ py "-"
  ++ two_digits (day d).

(** [d.strftime('%Y%m%d_%H%M%S')] *)
Definition strftime_stamp (d : datetime) : str :=
  four_digits (year d) ++ two_digits (month d) ++ two_digits (day d)
  ++ py "_" ++ two_digits (hour d) ++ two_digits (minute d)
  ++ two_digits (second d).

(** [d.strftime('%d/%m/%Y à %H:%M')] *)
Definition strftime_cover (d : datetime) : str :=
  two_digits (day d) ++ py "/" ++ two_digits (month d) ++ py "/"
  ++ four_digits (year d) ++ py " à " ++ two_digits (hour d) ++ py ":"
  ++ two_digits (minute d).

(** What the [arxiv] package hands out: [arxiv.Result] and its authors. *)
Module Author.
Record t : Type := { name : str }.
End Author.

Module Result.
Record t : Type := {
  title : str;
  authors : list Author.t;
  summary : str;
  published : datetime;
  pdf_url : str;
  entry_id : str;
  categories : list str;
  primary_category : str
}.
End Result.

(** [arxiv.Search(query=..., max_results=..., sort_by=..., sort_order=...)] *)
Inductive SortCriterion : Type := Relevance | LastUpdatedDate | SubmittedDate.
Inductive SortOrder : Type := Ascending | Descending.

Module Search.
Record t : Type := {
  query : str;
  max_results : Z;
  sort_by : SortCriterion;
  sort_order : SortOrder
}.
End Search.

(** The article dictionaries.  Both search paths build them by a dictionary
    literal whose values are strings and lists of strings; the literal of the
    MCP server has one key more, ['primary_category'], which is why that field
    is optional here: [None] stands for a dictionary without the key. *)
Module Article.
Record t : Type := {
  title : str;
  authors : list str;
  summary : str;
  published : str;
  pdf_url : str;
  entry_id : str;
  categories : list str;
  primary_category : option str
}.

(** [article.keys()], in the order of the literal. *)
Definition keys (a : t) : list str :=
  [py "title"; py "authors"; py "summary"; py "published"; py "pdf_url";
   py "entry_id"; py "categories"]
  ++ match primary_category a with
     | Some _ => [py "primary_category"]
     | None => []
     end.
End Article.

(** The dictionaries appended to [self.article_summaries]. *)
Module ArticleSummary.
Record t : Type := {
  title : str;
  authors : list str;
  published : str;
  pdf_url : str;
  summary : str
}.
End ArticleSummary.

(** A row of the table [articles] created by [_init_database].  The columns
    [authors] and [categories] hold the text written by [json.dumps]; that
    text is represented by the list it encodes, so that [json.loads] reads
    the list back. *)
Module Row.
Record t : Type := {
  id : Z;
  entry_id : str;
  title : str;
  authors : list str;
  summary : str;
  published : str;
  pdf_url : str;
  categories : list str;
  keyword : str;
  embedding : list float;
  created_at : datetime
}.
End Row.

(** The dictionaries returned by [search_similar_articles]
    ([similarity = Some _]) and by [get_all_articles_by_keyword]
    ([similarity = None]: the query does not select that column). *)
Module Stored.
Record t : Type := {
  id : Z;
  entry_id : str;
  title : str;
  authors : list str;
  summary : str;
  published : str;
  pdf_url : str;
  categories : list str;
  similarity : option float
}.
End Stored.

(** CrewAI's [Agent] and [Task], as far as the sources fill them in. *)
Module Agent.
Record t : Type := { role : str; goal : str; backstory : str }.
End Agent.

Module Task.
Record t : Type := { description : str; agent : Agent.t; expected_output : str }.
End Task.

(** reportlab's flowables; lengths are in millimetres. *)
Inductive Flowable : Type :=
| Spacer (height_mm : Z)
| Paragraph (text : str) (style : str)
| PageBreak.

(* ===================================================================== *)
(** * The outside world *)
(* ===================================================================== *)

Record Env : Type := {
  (** [os.getenv] *)
  environ : str -> option str;
  (** the arXiv API behind [search.results()] *)
  arxiv_api : nat -> Search.t -> outcome (list Result.t);
  (** the embedding service behind [embed_query] *)
  embedding_api : nat -> str -> outcome (list float);
  (** the LLM behind [Crew(...).kickoff()], rendered by [str(result)] *)
  llm_api : nat -> Task.t -> outcome str;
  (** whether the operation on the database server or the MCP transport
      that starts at this instant fails, and how *)
  fault : nat -> option exn;
  (** whether the file system refuses, at this instant, to create the
      directory of this path, and how *)
  file_system : nat -> str -> option exn;
  (** whether [doc.build] fails, at this instant, to lay this story out and
      to write it to the file of this path, and how *)
  layout : nat -> str -> list Flowable -> option exn;
  (** whether the paragraph parser of reportlab accepts the markup of a
      text *)
  parses : str -> bool;
  (** pgvector's operator [<=>] *)
  cosine_distance : list float -> list float -> float;
  (** whether the scan of the [ivfflat] index for a query vector visits the
      list that holds a stored vector; constantly [true] when the planner
      scans the table itself *)
  probed : list float -> list float -> bool;
  (** [datetime.now()] and [CURRENT_TIMESTAMP] *)
  clock : nat -> datetime
}.

Record World : Type := {
  tick : nat;
  (** the committed table [articles]; [None] while it does not exist *)
  table : option (list Row.t);
  (** the sequence behind [id SERIAL] *)
  serial : Z;
  (** the documents that [doc.build] has completed, by path, the last one
      first; what a failed build leaves behind is no document *)
  files : list (str * list Flowable)
}.

Definition set_tick (t : nat) (w : World) : World :=
  {| tick := t; table := table w; serial := serial w; files := files w |}.
Definition set_table (tb : option (list Row.t)) (w : World) : World :=
  {| tick := tick w; table := tb; serial := serial w; files := files w |}.
Definition set_serial (n : Z) (w : World) : World :=
  {| tick := tick w; table := table w; serial := n; files := files w |}.
Definition set_files (fs : list (str * list Flowable)) (w : World) : World :=
  {| tick := tick w; table := table w; serial := serial w; files := fs |}.

(** The JSON object written by the MCP server: either
    [{"success": true, "keyword": ..., "count": ..., "articles": [...]}] or
    [{"error": ..., "success": false}]. *)
Inductive Payload : Type :=
| SearchOk (keyword : str) (count : Z) (articles : list Article.t)
| SearchError (error : str).

(** The text of a [TextContent]: the output of [json.dumps], represented by
    the object it encodes, or a text that is no JSON document. *)
Inductive Text : Type :=
| JsonText (data : Payload)
| PlainText (s : str).

Module TextContent.
Record t : Type := { type : str; text : Text }.
End TextContent.

(** The [arguments] dictionary of a tool call; [None] is an absent key. *)
Module Arguments.
Record t : Type := { keyword : option str; max_results : option Z }.
End Arguments.

Definition json_dumps (data : Payload) : Text := JsonText data.

Definition json_loads {S} (t : Text) : M S Payload :=
  match t with
  | JsonText data => ret data
  | PlainText s => raise (JSONDecodeError (py "Expecting value"))
  end.

(* --------------------------------------------------------------------- *)
(** ** Calls to the outside *)
(* --------------------------------------------------------------------- *)

Section Outside.

Variable env : Env.

(** One call of a collaborator: it answers by the instant of the call, and
    the instant advances. *)
Definition external {A} (answer : nat -> outcome A) : M World A :=
  fun w => (answer (tick w), set_tick (S (tick w)) w).

(** An operation that only succeeds or fails. *)
Definition fallible : M World unit :=
  external (fun t => match fault env t with
                     | Some e => Raises e
                     | None => Returns tt
                     end).

(** The creation of a directory. *)
Definition on_path (path : str) : M World unit :=
  external (fun t => match file_system env t path with
                     | Some e => Raises e
                     | None => Returns tt
                     end).

(** The layout of a story and its output to a file. *)
Definition laid_out (path : str) (story : list Flowable) : M World unit :=
  external (fun t => match layout env t path story with
                     | Some e => Raises e
                     | None => Returns tt
                     end).

(** [datetime.now()] *)
Definition now : M World datetime :=
  external (fun t => Returns (clock env t)).

(** [os.getenv(name, default)] *)
Definition getenv (name default : str) : str :=
  match environ env name with
  | Some v => v
  | None => default
  end.

(** [search.results()], consumed by the [for] loop. *)
Definition results (search : Search.t) : M World (list Result.t) :=
  external (fun t => arxiv_api env t search).

(** The constructors [OpenAIEmbeddings(openai_api_key=os.getenv('OPENAI_API_KEY'), ...)]
    and [ChatOpenAI(openai_api_key=os.getenv('OPENAI_API_KEY'), ...)] build
    the client of the OpenAI API, which raises when it is given no key and
    the variable is not set. *)
Definition openai_client {S} : M S unit :=
  match environ env (py "OPENAI_API_KEY") with
  | Some _ => ret tt
  | None =>
      raise (ServiceError (py "openai")
               (py "The api_key client option must be set"))
  end.

End Outside.

(* --------------------------------------------------------------------- *)
(** ** tools/arxiv_tool.py *)
(* --------------------------------------------------------------------- *)

Module arxiv_tool.
Section WithEnv.
Variable env : Env.

(** The dictionary literal of the loop body. *)
Definition article_of (result : Result.t) : Article.t :=
  {| Article.title := Result.title result;
     Article.authors := map Author.name (Result.authors result);
     Article.summary := Result.summary result;
     Article.published := strftime_Ymd (Result.published result);
     Article.pdf_url := Result.pdf_url result;
     Article.entry_id := Result.entry_id result;
     Article.categories := Result.categories result;
     Article.primary_category := None |}.

Definition search_arxiv (keyword : str) (max_results : Z)
  : M World (list Article.t) :=
  try_except
    (let search :=
       {| Search.query := keyword;
          Search.max_results := max_results;
          Search.sort_by := SubmittedDate;
          Search.sort_order := Descending |} in
     rs <- results env search ;;
     ret (map article_of rs))
    (fun e => ret []).

End WithEnv.
End arxiv_tool.

(* --------------------------------------------------------------------- *)
(** ** mcp_servers/arxiv_server.py *)
(* --------------------------------------------------------------------- *)

Module arxiv_server.
Section WithEnv.
Variable env : Env.

Definition article_of (result : Result.t) : Article.t :=
  {| Article.title := Result.title result;
     Article.authors := map Author.name (Result.authors result);
     Article.summary := Result.summary result;
     Article.published := strftime_Ymd (Result.published result);
     Article.pdf_url := Result.pdf_url result;
     Article.entry_id := Result.entry_id result;
     Article.categories := Result.categories result;
     Article.primary_category := Some (Result.primary_category result) |}.

Definition text_content (data : Payload) : TextContent.t :=
  {| TextContent.type := py "text"; TextContent.text := json_dumps data |}.

(** The [inputSchema] that [list_tools] declares for the tool
    [search_arxiv]: [keyword] is required (a string), [max_results] is an
    integer with [minimum] 1 and [maximum] 50.  The value is the message of
    the first violation, [None] for arguments that conform. *)
Definition inputSchema (arguments : Arguments.t) : option str :=
  match Arguments.keyword arguments with
  | None => Some (py "'keyword' is a required property")
  | Some _ =>
      match Arguments.max_results arguments with
      | None => None
      | Some n =>
          if (n <? 1)%Z then
            Some (str_of_int n ++ py " is less than the minimum of 1")
          else if (50 <? n)%Z then
            Some (str_of_int n ++ py " is greater than the maximum of 50")
          else None
      end
  end.

(** [not keyword] for the value of [arguments.get("keyword")]. *)
Definition missing (keyword : option str) : bool :=
  match keyword with
  | None => true
  | Some [] => true
  | Some (_ :: _) => false
  end.

Definition search_arxiv_tool (arguments : Arguments.t)
  : M World (list TextContent.t) :=
  let keyword := Arguments.keyword arguments in
  let max_results :=
    match Arguments.max_results arguments with
    | Some n => n
    | None => 10%Z
    end in
  if missing keyword then
    ret [text_content
           (SearchError (py "Le paramètre 'keyword' est requis"))]
  else
    let keyword := match keyword with Some k => k | None => [] end in
    try_except
      (let search :=
         {| Search.query := keyword;
            Search.max_results := Z.min max_results 50;
            Search.sort_by := SubmittedDate;
            Search.sort_order := Descending |} in
       rs <- results env search ;;
       let articles := map article_of rs in
       ret [text_content
              (SearchOk keyword (Z.of_nat (List.length articles)) articles)])
      (fun e =>
         ret [text_content
                (SearchError
                   (py "Erreur lors de la recherche arXiv: " ++ str_of_exn e))]).

Definition call_tool (name : str) (arguments : Arguments.t)
  : M World (list TextContent.t) :=
  if str_eqb name (py "search_arxiv") then search_arxiv_tool arguments
  else raise (ServiceError (py "ValueError") (py "Outil inconnu: " ++ name)).

End WithEnv.
End arxiv_server.

(* --------------------------------------------------------------------- *)
(** ** tools/arxiv_mcp_client.py *)
(* --------------------------------------------------------------------- *)

Module arxiv_mcp_client.
Section WithEnv.
Variable env : Env.

(** [ArxivMCPClient.connect] and [disconnect]: the server process is
    started, the session opened and closed; each may fail. *)
Definition connect : M World unit := fallible env.
Definition disconnect : M World unit := fallible env.

(** The one-item error result of the MCP server library. *)
Definition error_result (message : str) : list TextContent.t :=
  [{| TextContent.type := py "text"; TextContent.text := PlainText message |}].

(** The strings of a request, which a task of the session writes to the
    transport as UTF-8 text. *)
Definition sendable (name : str) (arguments : Arguments.t) : bool :=
  encodable name
  && match Arguments.keyword arguments with
     | Some keyword => encodable keyword
     | None => true
     end.

(** What the session raises when one of its tasks has failed. *)
Definition session_failure : exn :=
  ServiceError (py "ExceptionGroup")
    (py "unhandled errors in a TaskGroup (1 sub-exception)").

(** [self.session.call_tool(name, arguments)] for a request that can be
    written: it crosses the transport; for a tool that [list_tools]
    declares, the MCP server library validates the arguments against the
    [inputSchema] of the tool and answers a violation with an error result,
    without running the handler; otherwise the server runs its [call_tool]
    handler, and the library turns an exception of the handler into an error
    result holding [str(e)]. *)
Definition session_call_tool (name : str) (arguments : Arguments.t)
  : M World (list TextContent.t) :=
  fallible env ;;
  match
    (if str_eqb name (py "search_arxiv")
     then arxiv_server.inputSchema arguments else None)
  with
  | Some violation =>
      ret (error_result (py "Input validation error: " ++ violation))
  | None =>
      try_except
        (arxiv_server.call_tool env name arguments)
        (fun e => ret (error_result (str_of_exn e)))
  end.

(** [ArxivMCPClient.search_arxiv], with the session already open.  A request
    that cannot be written fails the writer task of the transport, which
    cancels the session: the cancellation is no [Exception], so the [except]
    clause does not catch it, and the coroutine is left by the failure of
    the session. *)
Definition search_arxiv (keyword : str) (max_results : Z)
  : M World (list Article.t) :=
  let arguments :=
    {| Arguments.keyword := Some keyword;
       Arguments.max_results := Some max_results |} in
  if sendable (py "search_arxiv") arguments then
    try_except
      (content_list <- session_call_tool (py "search_arxiv") arguments ;;
       match content_list with
       | content :: _ =>
           data <- json_loads (TextContent.text content) ;;
           match data with
           | SearchOk _ _ articles => ret articles
           | SearchError _ => ret []
           end
       | [] => ret []
       end)
      (fun e => ret [])
  else raise session_failure.

(** [search_arxiv_sync]: the coroutine [_search] runs in a worker thread and
    [future.result(timeout=120)] waits for it; the wait itself may fail
    (time-out). *)
Definition _search (keyword : str) (max_results : Z)
  : M World (list Article.t) :=
  try_finally
    (connect ;;
     search_arxiv keyword max_results)
    disconnect.

Definition search_arxiv_sync (keyword : str) (max_results : Z)
  : M World (list Article.t) :=
  rs <- _search keyword max_results ;;
  fallible env ;;
  ret rs.

End WithEnv.
End arxiv_mcp_client.

(* --------------------------------------------------------------------- *)
(** ** tools/database.py *)
(* --------------------------------------------------------------------- *)

(** Insertion sort for the [ORDER BY] clauses ([le a b]: [a] may stand before
    [b]); rows that compare equal keep their order. *)
Fixpoint insert_by {A} (le : A -> A -> bool) (x : A) (l : list A) : list A :=
  match l with
  | [] => [x]
  | y :: rest => if le x y then x :: l else y :: insert_by le x rest
  end.

Definition sort_by {A} (le : A -> A -> bool) (l : list A) : list A :=
  fold_right (insert_by le) [] l.

(** The order of [double precision] in PostgreSQL: NaN is above every other
    value. *)
Definition float8_le (a b : float) : bool :=
  PrimFloat.is_nan b || PrimFloat.leb a b.

(** The order of character strings, code point by code point. *)
Fixpoint str_leb (a b : str) : bool :=
  match a, b with
  | [], _ => true
  | _ :: _, [] => false
  | x :: a', y :: b' =>
      if (x <? y)%N then true
      else if (y <? x)%N then false
      else str_leb a' b'
  end.

Module database.
Section WithEnv.
Variable env : Env.

Record ConnectionParams : Type := {
  host : str; port : str; database : str; user : str; password : str
}.

Record DatabaseManager : Type := { connection_params : ConnectionParams }.

(** A psycopg2 connection: the table as the open transaction sees it.  The
    statements executed on it show in the committed table at [commit]. *)
Record Connection : Type := { view : option (list Row.t) }.

Definition undefined_table : exn :=
  ServiceError (py "psycopg2") (py "relation articles does not exist").
Definition data_error : exn :=
  ServiceError (py "psycopg2") (py "value out of range for the column type").
Definition invalid_limit : exn :=
  ServiceError (py "psycopg2") (py "LIMIT must not be negative").
Definition adaptation_error : exn :=
  ServiceError (py "ValueError")
    (py "A string literal cannot contain NUL (0x00) characters.").
Definition sequence_error : exn :=
  ServiceError (py "psycopg2") (py "nextval: reached maximum value of sequence").

(** psycopg2 adapts a string parameter to a quoted literal in the encoding
    of the connection (UTF-8) before the statement is sent: it raises on a
    NUL character, and the codec raises on a lone surrogate. *)
Definition adaptable (s : str) : bool :=
  forallb (fun c => negb (c =? 0)%N) s && encodable s.

(** The value that a column of type [VARCHAR(n)] stores for a string: the
    string itself up to [n] characters, its first [n] characters when only
    spaces are cut, and an error otherwise. *)
Definition varchar (n : nat) (s : str) : option str :=
  if (List.length s <=? n)%nat then Some s
  else if forallb (fun c => (c =? 32)%N) (skipn n s) then Some (firstn n s)
  else None.

(** An element that the type [vector] takes.  psycopg2 writes a list of
    floats as [ARRAY[...]], and the cast to [vector] stores every element as
    a [real]: it refuses NaN, the infinities, the values that round to an
    infinity of [real] (from 0x1.ffffffp+127 on) and the values other than
    zero that round to zero (up to 0x1p-150). *)
Definition real_ok (x : float) : bool :=
  negb (PrimFloat.is_nan x)
  && PrimFloat.ltb (PrimFloat.abs x) 0x1.ffffffp+127%float
  && (PrimFloat.eqb x 0%float || PrimFloat.ltb 0x1p-150%float (PrimFloat.abs x)).

(** A list that the cast to [vector] takes: 1 to 16000 elements. *)
Definition vector_ok (v : list float) : bool :=
  (1 <=? Z.of_nat (List.length v))%Z && (Z.of_nat (List.length v) <=? 16000)%Z
  && forallb real_ok v.

(** [psycopg2.connect] on [self.connection_params] *)
Definition _get_connection (self : DatabaseManager) : M World Connection :=
  fallible env ;;
  w <- get ;;
  ret {| view := table w |}.

(** [conn.cursor()], [cursor.fetchall()], [cursor.close()], [conn.close()] *)
Definition cursor (conn : Connection) : M World unit := fallible env.
Definition fetchall (conn : Connection) : M World unit := fallible env.
Definition cursor_close (conn : Connection) : M World unit := fallible env.
Definition close (conn : Connection) : M World unit := fallible env.

(** [conn.commit()] *)
Definition commit (conn : Connection) : M World unit :=
  fallible env ;;
  modify (set_table (view conn)).

(** [CREATE EXTENSION IF NOT EXISTS vector;] *)
Definition create_extension (conn : Connection) : M World Connection :=
  fallible env ;;
  ret conn.

(** [CREATE TABLE IF NOT EXISTS articles (...);] *)
Definition create_table (conn : Connection) : M World Connection :=
  fallible env ;;
  ret {| view := match view conn with
                 | Some rows => Some rows
                 | None => Some []
                 end |}.

(** [CREATE INDEX IF NOT EXISTS articles_embedding_idx ON articles ...;] *)
Definition create_index (conn : Connection) : M World Connection :=
  fallible env ;;
  match view conn with
  | Some _ => ret conn
  | None => raise undefined_table
  end.

(** [nextval] of the sequence of [id SERIAL], which ends at the largest
    [integer]; sequences are not rolled back. *)
Definition nextval : M World Z :=
  w <- get ;;
  if (2147483647 <=? serial w)%Z then raise sequence_error
  else
    modify (set_serial (serial w + 1)%Z) ;;
    ret (serial w + 1)%Z.

(** The parameters of the [INSERT] statement. *)
Record Values : Type := {
  v_entry_id : str;
  v_title : str;
  v_authors : list str;
  v_summary : str;
  v_published : str;
  v_pdf_url : str;
  v_categories : list str;
  v_keyword : str;
  v_embedding : list float
}.

(** The string parameters of the statement that psycopg2 adapts as they
    are; the lists of authors and of categories are passed through
    [json.dumps], whose output is ASCII text. *)
Definition adaptable_values (v : Values) : bool :=
  adaptable (v_entry_id v) && adaptable (v_title v) && adaptable (v_summary v)
  && adaptable (v_published v) && adaptable (v_pdf_url v)
  && adaptable (v_keyword v).

(** The values as the columns of the table store them:
    [entry_id VARCHAR(255)], [published VARCHAR(20)],
    [keyword VARCHAR(255)], [embedding vector(1536)], the other columns of
    type [TEXT]; [None] when the server refuses a value. *)
Definition coerce (v : Values) : option Values :=
  match varchar 255 (v_entry_id v), varchar 20 (v_published v),
        varchar 255 (v_keyword v) with
  | Some entry_id, Some published, Some keyword =>
      if vector_ok (v_embedding v)
         && (List.length (v_embedding v) =? 1536)%nat
      then Some {| v_entry_id := entry_id;
                   v_title := v_title v;
                   v_authors := v_authors v;
                   v_summary := v_summary v;
                   v_published := published;
                   v_pdf_url := v_pdf_url v;
                   v_categories := v_categories v;
                   v_keyword := keyword;
                   v_embedding := v_embedding v |}
      else None
  | _, _, _ => None
  end.

(** The values that a working server stores as they are. *)
Definition fits_columns (v : Values) : bool :=
  adaptable_values v
  && (List.length (v_entry_id v) <=? 255)%nat
  && (List.length (v_published v) <=? 20)%nat
  && (List.length (v_keyword v) <=? 255)%nat
  && (List.length (v_embedding v) =? 1536)%nat
  && forallb real_ok (v_embedding v).

Definition has_entry_id (entry_id : str) (rows : list Row.t) : bool :=
  existsb (fun r => str_eqb (Row.entry_id r) entry_id) rows.

(** [INSERT INTO articles (...) VALUES (...) ON CONFLICT (entry_id) DO
    NOTHING;].  The driver adapts the parameters and sends the statement;
    the server checks the values against the column types when it analyses
    the statement, and draws the [id] and looks for a conflict when it runs
    it. *)
Definition insert_on_conflict_do_nothing (conn : Connection) (v : Values)
  : M World Connection :=
  (if adaptable_values v then ret tt else raise adaptation_error) ;;
  fallible env ;;
  match view conn with
  | None => raise undefined_table
  | Some rows =>
      match coerce v with
      | None => raise data_error
      | Some v =>
          new_id <- nextval ;;
          stamp <- now env ;;
          if has_entry_id (v_entry_id v) rows then ret conn
          else
            ret {| view :=
                     Some (rows ++
                           [{| Row.id := new_id;
                               Row.entry_id := v_entry_id v;
                               Row.title := v_title v;
                               Row.authors := v_authors v;
                               Row.summary := v_summary v;
                               Row.published := v_published v;
                               Row.pdf_url := v_pdf_url v;
                               Row.categories := v_categories v;
                               Row.keyword := v_keyword v;
                               Row.embedding := v_embedding v;
                               Row.created_at := stamp |}]) |}
      end
  end.

(** The selected columns of a row, as the dictionary built from it. *)
Definition stored_of (similarity : option float) (r : Row.t) : Stored.t :=
  {| Stored.id := Row.id r;
     Stored.entry_id := Row.entry_id r;
     Stored.title := Row.title r;
     Stored.authors := Row.authors r;
     Stored.summary := Row.summary r;
     Stored.published := Row.published r;
     Stored.pdf_url := Row.pdf_url r;
     Stored.categories := Row.categories r;
     Stored.similarity := similarity |}.

Definition with_keyword (keyword : str) (rows : list Row.t) : list Row.t :=
  filter (fun r => str_eqb (Row.keyword r) keyword) rows.

(** The rows selected by
    [SELECT ..., 1 - (embedding <=> q) AS similarity FROM articles
     WHERE keyword = k ORDER BY embedding <=> q LIMIT n;]: the rows of the
    keyword that the scan visits, the nearest first. *)
Definition nearest (query_embedding : list float) (keyword : str) (limit : Z)
    (rows : list Row.t) : list Stored.t :=
  let distance r := cosine_distance env (Row.embedding r) query_embedding in
  let visited :=
    filter (fun r => probed env query_embedding (Row.embedding r))
           (with_keyword keyword rows) in
  let ordered :=
    sort_by (fun a b => float8_le (distance a) (distance b)) visited in
  map (fun r => stored_of (Some (1 - distance r)%float) r)
      (firstn (Z.to_nat limit) ordered).

(** The statement of [search_similar_articles].  The cast [%s::vector]
    refuses a list that is no vector, [LIMIT] takes a [bigint] that is not
    negative, and the operator [<=>] raises on a stored vector of another
    dimension than the query. *)
Definition select_similar (conn : Connection) (query_embedding : list float)
    (keyword : str) (limit : Z) : M World (list Stored.t) :=
  (if adaptable keyword then ret tt else raise adaptation_error) ;;
  fallible env ;;
  match view conn with
  | None => raise undefined_table
  | Some rows =>
      if negb (vector_ok query_embedding) then raise data_error
      else if ((limit <? 0) || (9223372036854775807 <? limit))%Z then
        raise invalid_limit
      else if existsb
                (fun r =>
                   negb (List.length (Row.embedding r)
                         =? List.length query_embedding)%nat)
                (with_keyword keyword rows)
      then raise data_error
      else ret (nearest query_embedding keyword limit rows)
  end.

(** [SELECT ... FROM articles WHERE keyword = k ORDER BY published DESC;] *)
Definition select_by_keyword (conn : Connection) (keyword : str)
  : M World (list Stored.t) :=
  (if adaptable keyword then ret tt else raise adaptation_error) ;;
  fallible env ;;
  match view conn with
  | None => raise undefined_table
  | Some rows =>
      ret (map (stored_of None)
               (sort_by (fun a b => str_leb (Row.published b) (Row.published a))
                        (with_keyword keyword rows)))
  end.

(** [DELETE FROM articles WHERE keyword = k;] *)
Definition delete_by_keyword (conn : Connection) (keyword : str)
  : M World Connection :=
  (if adaptable keyword then ret tt else raise adaptation_error) ;;
  fallible env ;;
  match view conn with
  | None => raise undefined_table
  | Some rows =>
      ret {| view :=
               Some (filter (fun r => negb (str_eqb (Row.keyword r) keyword))
                            rows) |}
  end.

(** The [try] block of [_init_database]. *)
Definition _init_database_try (self : DatabaseManager) : M World unit :=
  conn <- _get_connection self ;;
  cursor conn ;;
  conn <- create_extension conn ;;
  conn <- create_table conn ;;
  conn <- create_index conn ;;
  commit conn ;;
  cursor_close conn ;;
  close conn.

Definition _init_database (self : DatabaseManager) : M World unit :=
  try_except (_init_database_try self) (fun e => ret tt).

(** [DatabaseManager()] *)
Definition __init__ : M World DatabaseManager :=
  let self :=
    {| connection_params :=
         {| host := getenv env (py "DB_HOST") (py "localhost");
            port := getenv env (py "DB_PORT") (py "5432");
            database := getenv env (py "DB_NAME") (py "veille_scientifique");
            user := getenv env (py "DB_USER") (py "veille_user");
            password := getenv env (py "DB_PASSWORD") (py "veille_password") |}
    |} in
  _init_database self ;;
  ret self.

(** The tuple of parameters that [insert_article] passes to
    [cursor.execute]. *)
Definition values_of (article : Article.t) (keyword : str)
    (embedding : list float) : Values :=
  {| v_entry_id := Article.entry_id article;
     v_title := Article.title article;
     v_authors := Article.authors article;
     v_summary := Article.summary article;
     v_published := Article.published article;
     v_pdf_url := Article.pdf_url article;
     v_categories := Article.categories article;
     v_keyword := keyword;
     v_embedding := embedding |}.

(** The [try] block of [insert_article]. *)
Definition insert_article_try (self : DatabaseManager) (article : Article.t)
    (keyword : str) (embedding : list float) : M World bool :=
  conn <- _get_connection self ;;
  cursor conn ;;
  conn <- insert_on_conflict_do_nothing conn
            (values_of article keyword embedding) ;;
  commit conn ;;
  cursor_close conn ;;
  close conn ;;
  ret true.

Definition insert_article (self : DatabaseManager) (article : Article.t)
    (keyword : str) (embedding : list float) : M World bool :=
  try_except
    (insert_article_try self article keyword embedding)
    (fun e => ret false).

(** The [try] block of [search_similar_articles]. *)
Definition search_similar_articles_try (self : DatabaseManager)
    (query_embedding : list float) (keyword : str) (limit : Z)
  : M World (list Stored.t) :=
  conn <- _get_connection self ;;
  cursor conn ;;
  rows <- select_similar conn query_embedding keyword limit ;;
  fetchall conn ;;
  cursor_close conn ;;
  close conn ;;
  ret rows.

Definition search_similar_articles (self : DatabaseManager)
    (query_embedding : list float) (keyword : str) (limit : Z)
  : M World (list Stored.t) :=
  try_except
    (search_similar_articles_try self query_embedding keyword limit)
    (fun e => ret []).

(** The [try] block of [get_all_articles_by_keyword]. *)
Definition get_all_articles_by_keyword_try (self : DatabaseManager)
    (keyword : str) : M World (list Stored.t) :=
  conn <- _get_connection self ;;
  cursor conn ;;
  rows <- select_by_keyword conn keyword ;;
  fetchall conn ;;
  cursor_close conn ;;
  close conn ;;
  ret rows.

Definition get_all_articles_by_keyword (self : DatabaseManager) (keyword : str)
  : M World (list Stored.t) :=
  try_except
    (get_all_articles_by_keyword_try self keyword)
    (fun e => ret []).

(** The [try] block of [clear_articles_by_keyword]. *)
Definition clear_articles_by_keyword_try (self : DatabaseManager)
    (keyword : str) : M World bool :=
  conn <- _get_connection self ;;
  cursor conn ;;
  conn <- delete_by_keyword conn keyword ;;
  commit conn ;;
  cursor_close conn ;;
  close conn ;;
  ret true.

Definition clear_articles_by_keyword (self : DatabaseManager) (keyword : str)
  : M World bool :=
  try_except
    (clear_articles_by_keyword_try self keyword)
    (fun e => ret false).

End WithEnv.
End database.

(* --------------------------------------------------------------------- *)
(** ** tools/rag_tool.py *)
(* --------------------------------------------------------------------- *)

Module rag_tool.
Section WithEnv.
Variable env : Env.

Record RAGTool : Type := { db_manager : database.DatabaseManager }.

(** [RAGTool()] *)
Definition __init__ : M World RAGTool :=
  openai_client env ;;
  dbm <- database.__init__ env ;;
  ret {| db_manager := dbm |}.

(** [self.embeddings.embed_query(text)] *)
Definition embed_query (text : str) : M World (list float) :=
  external (fun t => embedding_api env t text).

Definition embed_and_store_article (self : RAGTool) (article : Article.t)
    (keyword : str) : M World bool :=
  try_except
    (let text_to_embed :=
       Article.title article ++ nl ++ nl ++ Article.summary article in
     embedding <- embed_query text_to_embed ;;
     database.insert_article env (db_manager self) article keyword embedding)
    (fun e => ret false).

Definition retrieve_relevant_articles (self : RAGTool) (query keyword : str)
    (top_k : Z) : M World (list Stored.t) :=
  try_except
    (query_embedding <- embed_query query ;;
     articles <- database.search_similar_articles env (db_manager self)
                   query_embedding keyword top_k ;;
     ret articles)
    (fun e => ret []).

(** One element of [context_parts]. *)
Definition context_part (article : Stored.t) : str :=
  py "Titre: " ++ Stored.title article ++ nl
  ++ py "Résumé: " ++ Stored.summary article ++ nl.

Definition delimiter : str := nl ++ py "---" ++ nl.

Definition get_context_for_summary (self : RAGTool)
    (article_title keyword : str) : M World str :=
  try_except
    (articles <- retrieve_relevant_articles self article_title keyword 3 ;;
     let context_parts := map context_part articles in
     ret (join delimiter context_parts))
    (fun e => ret []).

(** The loop of [store_multiple_articles], with its counter. *)
Fixpoint store_loop (self : RAGTool) (articles : list Article.t)
    (keyword : str) (success_count : Z) : M World Z :=
  match articles with
  | [] => ret success_count
  | article :: rest =>
      stored <- embed_and_store_article self article keyword ;;
      store_loop self rest keyword
        (if stored then success_count + 1 else success_count)%Z
  end.

Definition store_multiple_articles (self : RAGTool)
    (articles : list Article.t) (keyword : str) : M World Z :=
  store_loop self articles keyword 0.

Definition get_all_articles (self : RAGTool) (keyword : str)
  : M World (list Stored.t) :=
  database.get_all_articles_by_keyword env (db_manager self) keyword.

End WithEnv.
End rag_tool.

(* --------------------------------------------------------------------- *)
(** ** tools/pdf_generator.py *)
(* --------------------------------------------------------------------- *)

(** [os.path.join(a, b)] on a POSIX system. *)
Definition os_path_join (a b : str) : str :=
  match b with
  | 47%N :: _ => b
  | _ =>
      match rev a with
      | [] => b
      | 47%N :: _ => a ++ b
      | _ => a ++ py "/" ++ b
      end
  end.

Module pdf_generator.
Section WithEnv.
Variable env : Env.

Definition markup_error : exn :=
  ServiceError (py "ValueError") (py "paragraph text is not valid markup").

(** [Paragraph(text, style)]: the constructor parses the markup of the text
    and raises on a text that the parser refuses. *)
Definition paragraph (text style : str) : M World Flowable :=
  if parses env text then ret (Paragraph text style) else raise markup_error.

Definition _create_cover_page (keyword : str) : M World (list Flowable) :=
  title <- paragraph (py "Rapport de Veille Scientifique") (py "CustomTitle") ;;
  keyword_text <- paragraph (py "<b>Mot-clé :</b> " ++ keyword) (py "Heading2") ;;
  d <- now env ;;
  date_text <- paragraph (py "<b>Date :</b> " ++ strftime_cover d) (py "Normal") ;;
  ret [Spacer 30; title; Spacer 10; keyword_text; Spacer 10; date_text].

Definition _create_global_summary (global_summary : str)
  : M World (list Flowable) :=
  section_title <- paragraph (py "Synthèse Globale") (py "SectionTitle") ;;
  let formatted_summary := replace 10 (py "<br/>") global_summary in
  summary_paragraph <- paragraph formatted_summary (py "Justified") ;;
  ret [section_title; Spacer 5; summary_paragraph].

(** The flowables of one article, [idx] counting from 1 and [total] being
    [len(article_summaries)]. *)
Definition article_elements (idx total : Z) (article : ArticleSummary.t)
  : M World (list Flowable) :=
  article_title <-
    paragraph (py "<b>Article " ++ str_of_int idx ++ py " :</b> "
               ++ ArticleSummary.title article) (py "ArticleTitle") ;;
  let authors := ArticleSummary.authors article in
  let authors_text := join (py ", ") (firstn 3 authors) in
  let authors_text :=
    if (3 <? Z.of_nat (List.length authors))%Z then
      authors_text ++ py " et "
      ++ str_of_int (Z.of_nat (List.length authors) - 3) ++ py " autres"
    else authors_text in
  authors <- paragraph (py "<b>Auteurs :</b> " ++ authors_text) (py "Normal") ;;
  published <-
    paragraph (py "<b>Date de publication :</b> "
               ++ ArticleSummary.published article) (py "Normal") ;;
  let summary_text := replace 10 (py "<br/>") (ArticleSummary.summary article) in
  summary <-
    paragraph (py "<b>Résumé :</b><br/>" ++ summary_text) (py "Justified") ;;
  link <-
    paragraph (py "<b>Lien arXiv :</b> <a href='"
               ++ ArticleSummary.pdf_url article ++ py "'>"
               ++ ArticleSummary.pdf_url article ++ py "</a>") (py "Normal") ;;
  ret ([article_title; Spacer 2; authors; Spacer 2; published; Spacer 2;
        summary; Spacer 3; link; Spacer 5]
       ++ (if (idx <? total)%Z then [Spacer 3] else [])).

Fixpoint article_loop (idx total : Z) (article_summaries : list ArticleSummary.t)
  : M World (list Flowable) :=
  match article_summaries with
  | [] => ret []
  | article :: rest =>
      elements <- article_elements idx total article ;;
      more <- article_loop (idx + 1) total rest ;;
      ret (elements ++ more)
  end.

Definition _create_article_summaries (article_summaries : list ArticleSummary.t)
  : M World (list Flowable) :=
  section_title <- paragraph (py "Résumés des Articles") (py "SectionTitle") ;;
  elements <-
    article_loop 1 (Z.of_nat (List.length article_summaries)) article_summaries ;;
  ret ([section_title; Spacer 5] ++ elements).

(** [doc.build(story)]: the layout is computed and the file written. *)
Definition build (output_path : str) (story : list Flowable) : M World unit :=
  laid_out env output_path story ;;
  modify (fun w => set_files ((output_path, story) :: files w) w).

Definition generate_report (keyword global_summary : str)
    (article_summaries : list ArticleSummary.t) (output_path : str)
  : M World str :=
  try_except
    (cover <- _create_cover_page keyword ;;
     synthesis <- _create_global_summary global_summary ;;
     articles <- _create_article_summaries article_summaries ;;
     let story := cover ++ [PageBreak] ++ synthesis ++ [PageBreak] ++ articles in
     build output_path story ;;
     ret output_path)
    (fun e => ret []).

(** [os.makedirs(output_dir, exist_ok=True)] *)
Definition makedirs (output_dir : str) : M World unit :=
  on_path env output_dir.

Definition generate_pdf_report (keyword global_summary : str)
    (article_summaries : list ArticleSummary.t) (output_dir : str)
  : M World str :=
  makedirs output_dir ;;
  d <- now env ;;
  let timestamp := strftime_stamp d in
  let filename :=
    py "rapport_veille_" ++ replace 32 (py "_") keyword ++ py "_"
    ++ timestamp ++ py ".pdf" in
  let output_path := os_path_join output_dir filename in
  generate_report keyword global_summary article_summaries output_path.

End WithEnv.
End pdf_generator.

(* --------------------------------------------------------------------- *)
(** ** agents.py *)
(* --------------------------------------------------------------------- *)

(** [s.lower()] on the letters A to Z. *)
Definition lower (s : str) : str :=
  map (fun c => if ((65 <=? c) && (c <=? 90))%N then (c + 32)%N else c) s.

(** The dictionary returned by [run_complete_workflow].  [None] stands for a
    key that the literal leaves out; both literals have the key ['pdf_path'],
    whose value [None] is Python's [None]. *)
Module RunResult.
Record t : Type := {
  success : bool;
  keyword : option str;
  articles_count : option Z;
  quick_summary : option str;
  global_synthesis : option str;
  article_summaries : option (list ArticleSummary.t);
  pdf_path : option str;
  error : option str
}.
End RunResult.

Module agents.
Section WithEnv.
Variable env : Env.

Definition USE_MCP_ARXIV : bool :=
  str_eqb (lower (getenv env (py "USE_MCP_ARXIV") (py "true"))) (py "true").

(** The import selected at module load. *)
Definition search_arxiv : str -> Z -> M World (list Article.t) :=
  if USE_MCP_ARXIV then arxiv_mcp_client.search_arxiv_sync env
  else arxiv_tool.search_arxiv env.

Record VeilleScientifiqueCrew : Type := {
  keyword : str;
  max_articles : Z;
  rag_tool : rag_tool.RAGTool;
  articles : list Article.t;
  article_summaries : list ArticleSummary.t
}.

(** The methods run on the instance [self] and the world. *)
Definition Method (A : Type) : Type := M (VeilleScientifiqueCrew * World) A.

Definition self : Method VeilleScientifiqueCrew :=
  fun s => (Returns (fst s), s).

Definition set_articles (l : list Article.t) : Method unit :=
  modify (fun s =>
    ({| keyword := keyword (fst s);
        max_articles := max_articles (fst s);
        rag_tool := rag_tool (fst s);
        articles := l;
        article_summaries := article_summaries (fst s) |}, snd s)).

(** [self.article_summaries.append(d)] *)
Definition append_summary (d : ArticleSummary.t) : Method unit :=
  modify (fun s =>
    ({| keyword := keyword (fst s);
        max_articles := max_articles (fst s);
        rag_tool := rag_tool (fst s);
        articles := articles (fst s);
        article_summaries := article_summaries (fst s) ++ [d] |}, snd s)).

Definition world {A} (m : M World A) : Method A := lift_snd m.

(** [VeilleScientifiqueCrew(keyword, max_articles)] *)
Definition __init__ (keyword : str) (max_articles : Z)
  : M World VeilleScientifiqueCrew :=
  rag <- rag_tool.__init__ env ;;
  (* self.llm = ChatOpenAI(...) *)
  openai_client env ;;
  ret {| keyword := keyword;
         max_articles := max_articles;
         rag_tool := rag;
         articles := [];
         article_summaries := [] |}.

Definition create_summarizer_agent : Agent.t :=
  {| Agent.role := py "Analyseur et Résumeur d'Articles";
     Agent.goal := py "Créer des résumés précis et concis des articles scientifiques en utilisant le contexte RAG";
     Agent.backstory :=
       py "Chercheur scientifique spécialisé dans l'analyse et la synthèse "
       ++ py "d'articles académiques. Tu excelles dans l'extraction des points clés "
       ++ py "et la création de résumés fidèles au contenu original, sans ajout d'information." |}.

Definition create_synthesizer_agent : Agent.t :=
  {| Agent.role := py "Synthétiseur de Veille Scientifique";
     Agent.goal := py "Créer une synthèse globale cohérente des tendances et découvertes scientifiques";
     Agent.backstory :=
       py "Expert en veille scientifique avec une vision d'ensemble exceptionnelle. "
       ++ py "Tu es capable d'identifier les tendances émergentes, les points communs "
       ++ py "et les découvertes importantes à travers plusieurs articles scientifiques." |}.

(** [Crew(agents=[agent], tasks=[task], process=Process.sequential).kickoff()]
    followed by [str(result)]. *)
Definition kickoff (task : Task.t) : M World str :=
  external (fun t => llm_api env t task).

Definition execute_collection : Method (list Article.t) :=
  me <- self ;;
  found <- world (search_arxiv (keyword me) (max_articles me)) ;;
  set_articles found ;;
  match found with
  | [] => ret []
  | _ :: _ =>
      stored_count <-
        world (rag_tool.store_multiple_articles env (rag_tool me) found
                 (keyword me)) ;;
      ret found
  end.

(** The task built for one article by the loop of [execute_summarization]. *)
Definition summary_task (article : Article.t) (context : str) : Task.t :=
  {| Task.description :=
       py "Résumer l'article suivant en 5-8 phrases basées UNIQUEMENT sur le contenu fourni :" ++ nl ++ nl
       ++ py "Titre : " ++ Article.title article ++ nl
       ++ py "Résumé original : " ++ Article.summary article ++ nl ++ nl
       ++ py "Contexte additionnel (si pertinent) :" ++ nl ++ context ++ nl ++ nl
       ++ py "Règles strictes :" ++ nl
       ++ py "- Ne jamais inventer ou ajouter d'informations" ++ nl
       ++ py "- Rester fidèle au contenu de l'article" ++ nl
       ++ py "- Être clair et concis";
     Task.agent := create_summarizer_agent;
     Task.expected_output := py "Un résumé détaillé de 5-8 phrases" |}.

(** The body of the loop of [execute_summarization]. *)
Definition summarize_one (article : Article.t) : Method unit :=
  me <- self ;;
  context <-
    world (rag_tool.get_context_for_summary env (rag_tool me)
             (Article.title article) (keyword me)) ;;
  result <- world (kickoff (summary_task article context)) ;;
  append_summary
    {| ArticleSummary.title := Article.title article;
       ArticleSummary.authors := Article.authors article;
       ArticleSummary.published := Article.published article;
       ArticleSummary.pdf_url := Article.pdf_url article;
       ArticleSummary.summary := result |}.

Definition execute_summarization : Method (list ArticleSummary.t) :=
  me <- self ;;
  match articles me with
  | [] => ret []
  | _ :: _ =>
      for_each (articles me) summarize_one ;;
      me <- self ;;
      ret (article_summaries me)
  end.

(** One line of [titles_and_summaries]. *)
Definition digest_line (article : Article.t) : str :=
  py "- " ++ Article.title article ++ py ": "
  ++ slice_to 200 (Article.summary article) ++ py "...".

Definition quick_task (keyword : str) (articles : list Article.t) : Task.t :=
  let titles_and_summaries :=
    join (nl ++ nl) (map digest_line (firstn 3 articles)) in
  {| Task.description :=
       py "Créer un résumé ultra-concis de 2-3 phrases maximum sur les principales découvertes "
       ++ py "concernant " ++ dq ++ keyword ++ dq ++ py " basé sur ces articles :" ++ nl ++ nl
       ++ titles_and_summaries ++ nl ++ nl
       ++ py "Le résumé doit être immédiatement compréhensible et informatif.";
     Task.agent := create_summarizer_agent;
     Task.expected_output := py "Un résumé de 2-3 phrases maximum" |}.

Definition execute_quick_summary : Method str :=
  me <- self ;;
  match articles me with
  | [] => ret (py "Aucun article trouvé pour ce mot-clé.")
  | _ :: _ =>
      quick_summary <- world (kickoff (quick_task (keyword me) (articles me))) ;;
      ret quick_summary
  end.

(** One block of [all_summaries]. *)
Definition synthesis_block (article : ArticleSummary.t) : str :=
  py "Article : " ++ ArticleSummary.title article ++ nl
  ++ py "Résumé : " ++ ArticleSummary.summary article.

Definition synthesis_task (keyword : str)
    (article_summaries : list ArticleSummary.t) : Task.t :=
  let all_summaries := join (nl ++ nl) (map synthesis_block article_summaries) in
  {| Task.description :=
       py "Créer une synthèse globale complète sur " ++ dq ++ keyword ++ dq
       ++ py " en analysant "
       ++ py "les résumés suivants :" ++ nl ++ nl ++ all_summaries ++ nl ++ nl
       ++ py "Identifier :" ++ nl
       ++ py "1. Les tendances principales et thèmes récurrents" ++ nl
       ++ py "2. Les découvertes ou innovations importantes" ++ nl
       ++ py "3. Les points de convergence entre les articles" ++ nl
       ++ py "4. Les perspectives futures et implications" ++ nl ++ nl
       ++ py "Synthèse de 10-15 phrases, structurée et cohérente.";
     Task.agent := create_synthesizer_agent;
     Task.expected_output := py "Une synthèse globale structurée de 10-15 phrases" |}.

Definition execute_global_synthesis : Method str :=
  me <- self ;;
  match article_summaries me with
  | [] => ret (py "Aucun résumé disponible pour créer une synthèse.")
  | _ :: _ =>
      global_synthesis <-
        world (kickoff (synthesis_task (keyword me) (article_summaries me))) ;;
      ret global_synthesis
  end.

Definition generate_pdf_report (global_synthesis output_dir : str) : Method str :=
  me <- self ;;
  pdf_path <-
    world (pdf_generator.generate_pdf_report env (keyword me) global_synthesis
             (article_summaries me) output_dir) ;;
  ret pdf_path.

Definition no_articles : RunResult.t :=
  {| RunResult.success := false;
     RunResult.error := Some (py "Aucun article trouvé");
     RunResult.quick_summary := Some (py "Aucun article trouvé pour ce mot-clé.");
     RunResult.pdf_path := None;
     RunResult.keyword := None;
     RunResult.articles_count := None;
     RunResult.global_synthesis := None;
     RunResult.article_summaries := None |}.

Definition run_complete_workflow : Method RunResult.t :=
  (* 1. Collecte des articles *)
  found <- execute_collection ;;
  match found with
  | [] => ret no_articles
  | _ :: _ =>
      (* 2. Génération du résumé rapide *)
      quick_summary <- execute_quick_summary ;;
      (* 3. Résumé des articles avec RAG *)
      summaries <- execute_summarization ;;
      (* 4. Synthèse globale *)
      global_synthesis <- execute_global_synthesis ;;
      (* 5. Génération du PDF *)
      pdf_path <- generate_pdf_report global_synthesis (py "reports") ;;
      me <- self ;;
      ret {| RunResult.success := true;
             RunResult.keyword := Some (keyword me);
             RunResult.articles_count := Some (Z.of_nat (List.length found));
             RunResult.quick_summary := Some quick_summary;
             RunResult.global_synthesis := Some global_synthesis;
             RunResult.article_summaries := Some summaries;
             RunResult.pdf_path := Some pdf_path;
             RunResult.error := None |}
  end.

(** A method call on a fresh instance that is dropped afterwards. *)
Definition call {A} (crew : VeilleScientifiqueCrew) (m : Method A) : M World A :=
  fun w =>
    match m (crew, w) with
    | (r, (_, w')) => (r, w')
    end.

End WithEnv.
End agents.

(* --------------------------------------------------------------------- *)
(** ** backend/api.py *)
(* --------------------------------------------------------------------- *)

Module SearchRequest.
Record t : Type := { keyword : str; max_articles : Z }.
End SearchRequest.

Module SearchResponse.
Record t : Type := {
  success : bool;
  keyword : option str;
  articles_count : option Z;
  quick_summary : option str;
  global_synthesis : option str;
  article_summaries : option (list ArticleSummary.t);
  pdf_path : option str;
  error : option str
}.
End SearchResponse.

(** The body of a request to [POST /api/search], by what FastAPI makes of it
    before the handler: the instance of [SearchRequest] that the handler
    receives; the errors of a body that fails the model (a missing
    [keyword], a [max_articles] that is no integer, a body that is no JSON
    document); or a body that cannot be read (bytes that are no text in
    UTF-8, UTF-16 or UTF-32). *)
Inductive RequestBody : Type :=
| Validated (request : SearchRequest.t)
| Unprocessable (errors : str)
| Unreadable.

(** What FastAPI sends back: the status line and the body. *)
Inductive Body : Type :=
| Model (response : SearchResponse.t)
| Detail (detail : str).

Module HTTPResponse.
Record t : Type := { status_code : Z; body : Body }.
End HTTPResponse.

Module api.
Section WithEnv.
Variable env : Env.

(** [SearchResponse] built from the keys of [results] *)
Definition SearchResponse_of (results : RunResult.t) : SearchResponse.t :=
  {| SearchResponse.success := RunResult.success results;
     SearchResponse.keyword := RunResult.keyword results;
     SearchResponse.articles_count := RunResult.articles_count results;
     SearchResponse.quick_summary := RunResult.quick_summary results;
     SearchResponse.global_synthesis := RunResult.global_synthesis results;
     SearchResponse.article_summaries := RunResult.article_summaries results;
     SearchResponse.pdf_path := RunResult.pdf_path results;
     SearchResponse.error := RunResult.error results |}.

(** [not s] for a string. *)
Definition empty (s : str) : bool :=
  match s with
  | [] => true
  | _ :: _ => false
  end.

(** The two tests of the validation block. *)
Definition keyword_rejected (request : SearchRequest.t) : bool :=
  empty (SearchRequest.keyword request)
  || str_eqb (strip (SearchRequest.keyword request)) [].

Definition max_articles_rejected (request : SearchRequest.t) : bool :=
  ((SearchRequest.max_articles request <? 1)
   || (50 <? SearchRequest.max_articles request))%Z.

Definition search_articles (request : SearchRequest.t)
  : M World SearchResponse.t :=
  try_except
    ( (* Validation *)
     (if keyword_rejected request then
        raise (HTTPException 400 (py "Le mot-clé ne peut pas être vide"))
      else ret tt) ;;
     (if max_articles_rejected request then
        raise (HTTPException 400
                 (py "Le nombre d'articles doit être entre 1 et 50"))
      else ret tt) ;;
     (* Création de l'équipe d'agents *)
     crew <- agents.__init__ env (SearchRequest.keyword request)
               (SearchRequest.max_articles request) ;;
     (* Exécution du workflow *)
     results <- agents.call crew (agents.run_complete_workflow env) ;;
     ret (SearchResponse_of results))
    (fun e =>
       raise (HTTPException 500
                (py "Erreur lors du traitement : " ++ str_of_exn e))).

Definition internal_server_error : HTTPResponse.t :=
  {| HTTPResponse.status_code := 500;
     HTTPResponse.body := Detail (py "Internal Server Error") |}.

Definition encodable_option (o : option str) : bool :=
  match o with
  | Some s => encodable s
  | None => true
  end.

(** The response is sent as UTF-8 JSON: all its strings must encode. *)
Definition renders (response : SearchResponse.t) : bool :=
  encodable_option (SearchResponse.keyword response)
  && encodable_option (SearchResponse.quick_summary response)
  && encodable_option (SearchResponse.global_synthesis response)
  && match SearchResponse.article_summaries response with
     | Some summaries =>
         forallb
           (fun summary =>
              encodable (ArticleSummary.title summary)
              && forallb encodable (ArticleSummary.authors summary)
              && encodable (ArticleSummary.published summary)
              && encodable (ArticleSummary.pdf_url summary)
              && encodable (ArticleSummary.summary summary))
           summaries
     | None => true
     end
  && encodable_option (SearchResponse.pdf_path response)
  && encodable_option (SearchResponse.error response).

(** The route [POST /api/search].  FastAPI reads the body and validates it
    against [SearchRequest]; without calling the handler, it answers 400
    when it cannot read the body and 422 when the body fails the model.
    Otherwise it answers 200 with the model that the handler returns, the
    status and detail of the [HTTPException] that it raises, and 500 for
    any other exception, among them the failure to encode the response. *)
Definition post_api_search (body : RequestBody)
  : World -> HTTPResponse.t * World :=
  fun w =>
    match body with
    | Unreadable =>
        ({| HTTPResponse.status_code := 400;
            HTTPResponse.body :=
              Detail (py "There was an error parsing the body") |}, w)
    | Unprocessable errors =>
        ({| HTTPResponse.status_code := 422;
            HTTPResponse.body := Detail errors |}, w)
    | Validated request =>
        match search_articles request w with
        | (Returns response, w') =>
            if renders response then
              ({| HTTPResponse.status_code := 200;
                  HTTPResponse.body := Model response |}, w')
            else (internal_server_error, w')
        | (Raises (HTTPException status_code detail), w') =>
            ({| HTTPResponse.status_code := status_code;
                HTTPResponse.body := Detail detail |}, w')
        | (Raises _, w') => (internal_server_error, w')
        end
    end.

End WithEnv.
End api.

(* --------------------------------------------------------------------- *)
(** ** config.py and healthcheck.py *)
(* --------------------------------------------------------------------- *)

(** [s.startswith(prefix)] *)
Definition startswith (s prefix : str) : bool :=
  str_eqb (firstn (List.length prefix) s) prefix.

(** [bool(s)] for a string. *)
Definition truthy (s : str) : bool :=
  match s with
  | [] => false
  | _ :: _ => true
  end.

Module config.
Section WithEnv.
Variable env : Env.

(** The class attributes that [validate] and [get_db_url] read; they are
    evaluated when the module is loaded. *)
Definition DB_HOST : str := getenv env (py "DB_HOST") (py "localhost").
Definition DB_PORT : str := getenv env (py "DB_PORT") (py "5432").
Definition DB_NAME : str := getenv env (py "DB_NAME") (py "veille_scientifique").
Definition DB_USER : str := getenv env (py "DB_USER") (py "veille_user").
Definition DB_PASSWORD : str := getenv env (py "DB_PASSWORD") (py "veille_password").
Definition OPENAI_API_KEY : str := getenv env (py "OPENAI_API_KEY") [].

(** The dictionary returned by [Config.validate()]. *)
Record Validation : Type := { openai_api_key : bool; db_config : bool }.

Definition validate : Validation :=
  {| openai_api_key :=
       truthy OPENAI_API_KEY
       && negb (str_eqb OPENAI_API_KEY (py "your_openrouter_api_key_here"))
       && startswith OPENAI_API_KEY (py "sk-");
     db_config :=
       forallb truthy [DB_HOST; DB_PORT; DB_NAME; DB_USER; DB_PASSWORD] |}.

Definition get_db_url : str :=
  py "postgresql://" ++ DB_USER ++ py ":" ++ DB_PASSWORD ++ py "@" ++ DB_HOST
  ++ py ":" ++ DB_PORT ++ py "/" ++ DB_NAME.

End WithEnv.
End config.

Module healthcheck.
Section WithEnv.
Variable env : Env.

Definition check_openai_api_key : bool :=
  let api_key := getenv env (py "OPENAI_API_KEY") [] in
  truthy api_key
  && negb (str_eqb api_key (py "your_openrouter_api_key_here"))
  && startswith api_key (py "sk-").

End WithEnv.
End healthcheck.

Unset Implicit Arguments.

(* ===================================================================== *)
(** * Vocabulary of the statements *)
(* ===================================================================== *)

(** The instance after [self.articles = l]. *)
Definition with_articles (l : list Article.t)
    (me : agents.VeilleScientifiqueCrew) : agents.VeilleScientifiqueCrew :=
  {| agents.keyword := agents.keyword me;
     agents.max_articles := agents.max_articles me;
     agents.rag_tool := agents.rag_tool me;
     agents.articles := l;
     agents.article_summaries := agents.article_summaries me |}.

(** The instance after [self.article_summaries.append(d)]. *)
Definition with_summary (d : ArticleSummary.t)
    (me : agents.VeilleScientifiqueCrew) : agents.VeilleScientifiqueCrew :=
  {| agents.keyword := agents.keyword me;
     agents.max_articles := agents.max_articles me;
     agents.rag_tool := agents.rag_tool me;
     agents.articles := agents.articles me;
     agents.article_summaries := agents.article_summaries me ++ [d] |}.

(** The dictionary that [execute_summarization] appends for [article] when
    the LLM answered [result]. *)
Definition summary_of (article : Article.t) (result : str) : ArticleSummary.t :=
  {| ArticleSummary.title := Article.title article;
     ArticleSummary.authors := Article.authors article;
     ArticleSummary.published := Article.published article;
     ArticleSummary.pdf_url := Article.pdf_url article;
     ArticleSummary.summary := result |}.

(** [summary] was built from [article]: every field but the generated text
    is the article's. *)
Definition summarizes (article : Article.t) (summary : ArticleSummary.t) : Prop :=
  ArticleSummary.title summary = Article.title article
  /\ ArticleSummary.authors summary = Article.authors article
  /\ ArticleSummary.published summary = Article.published article
  /\ ArticleSummary.pdf_url summary = Article.pdf_url article.

(** What the quick digest reads of the collected articles: the title and the
    first 200 characters of the abstract of the first three. *)
Definition digest_view (l : list Article.t) : list (str * str) :=
  map (fun a => (Article.title a, slice_to 200 (Article.summary a)))
      (firstn 3 l).

(** The list that a computation returned, [[]] when it raised. *)
Definition returned {A} (o : outcome (list A)) : list A :=
  match o with
  | Returns l => l
  | Raises _ => []
  end.


(* ===================================================================== *)
(** * Sample inputs *)
(* ===================================================================== *)

Module Sample.

Definition date : datetime :=
  {| year := 2024; month := 3; day := 7; hour := 9; minute := 5; second := 1 |}.

(** The [n]-th paper of the archive. *)
Definition result (n : nat) : Result.t :=
  {| Result.title := py "Paper " ++ str_of_int (Z.of_nat n);
     Result.authors := [{| Author.name := py "Ada" |}; {| Author.name := py "Bob" |}];
     Result.summary := py "Abstract of paper " ++ str_of_int (Z.of_nat n);
     Result.published := date;
     Result.pdf_url := py "http://arxiv.org/pdf/" ++ str_of_int (Z.of_nat n);
     Result.entry_id := py "http://arxiv.org/abs/" ++ str_of_int (Z.of_nat n);
     Result.categories := [py "cs.AI"; py "cs.CL"];
     Result.primary_category := py "cs.AI" |}.

(** The first [n] papers. *)
Definition pool (n : nat) : list Result.t := map result (seq 1 n).

Definition boom : exn := ServiceError (py "openai") (py "connection reset").

(** An LLM that always answers. *)
Definition llm_ok : nat -> Task.t -> outcome str :=
  fun _ _ => Returns (py "ok").

(** An LLM that fails on every task of the synthesizer agent. *)
Definition llm_no_synthesis : nat -> Task.t -> outcome str :=
  fun _ task =>
    if str_eqb (Agent.role (Task.agent task))
               (py "Synthétiseur de Veille Scientifique")
    then Raises boom else Returns (py "ok").


Definition letter (c : N) : bool :=
  ((65 <=? c) && (c <=? 90) || (97 <=? c) && (c <=? 122))%N.

(** The name of a tag: its text up to the first space. *)
Fixpoint tag_name (body : str) : str :=
  match body with
  | [] => []
  | c :: rest => if (c =? 32)%N then [] else c :: tag_name rest
  end.

(** A paragraph parser for the sample runs.  A ['<'] followed by a letter or
    by ['/'] starts a tag, which ends at the next ['>']; a tag that ends in
    ['/'] stands alone; the other tags must be closed in the order in which
    they were opened.  [opened] holds the names of the open tags and [tag]
    the text of the tag being read, last character first. *)
Fixpoint tags_closed (opened : list str) (tag : option str) (s : str) : bool :=
  match s with
  | [] =>
      match tag, opened with
      | None, [] => true
      | _, _ => false
      end
  | c :: rest =>
      match tag with
      | None =>
          if (c =? 60)%N then
            match rest with
            | c' :: _ =>
                if letter c' || (c' =? 47)%N then tags_closed opened (Some []) rest
                else tags_closed opened None rest
            | [] => tags_closed opened None rest
            end
          else tags_closed opened None rest
      | Some read =>
          if (c =? 62)%N then
            match read, rev read with
            | 47%N :: _, _ => tags_closed opened None rest
            | _, 47%N :: name =>
                match opened with
                | top :: more =>
                    if str_eqb top name then tags_closed more None rest else false
                | [] => false
                end
            | _, body => tags_closed (tag_name body :: opened) None rest
            end
          else tags_closed opened (Some (c :: read)) rest
      end
  end.

Definition markup (text : str) : bool := tags_closed [] None text.

(** A file system for the sample runs: the working directory holds no
    directory but those that the run makes, so a file can be created in a
    directory made by the run and not below it; and no name holds a NUL
    character. *)
Definition no_such_directory : exn :=
  ServiceError (py "OSError") (py "No such file or directory").

Definition disk (t : nat) (path : str) : option exn :=
  if forallb (fun c => negb (c =? 0)%N) path
     && (count_occ N.eq_dec path 47%N <=? 1)%nat
  then None else Some no_such_directory.

Definition environment (use_mcp : bool) (name : str) : option str :=
  if str_eqb name (py "USE_MCP_ARXIV")
  then Some (if use_mcp then py "true" else py "false")
  else if str_eqb name (py "OPENAI_API_KEY") then Some (py "sk-or-v1-sample")
  else None.

(** An outside where the archive holds [available] papers and hands out as
    many as the search asks for, the embedding service, the database and the
    file system work, the planner scans the table, [USE_MCP_ARXIV] is set as
    told, and the LLM is [llm]. *)
Definition env (use_mcp : bool) (available : nat)
    (llm : nat -> Task.t -> outcome str) : Env :=
  {| environ := environment use_mcp;
     arxiv_api := fun _ search =>
       Returns (firstn (Z.to_nat (Search.max_results search)) (pool available));
     embedding_api := fun _ _ => Returns (repeat 0%float 1536);
     llm_api := llm;
     fault := fun _ => None;
     file_system := disk;
     layout := fun t path story => disk t path;
     parses := markup;
     cosine_distance := fun _ _ => 0%float;
     probed := fun _ _ => true;
     clock := fun _ => date |}.

(** The same outside with the arXiv API down. *)
Definition env_arxiv_down : Env :=
  {| environ := environment true;
     arxiv_api := fun _ _ => Raises (ServiceError (py "arxiv") (py "HTTP 503"));
     embedding_api := fun _ _ => Returns (repeat 0%float 1536);
     llm_api := llm_ok;
     fault := fun _ => None;
     file_system := disk;
     layout := fun t path story => disk t path;
     parses := markup;
     cosine_distance := fun _ _ => 0%float;
     probed := fun _ _ => true;
     clock := fun _ => date |}.

(** A database whose table exists and is empty. *)
Definition world : World :=
  {| tick := 0; table := Some []; serial := 0; files := [] |}.

Definition dbm : database.DatabaseManager :=
  {| database.connection_params :=
       {| database.host := py "localhost";
          database.port := py "5432";
          database.database := py "veille_scientifique";
          database.user := py "veille_user";
          database.password := py "veille_password" |} |}.

(** A fresh instance, as [VeilleScientifiqueCrew(keyword, max_articles)]
    leaves it. *)
Definition crew (keyword : str) (max_articles : Z) : agents.VeilleScientifiqueCrew :=
  {| agents.keyword := keyword;
     agents.max_articles := max_articles;
     agents.rag_tool := {| rag_tool.db_manager := dbm |};
     agents.articles := [];
     agents.article_summaries := [] |}.

(** An instance that has collected the first [n] papers. *)
Definition crew_with (n : nat) : agents.VeilleScientifiqueCrew :=
  with_articles (map arxiv_tool.article_of (pool n)) (crew (py "llm") 10).

End Sample.

(** The database server and the MCP transport do not fail from the instant
    [t0] on. *)
Definition no_fault_from (env : Env) (t0 : nat) : Prop :=
  forall t, t0 <= t -> fault env t = None.

(** The row that the [INSERT] statement adds for the values [v]. *)
Definition row_of (new_id : Z) (stamp : datetime) (v : database.Values) : Row.t :=
  {| Row.id := new_id;
     Row.entry_id := database.v_entry_id v;
     Row.title := database.v_title v;
     Row.authors := database.v_authors v;
     Row.summary := database.v_summary v;
     Row.published := database.v_published v;
     Row.pdf_url := database.v_pdf_url v;
     Row.categories := database.v_categories v;
     Row.keyword := database.v_keyword v;
     Row.embedding := database.v_embedding v;
     Row.created_at := stamp |}.

(** The rows stored under the external id [entry_id]. *)
Definition rows_with_id (entry_id : str) (rows : list Row.t) : list Row.t :=
  filter (fun r => str_eqb (Row.entry_id r) entry_id) rows.

(** Two articles whose abstracts agree on their first 200 characters only. *)
Definition long_article (tail : str) : Article.t :=
  {| Article.title := py "A long paper";
     Article.authors := [py "Ada"];
     Article.summary := repeat 97%N 200 ++ tail;
     Article.published := py "2024-03-07";
     Article.pdf_url := py "http://arxiv.org/pdf/0";
     Article.entry_id := py "http://arxiv.org/abs/0";
     Article.categories := [py "cs.AI"];
     Article.primary_category := None |}.

(** An instance with four articles and [max_articles = 20]. *)
Definition crew_of_four : agents.VeilleScientifiqueCrew :=
  with_articles
    (long_article (py " and the rest")
       :: map arxiv_tool.article_of (Sample.pool 3))
    (Sample.crew (py "llm") 20).

(** An instance with the same first two articles, another tail in the first
    abstract, another third article beyond its title and abstract, and one
    summary computed already. *)
Definition crew_of_three : agents.VeilleScientifiqueCrew :=
  with_summary
    (summary_of (long_article (py " but not this")) (py "done"))
    (with_articles
       (long_article (py " but not this")
          :: map arxiv_server.article_of (Sample.pool 2))
       (Sample.crew (py "llm") 3)).

(** A world whose table holds the first paper under the keyword ["llm"]. *)
Definition world_with_paper : World :=
  {| tick := 0;
     table :=
       Some [row_of 1 Sample.date
               (database.values_of (arxiv_tool.article_of (Sample.result 1))
                  (py "llm") (repeat 0%float 1536))];
     serial := 1;
     files := [] |}.

(** What the synthesis reads of the summaries: their titles and texts. *)
Definition synthesis_view (l : list ArticleSummary.t) : list (str * str) :=
  map (fun s => (ArticleSummary.title s, ArticleSummary.summary s)) l.

(** The texts of the article headings of a story, in order. *)
Definition headings (story : list Flowable) : list str :=
  flat_map
    (fun f =>
       match f with
       | Paragraph text style =>
           if str_eqb style (py "ArticleTitle") then [text] else []
       | _ => []
       end)
    story.

(** The five texts that the report hands to [Paragraph] for the article at
    the position [idx], counted from 1: the heading, the authors, the date,
    the summary and the link. *)
Definition article_texts (idx : Z) (article : ArticleSummary.t) : list str :=
  [py "<b>Article " ++ str_of_int idx ++ py " :</b> "
   ++ ArticleSummary.title article;
   py "<b>Auteurs :</b> "
   ++ (if (3 <? Z.of_nat (List.length (ArticleSummary.authors article)))%Z then
         join (py ", ") (firstn 3 (ArticleSummary.authors article)) ++ py " et "
         ++ str_of_int (Z.of_nat (List.length (ArticleSummary.authors article)) - 3)
         ++ py " autres"
       else join (py ", ") (firstn 3 (ArticleSummary.authors article)));
   py "<b>Date de publication :</b> " ++ ArticleSummary.published article;
   py "<b>Résumé :</b><br/>"
   ++ replace 10 (py "<br/>") (ArticleSummary.summary article);
   py "<b>Lien arXiv :</b> <a href='" ++ ArticleSummary.pdf_url article
   ++ py "'>" ++ ArticleSummary.pdf_url article ++ py "</a>"].

(** The texts that the article section hands to [Paragraph]: its title and
    the texts of the articles, numbered from 1. *)
Definition section_texts (summaries : list ArticleSummary.t) : list str :=
  py "Résumés des Articles"
  :: List.concat (map (fun p => article_texts (Z.of_nat (fst p)) (snd p))
               (combine (seq 1 (List.length summaries)) summaries)).

(** All the texts that a report hands to [Paragraph], [stamp] being the date
    of the cover. *)
Definition report_texts (keyword global_summary : str)
    (summaries : list ArticleSummary.t) (stamp : datetime) : list str :=
  [py "Rapport de Veille Scientifique";
   py "<b>Mot-clé :</b> " ++ keyword;
   py "<b>Date :</b> " ++ strftime_cover stamp;
   py "Synthèse Globale";
   replace 10 (py "<br/>") global_summary]
  ++ section_texts summaries.

(** [env] with another behaviour of the fallible operations. *)
Definition with_fault (f : nat -> option exn) (env : Env) : Env :=
  {| environ := environ env;
     arxiv_api := arxiv_api env;
     embedding_api := embedding_api env;
     llm_api := llm_api env;
     fault := f;
     file_system := file_system env;
     layout := layout env;
     parses := parses env;
     cosine_distance := cosine_distance env;
     probed := probed env;
     clock := clock env |}.


(** [env] with another distance between vectors. *)
Definition with_distance (f : list float -> list float -> float) (env : Env) : Env :=
  {| environ := environ env;
     arxiv_api := arxiv_api env;
     embedding_api := embedding_api env;
     llm_api := llm_api env;
     fault := fault env;
     file_system := file_system env;
     layout := layout env;
     parses := parses env;
     cosine_distance := f;
     probed := probed env;
     clock := clock env |}.

(** The sample outside in which the sixth fallible operation from the start
    fails. *)
Definition env_sixth_fails : Env :=
  with_fault (fun t => if Nat.eqb t 5 then Some Sample.boom else None)
    (Sample.env false 1 Sample.llm_ok).


(** An instance without articles that holds the summary of
    [crew_of_three]. *)
Definition crew_with_summary_only : agents.VeilleScientifiqueCrew :=
  with_summary
    (summary_of (long_article (py " and the rest")) (py "done"))
    (Sample.crew (py "llm") 5).

Definition paper (n : nat) : Article.t := arxiv_tool.article_of (Sample.result n).

Definition zeros : list float := repeat 0%float 1536.

(** The vector whose first element is [x], the others being zero. *)
Definition vector_at (x : float) : list float := x :: repeat 0%float 1535.

(** The gap between the first elements of two vectors, as a distance. *)
Definition gap (a b : list float) : float :=
  PrimFloat.abs (hd 0%float a - hd 0%float b)%float.

(** The sample outside with [gap] as the distance of vectors; its embedding
    service places every text at the origin. *)
Definition env_gap : Env := with_distance gap (Sample.env false 5 Sample.llm_ok).

(** The row of the paper [n], stored under [keyword] at the gap [x] from the
    origin. *)
Definition row_at (n : nat) (x : float) (keyword : str) : Row.t :=
  row_of (Z.of_nat n) Sample.date
    (database.values_of (paper n) keyword (vector_at x)).

(** A table with four papers under ["llm"], at the gaps 0.5, 0.125, 0.375
    and 0.25 from the origin, and a fifth paper, at the origin, under another
    keyword. *)
Definition world_of_five : World :=
  {| tick := 0;
     table :=
       Some [row_at 1 0.5 (py "llm"); row_at 2 0.125 (py "llm");
             row_at 3 0.375 (py "llm"); row_at 4 0.25 (py "llm");
             row_at 5 0 (py "vision")];
     serial := 5;
     files := [] |}.

(** A keyword of 256 letters. *)
Definition long_keyword : str := repeat 97%N 256.

(* --------------------------------------------------------------------- *)
(** ** Properties of computations *)
(* --------------------------------------------------------------------- *)

(** A computation is [total] when it returns in every state. *)
Definition total {S A} (m : M S A) : Prop :=
  forall s, exists a s', m s = (Returns a, s').

(** [keeps f m]: running [m] leaves the observation [f] of the state as it
    was, on both exits. *)
Definition keeps {S X A} (f : S -> X) (m : M S A) : Prop :=
  forall s, f (snd (m s)) = f s.

(** The files and the table, for the methods, whose state is the instance
    and the world. *)
Definition files_of (s : agents.VeilleScientifiqueCrew * World) := files (snd s).

Definition table_of (s : agents.VeilleScientifiqueCrew * World) := table (snd s).

(* ===================================================================== *)
(** * Reasoning about computations *)
(* ===================================================================== *)

Lemma bind_returns {S A B} (m : M S A) (k : A -> M S B) s a s' :
  m s = (Returns a, s') -> bind m k s = k a s'.
Proof. intros H. unfold bind. rewrite H. reflexivity. Qed.

Lemma bind_raises {S A B} (m : M S A) (k : A -> M S B) s e s' :
  m s = (Raises e, s') -> bind m k s = (Raises e, s').
Proof. intros H. unfold bind. rewrite H. reflexivity. Qed.

Lemma total_ret {S A} (a : A) : total (@ret S A a).
Proof. intros s. exists a, s. reflexivity. Qed.

Lemma total_bind {S A B} (m : M S A) (k : A -> M S B) :
  total m -> (forall a, total (k a)) -> total (bind m k).
Proof.
  intros Hm Hk s. destruct (Hm s) as (a & s' & E).
  rewrite (bind_returns m k s a s' E). apply Hk.
Qed.

(** An [except Exception] clause whose handler returns makes the statement
    total. *)
Lemma total_try_except {S A} (body : M S A) (handler : exn -> M S A) :
  (forall e, total (handler e)) -> total (try_except body handler).
Proof.
  intros Hh s. unfold try_except.
  destruct (body s) as [[a | e] s'].
  - exists a, s'. reflexivity.
  - apply Hh.
Qed.

Lemma try_except_returns {S A} (body : M S A) handler s a s' :
  body s = (Returns a, s') -> try_except body handler s = (Returns a, s').
Proof. intros H. unfold try_except. rewrite H. reflexivity. Qed.

Lemma try_except_raises {S A} (body : M S A) handler s e s' :
  body s = (Raises e, s') -> try_except body handler s = handler e s'.
Proof. intros H. unfold try_except. rewrite H. reflexivity. Qed.

Section Keeps.
Context {S X : Type} (f : S -> X).

Lemma keeps_ret {A} (a : A) : keeps f (ret a).
Proof. intros s. reflexivity. Qed.

Lemma keeps_raise {A} e : keeps f (@raise S A e).
Proof. intros s. reflexivity. Qed.

Lemma keeps_get : keeps f get.
Proof. intros s. reflexivity. Qed.

Lemma keeps_bind {A B} (m : M S A) (k : A -> M S B) :
  keeps f m -> (forall a, keeps f (k a)) -> keeps f (bind m k).
Proof.
  intros Hm Hk s. unfold bind. specialize (Hm s).
  destruct (m s) as [[a | e] s']; simpl in *.
  - rewrite Hk. exact Hm.
  - exact Hm.
Qed.

Lemma keeps_try_except {A} (body : M S A) handler :
  keeps f body -> (forall e, keeps f (handler e)) ->
  keeps f (try_except body handler).
Proof.
  intros Hb Hh s. unfold try_except. specialize (Hb s).
  destruct (body s) as [[a | e] s']; simpl in *.
  - exact Hb.
  - rewrite Hh. exact Hb.
Qed.

Lemma keeps_try_finally {A} (body : M S A) cleanup :
  keeps f body -> keeps f cleanup -> keeps f (try_finally body cleanup).
Proof.
  intros Hb Hc s. unfold try_finally. specialize (Hb s).
  destruct (body s) as [r s']. specialize (Hc s').
  destruct (cleanup s') as [[u | e] s'']; simpl in *; congruence.
Qed.

Lemma keeps_modify (g : S -> S) :
  (forall s, f (g s) = f s) -> keeps f (modify g).
Proof. intros H s. simpl. apply H. Qed.

Lemma keeps_for_each {A} (xs : list A) (body : A -> M S unit) :
  (forall x, keeps f (body x)) -> keeps f (for_each xs body).
Proof.
  intros H. induction xs as [| x xs IH]; simpl.
  - apply keeps_ret.
  - apply keeps_bind; auto.
Qed.

End Keeps.

Lemma keeps_lift_snd {S1 S2 X A} (f : S2 -> X) (m : M S2 A) :
  keeps f m -> keeps (fun s : S1 * S2 => f (snd s)) (lift_snd m).
Proof.
  intros H s. unfold lift_snd. specialize (H (snd s)).
  destruct (m (snd s)) as [r s2]. exact H.
Qed.

Lemma keeps_lift_fst {S1 S2 A} (m : M S2 A) :
  keeps (fun s : S1 * S2 => fst s) (lift_snd m).
Proof.
  intros s. unfold lift_snd. destruct (m (snd s)) as [r s2]. reflexivity.
Qed.

(** The calls to the outside only advance the clock. *)
Lemma keeps_external {X A} (f : World -> X) (answer : nat -> outcome A) :
  (forall t w, f (set_tick t w) = f w) -> keeps f (external answer).
Proof. intros H w. unfold external. simpl. apply H. Qed.

Ltac frame_step :=
  lazymatch goal with
  | |- keeps _ (ret _) => apply keeps_ret
  | |- keeps _ (raise _) => apply keeps_raise
  | |- keeps _ get => apply keeps_get
  | |- keeps _ (bind _ _) => apply keeps_bind; [| intro]
  | |- keeps _ (try_except _ _) => apply keeps_try_except; [| intro]
  | |- keeps _ (try_finally _ _) => apply keeps_try_finally
  | |- keeps _ (external _) => apply keeps_external; first [ assumption | intros; reflexivity ]
  | |- keeps _ (modify _) => apply keeps_modify; intros; reflexivity
  | |- keeps _ (for_each _ _) => apply keeps_for_each; intro
  | |- keeps _ (lift_snd _) => apply (keeps_lift_snd _)
  | |- keeps _ (match ?x with _ => _ end) => destruct x
  end.

Ltac frame := repeat first [ frame_step | progress cbv zeta | assumption ].

Create HintDb pipeline.

#[local] Hint Unfold fallible on_path laid_out now results
  arxiv_tool.search_arxiv
  arxiv_server.search_arxiv_tool arxiv_server.call_tool
  arxiv_mcp_client.connect arxiv_mcp_client.disconnect
  arxiv_mcp_client.session_call_tool arxiv_mcp_client.search_arxiv
  arxiv_mcp_client._search arxiv_mcp_client.search_arxiv_sync
  json_loads : pipeline.

Lemma search_arxiv_direct_keeps_table env keyword n :
  keeps table (arxiv_tool.search_arxiv env keyword n).
Proof. autounfold with pipeline. frame. Qed.

Lemma search_arxiv_sync_keeps_table env keyword n :
  keeps table (arxiv_mcp_client.search_arxiv_sync env keyword n).
Proof. repeat (autounfold with pipeline; frame). Qed.

(** The two outcomes of a fallible operation. *)
Lemma fallible_fault env w e :
  fault env (tick w) = Some e ->
  fallible env w = (Raises e, set_tick (S (tick w)) w).
Proof. intros H. unfold fallible, external. rewrite H. reflexivity. Qed.

Lemma fallible_ok env w :
  fault env (tick w) = None ->
  fallible env w = (Returns tt, set_tick (S (tick w)) w).
Proof. intros H. unfold fallible, external. rewrite H. reflexivity. Qed.

(** A computation that only returns. *)
Lemma ret_returns {S A} (a b : A) (s s' : S) :
  ret a s = (Returns b, s') -> a = b /\ s = s'.
Proof. unfold ret. intros H. injection H as <- <-. auto. Qed.


Lemma bind_raise {S A B} e (k : A -> M S B) s :
  bind (raise e) k s = (Raises e, s).
Proof. reflexivity. Qed.

Lemma bind_ret {S A B} (a : A) (k : A -> M S B) s :
  bind (ret a) k s = k a s.
Proof. reflexivity. Qed.

(* ===================================================================== *)
(** * The search endpoint (backend/api.py) *)
(* ===================================================================== *)

(** A request that fails one of the two validation tests raises
    [HTTPException(400)] inside the [try] block, and the [except Exception]
    clause of the handler turns it into [HTTPException(500)]; nothing else
    has run by then. *)
Lemma rejected_request_raises_500 env request w :
  api.keyword_rejected request || api.max_articles_rejected request = true ->
  exists detail,
    api.search_articles env request w = (Raises (HTTPException 500 detail), w).
Proof.
  intros H. unfold api.search_articles.
  destruct (api.keyword_rejected request) eqn:K.
  - eexists. erewrite try_except_raises by apply bind_raise. reflexivity.
  - rewrite orb_false_l in H. rewrite H.
    eexists. erewrite try_except_raises.
    2:{ rewrite bind_ret. apply bind_raise. }
    reflexivity.
Qed.

(** C1 (as the code behaves).  The requests with an empty keyword, a blank
    keyword, [max_articles = 0] and [max_articles = 51] are answered with
    status 500, not with a client-error status: the 400 raised by the
    validation is caught by the handler's own [except Exception] clause.  The
    world is left as it was: no pipeline stage has run. *)
Theorem invalid_request_answered_500 env w :
  api.post_api_search env
    (Validated
       {| SearchRequest.keyword := py ""; SearchRequest.max_articles := 10 |}) w
  = ({| HTTPResponse.status_code := 500;
        HTTPResponse.body :=
          Detail (py "Erreur lors du traitement : 400: Le mot-clé ne peut pas être vide") |},
     w)
  /\ api.post_api_search env
       (Validated
          {| SearchRequest.keyword := py "   "; SearchRequest.max_articles := 10 |}) w
     = ({| HTTPResponse.status_code := 500;
           HTTPResponse.body :=
             Detail (py "Erreur lors du traitement : 400: Le mot-clé ne peut pas être vide") |},
        w)
  /\ api.post_api_search env
       (Validated
          {| SearchRequest.keyword := py "llm"; SearchRequest.max_articles := 0 |}) w
     = ({| HTTPResponse.status_code := 500;
           HTTPResponse.body :=
             Detail (py "Erreur lors du traitement : 400: Le nombre d'articles doit être entre 1 et 50") |},
        w)
  /\ api.post_api_search env
       (Validated
          {| SearchRequest.keyword := py "llm"; SearchRequest.max_articles := 51 |}) w
     = ({| HTTPResponse.status_code := 500;
           HTTPResponse.body :=
             Detail (py "Erreur lors du traitement : 400: Le nombre d'articles doit être entre 1 et 50") |},
        w).
Proof. split; [| split; [| split]]; vm_compute; reflexivity. Qed.

(* ===================================================================== *)
(** * The search paths only talk to the outside *)
(* ===================================================================== *)

Lemma search_arxiv_direct_keeps {X} (f : World -> X) env keyword n :
  (forall t w, f (set_tick t w) = f w) ->
  keeps f (arxiv_tool.search_arxiv env keyword n).
Proof. intros H. autounfold with pipeline. frame. Qed.

Lemma search_arxiv_sync_keeps {X} (f : World -> X) env keyword n :
  (forall t w, f (set_tick t w) = f w) ->
  keeps f (arxiv_mcp_client.search_arxiv_sync env keyword n).
Proof. intros H. repeat (autounfold with pipeline; frame). Qed.

Lemma search_arxiv_keeps {X} (f : World -> X) env keyword n :
  (forall t w, f (set_tick t w) = f w) ->
  keeps f (agents.search_arxiv env keyword n).
Proof.
  intros H. unfold agents.search_arxiv.
  destruct (agents.USE_MCP_ARXIV env).
  - apply search_arxiv_sync_keeps, H.
  - apply search_arxiv_direct_keeps, H.
Qed.

(* ===================================================================== *)
(** * The orchestrator (agents.py) *)
(* ===================================================================== *)

(** [execute_collection], by the outcome of the search. *)
Lemma execute_collection_eq env me w :
  agents.execute_collection env (me, w) =
  match agents.search_arxiv env (agents.keyword me) (agents.max_articles me) w with
  | (Returns [], w1) => (Returns [], (with_articles [] me, w1))
  | (Returns (a :: l), w1) =>
      match rag_tool.store_multiple_articles env (agents.rag_tool me)
              (a :: l) (agents.keyword me) w1 with
      | (Returns _, w2) => (Returns (a :: l), (with_articles (a :: l) me, w2))
      | (Raises e, w2) => (Raises e, (with_articles (a :: l) me, w2))
      end
  | (Raises e, w1) => (Raises e, (me, w1))
  end.
Proof.
  unfold agents.execute_collection, agents.self, agents.world,
    agents.set_articles, lift_snd, modify, bind, ret; cbn [fst snd].
  destruct (agents.search_arxiv env (agents.keyword me) (agents.max_articles me) w)
    as [[[| a l] | e] w1]; cbn [fst snd]; try reflexivity.
  destruct (rag_tool.store_multiple_articles env (agents.rag_tool me) (a :: l)
              (agents.keyword me) w1) as [[n | e] w2]; reflexivity.
Qed.

(** C5.  When the collection stage yields no article, the workflow returns
    the failure result (success false, the fixed error message, the fixed
    no-results digest, no report path) and runs no later stage: the instance
    and the world are those the collection left, where the table and the
    files are those of the start and no summary has been added. *)
Theorem no_articles_short_circuit env me w :
  fst (agents.execute_collection env (me, w)) = Returns [] ->
  fst (agents.run_complete_workflow env (me, w))
  = Returns
      {| RunResult.success := false;
         RunResult.keyword := None;
         RunResult.articles_count := None;
         RunResult.quick_summary := Some (py "Aucun article trouvé pour ce mot-clé.");
         RunResult.global_synthesis := None;
         RunResult.article_summaries := None;
         RunResult.pdf_path := None;
         RunResult.error := Some (py "Aucun article trouvé") |}
  /\ snd (agents.run_complete_workflow env (me, w))
     = snd (agents.execute_collection env (me, w))
  /\ table (snd (snd (agents.run_complete_workflow env (me, w)))) = table w
  /\ files (snd (snd (agents.run_complete_workflow env (me, w)))) = files w
  /\ agents.article_summaries (fst (snd (agents.run_complete_workflow env (me, w))))
     = agents.article_summaries me.
Proof.
  intros H.
  assert (E : agents.run_complete_workflow env (me, w)
              = (Returns agents.no_articles,
                 snd (agents.execute_collection env (me, w)))).
  { unfold agents.run_complete_workflow, bind.
    destruct (agents.execute_collection env (me, w)) as [[found | e] s1];
      cbn [fst snd] in *; [| discriminate].
    injection H as ->. reflexivity. }
  rewrite E. cbn [fst snd]. split; [reflexivity |]. split; [reflexivity |].
  rewrite execute_collection_eq in *.
  pose proof (search_arxiv_keeps table env (agents.keyword me)
                (agents.max_articles me) (fun _ _ => eq_refl) w) as Ht.
  pose proof (search_arxiv_keeps files env (agents.keyword me)
                (agents.max_articles me) (fun _ _ => eq_refl) w) as Hf.
  destruct (agents.search_arxiv env (agents.keyword me) (agents.max_articles me) w)
    as [[[| a l] | e] w1]; cbn [fst snd] in *.
  - auto.
  - destruct (rag_tool.store_multiple_articles env (agents.rag_tool me) (a :: l)
                (agents.keyword me) w1) as [[n | e] w2]; discriminate.
  - discriminate.
Qed.

(** [Crew.kickoff] is one call of the LLM. *)
Lemma kickoff_eq env task w :
  agents.kickoff env task w = (llm_api env (tick w) task, set_tick (S (tick w)) w).
Proof. reflexivity. Qed.

Lemma execute_quick_summary_eq env me w :
  agents.execute_quick_summary env (me, w) =
  match agents.articles me with
  | [] => (Returns (py "Aucun article trouvé pour ce mot-clé."), (me, w))
  | _ :: _ =>
      (llm_api env (tick w) (agents.quick_task (agents.keyword me) (agents.articles me)),
       (me, set_tick (S (tick w)) w))
  end.
Proof.
  unfold agents.execute_quick_summary, agents.self, agents.world, lift_snd,
    agents.kickoff, external, bind, ret; cbn [fst snd].
  destruct (agents.articles me) as [| a l]; [reflexivity |].
  cbn [fst snd].
  destruct (llm_api env (tick w) (agents.quick_task (agents.keyword me) (a :: l)));
    reflexivity.
Qed.

Lemma digest_lines_view l :
  map agents.digest_line (firstn 3 l)
  = map (fun p => py "- " ++ fst p ++ py ": " ++ snd p ++ py "...") (digest_view l).
Proof. unfold digest_view. rewrite map_map. reflexivity. Qed.

Lemma quick_task_view keyword l1 l2 :
  digest_view l1 = digest_view l2 ->
  agents.quick_task keyword l1 = agents.quick_task keyword l2.
Proof.
  intros H. unfold agents.quick_task.
  rewrite !digest_lines_view, H. reflexivity.
Qed.

Lemma digest_view_nil l : digest_view l = [] -> l = [].
Proof. destruct l; [reflexivity | discriminate]. Qed.

(** C7.  With articles collected, the quick digest is the answer of the LLM
    to one task.  The description of the task names the keyword and lists,
    for the first three articles in their order, the title and the first 200
    characters of the abstract, and nothing else of the instance: neither
    the other articles, nor the rest of the abstracts, nor [max_articles],
    nor the summaries.  The call leaves the instance as it was, and without
    articles the digest is the fixed message and the LLM is not called.  So
    two instances with the same keyword that agree on the titles and the
    first 200 characters of the abstracts of their first three articles get
    the same digest from the same world. *)
Theorem quick_digest_reads_first_three env me w :
  (agents.articles me <> [] ->
   agents.execute_quick_summary env (me, w)
   = (llm_api env (tick w)
        {| Task.description :=
             py "Créer un résumé ultra-concis de 2-3 phrases maximum sur les principales découvertes "
             ++ py "concernant " ++ dq ++ agents.keyword me ++ dq
             ++ py " basé sur ces articles :" ++ nl ++ nl
             ++ join (nl ++ nl)
                  (map (fun article =>
                          py "- " ++ Article.title article ++ py ": "
                          ++ firstn 200 (Article.summary article) ++ py "...")
                       (firstn 3 (agents.articles me)))
             ++ nl ++ nl
             ++ py "Le résumé doit être immédiatement compréhensible et informatif.";
           Task.agent := agents.create_summarizer_agent;
           Task.expected_output := py "Un résumé de 2-3 phrases maximum" |},
      (me, set_tick (S (tick w)) w)))
  /\ (agents.articles me = [] ->
      agents.execute_quick_summary env (me, w)
      = (Returns (py "Aucun article trouvé pour ce mot-clé."), (me, w)))
  /\ (forall me2,
        agents.keyword me = agents.keyword me2 ->
        digest_view (agents.articles me) = digest_view (agents.articles me2) ->
        fst (agents.execute_quick_summary env (me, w))
        = fst (agents.execute_quick_summary env (me2, w))
        /\ snd (snd (agents.execute_quick_summary env (me, w)))
           = snd (snd (agents.execute_quick_summary env (me2, w))))
  /\ fst (snd (agents.execute_quick_summary env (me, w))) = me.
Proof.
  split; [| split; [| split]].
  - intros Hne. rewrite execute_quick_summary_eq.
    destruct (agents.articles me) as [| a l]; [now elim Hne |].
    unfold agents.quick_task, agents.digest_line, slice_to. reflexivity.
  - intros H. rewrite execute_quick_summary_eq, H. reflexivity.
  - intros me2 Hk Hv. rewrite !execute_quick_summary_eq.
    destruct (agents.articles me) as [| a1 l1] eqn:E1;
      destruct (agents.articles me2) as [| a2 l2] eqn:E2; cbn [fst snd].
    + auto.
    + symmetry in Hv. apply digest_view_nil in Hv. discriminate.
    + apply digest_view_nil in Hv. discriminate.
    + rewrite Hk, (quick_task_view (agents.keyword me2) _ _ Hv). auto.
  - rewrite execute_quick_summary_eq.
    destruct (agents.articles me); reflexivity.
Qed.

(* ===================================================================== *)
(** * The retrieval context (tools/rag_tool.py) never raises *)
(* ===================================================================== *)

Lemma get_context_for_summary_total env self article_title keyword :
  total (rag_tool.get_context_for_summary env self article_title keyword).
Proof.
  unfold rag_tool.get_context_for_summary.
  apply total_try_except. intros e. apply total_ret.
Qed.

(* ===================================================================== *)
(** * The summarization loop *)
(* ===================================================================== *)

(** One turn of the loop: the context is fetched, the LLM is called once, and
    the summary is appended when the call returns. *)
Lemma summarize_one_eq env article me w :
  exists context w1,
    rag_tool.get_context_for_summary env (agents.rag_tool me)
      (Article.title article) (agents.keyword me) w = (Returns context, w1)
    /\ agents.summarize_one env article (me, w)
       = match llm_api env (tick w1) (agents.summary_task article context) with
         | Returns result =>
             (Returns tt,
              (with_summary (summary_of article result) me,
               set_tick (S (tick w1)) w1))
         | Raises e => (Raises e, (me, set_tick (S (tick w1)) w1))
         end.
Proof.
  destruct (get_context_for_summary_total env (agents.rag_tool me)
              (Article.title article) (agents.keyword me) w)
    as (context & w1 & E).
  exists context, w1. split; [exact E |].
  unfold agents.summarize_one, agents.self, agents.world, lift_snd,
    agents.kickoff, agents.append_summary, external, modify, bind;
    cbn [fst snd].
  rewrite E; cbn [fst snd].
  destruct (llm_api env (tick w1) (agents.summary_task article context));
    reflexivity.
Qed.

(** The invariant of the loop.  Whatever the exit, the summaries appended so
    far were built, in order, from the first articles of the list; on a normal
    exit there is one for every article; an exception is the one that the LLM
    raised on the task of the first article without a summary. *)
Lemma summarize_loop env articles :
  forall me w r me' w',
    for_each articles (agents.summarize_one env) (me, w) = (r, (me', w')) ->
    exists new,
      agents.article_summaries me' = agents.article_summaries me ++ new
      /\ Forall2 summarizes (firstn (List.length new) articles) new
      /\ agents.keyword me' = agents.keyword me
      /\ agents.articles me' = agents.articles me
      /\ agents.rag_tool me' = agents.rag_tool me
      /\ match r with
         | Returns _ => List.length new = List.length articles
         | Raises e =>
             exists article context t,
               nth_error articles (List.length new) = Some article
               /\ llm_api env t (agents.summary_task article context) = Raises e
         end.
Proof.
  induction articles as [| article rest IH]; intros me w r me' w' H.
  - cbn in H. injection H as <- <- <-. exists [].
    rewrite app_nil_r. repeat split; constructor.
  - cbn [for_each] in H. unfold bind in H.
    destruct (summarize_one_eq env article me w) as (context & w1 & _ & E).
    rewrite E in H.
    destruct (llm_api env (tick w1) (agents.summary_task article context))
      as [result | e] eqn:L.
    + apply IH in H. destruct H as (new & Hs & Hf & Hk & Ha & Hr & Hx).
      exists (summary_of article result :: new). cbn in Hs, Hk, Ha, Hr.
      rewrite <- app_assoc in Hs. cbn [app] in Hs.
      split; [exact Hs |]. split.
      { cbn. constructor; [| exact Hf]. repeat split. }
      split; [exact Hk |]. split; [exact Ha |]. split; [exact Hr |].
      destruct r as [u | e].
      * cbn. f_equal. exact Hx.
      * cbn. exact Hx.
    + injection H as <- <- <-. exists []. rewrite app_nil_r.
      split; [reflexivity |]. split; [constructor |].
      repeat split. exists article, context, (tick w1). split; [reflexivity | exact L].
Qed.

Lemma execute_summarization_eq env me w :
  agents.execute_summarization env (me, w) =
  match agents.articles me with
  | [] => (Returns [], (me, w))
  | _ :: _ =>
      match for_each (agents.articles me) (agents.summarize_one env) (me, w) with
      | (Returns _, s) => (Returns (agents.article_summaries (fst s)), s)
      | (Raises e, s) => (Raises e, s)
      end
  end.
Proof.
  unfold agents.execute_summarization, agents.self, bind, ret; cbn [fst snd].
  destruct (agents.articles me) as [| a l]; [reflexivity |].
  destruct (for_each (a :: l) (agents.summarize_one env) (me, w)) as [[u | e] s];
    reflexivity.
Qed.

(** What a run of [execute_summarization] leaves, on both exits. *)
Lemma execute_summarization_spec env me w r me' w' :
  agents.execute_summarization env (me, w) = (r, (me', w')) ->
  exists new,
    agents.article_summaries me' = agents.article_summaries me ++ new
    /\ Forall2 summarizes (firstn (List.length new) (agents.articles me)) new
    /\ agents.keyword me' = agents.keyword me
    /\ agents.articles me' = agents.articles me
    /\ match r with
       | Returns out =>
           List.length new = List.length (agents.articles me)
           /\ (agents.articles me <> [] -> out = agents.article_summaries me')
           /\ (agents.articles me = [] -> out = [])
       | Raises e =>
           exists article context t,
             nth_error (agents.articles me) (List.length new) = Some article
             /\ llm_api env t (agents.summary_task article context) = Raises e
       end.
Proof.
  rewrite execute_summarization_eq. intros H.
  destruct (agents.articles me) as [| a l] eqn:Ea.
  - injection H as <- <- <-. exists []. rewrite app_nil_r.
    split; [reflexivity |]. split; [constructor |].
    split; [reflexivity |]. split; [exact Ea |].
    split; [reflexivity |]. split; [intros C; now elim C | reflexivity].
  - destruct (for_each (a :: l) (agents.summarize_one env) (me, w))
      as [[u | e] [me1 w1]] eqn:F; injection H as <- <- <-;
      apply summarize_loop in F; destruct F as (new & Hs & Hf & Hk & Ha & _ & Hx);
      exists new; rewrite Ea in Ha.
    + repeat split; auto. discriminate.
    + repeat split; auto.
Qed.

(** C8.  Every summary that [execute_summarization] appends carries the
    authors, the publication date and the PDF link (and the title) of the
    article at the same position, on a normal exit as on an exception. *)
Theorem summaries_copy_article_fields env me w r me' w' :
  agents.execute_summarization env (me, w) = (r, (me', w')) ->
  exists new,
    agents.article_summaries me' = agents.article_summaries me ++ new
    /\ Forall2
         (fun article summary =>
            ArticleSummary.authors summary = Article.authors article
            /\ ArticleSummary.published summary = Article.published article
            /\ ArticleSummary.pdf_url summary = Article.pdf_url article)
         (firstn (List.length new) (agents.articles me)) new
    /\ (forall out, r = Returns out ->
        List.length new = List.length (agents.articles me)).
Proof.
  intros H. apply execute_summarization_spec in H.
  destruct H as (new & Hs & Hf & _ & _ & Hx). exists new.
  split; [exact Hs |]. split.
  - eapply Forall2_impl; [| exact Hf]. intros a s (_ & H1 & H2 & H3). auto.
  - intros out ->. apply Hx.
Qed.

Lemma summarizes_titles l new :
  Forall2 summarizes l new ->
  map ArticleSummary.title new = map Article.title l.
Proof.
  induction 1 as [| a s l new (Ht & _) _ IH]; cbn; [reflexivity |].
  rewrite Ht, IH. reflexivity.
Qed.


(* ===================================================================== *)
(** * No stage but the report writes a file *)
(* ===================================================================== *)

Create HintDb frames.
Create HintDb db.

Ltac frames :=
  repeat first
    [ solve [auto with frames nocore]
    | frame_step
    | progress cbv zeta ].

Lemma fallible_keeps_files env : keeps files (fallible env).
Proof. unfold fallible. frame. Qed.

Lemma now_keeps_files env : keeps files (now env).
Proof. unfold now. frame. Qed.

#[local] Hint Resolve fallible_keeps_files now_keeps_files : frames.

#[local] Hint Unfold
  database._get_connection database.cursor database.fetchall
  database.cursor_close database.close database.commit
  database.create_extension database.create_table database.create_index
  database.nextval database.insert_on_conflict_do_nothing
  database.select_similar database.select_by_keyword
  database.delete_by_keyword database._init_database_try
  database._init_database database.__init__
  database.insert_article_try database.insert_article
  database.search_similar_articles_try database.search_similar_articles
  database.get_all_articles_by_keyword_try
  database.get_all_articles_by_keyword
  database.clear_articles_by_keyword_try
  database.clear_articles_by_keyword : db.

Lemma insert_article_keeps_files env self article keyword embedding :
  keeps files (database.insert_article env self article keyword embedding).
Proof. autounfold with db. frames. Qed.

Lemma search_similar_articles_keeps_files env self q keyword limit :
  keeps files (database.search_similar_articles env self q keyword limit).
Proof. autounfold with db. frames. Qed.

Lemma database_init_keeps_files env : keeps files (database.__init__ env).
Proof. autounfold with db. frames. Qed.

#[local] Hint Resolve insert_article_keeps_files
  search_similar_articles_keeps_files database_init_keeps_files : frames.

Lemma embed_query_keeps_files env text :
  keeps files (rag_tool.embed_query env text).
Proof. unfold rag_tool.embed_query. frame. Qed.

#[local] Hint Resolve embed_query_keeps_files : frames.

Lemma embed_and_store_article_keeps_files env self article keyword :
  keeps files (rag_tool.embed_and_store_article env self article keyword).
Proof. unfold rag_tool.embed_and_store_article. frames. Qed.

#[local] Hint Resolve embed_and_store_article_keeps_files : frames.

Lemma store_multiple_articles_keeps_files env self articles keyword :
  keeps files (rag_tool.store_multiple_articles env self articles keyword).
Proof.
  unfold rag_tool.store_multiple_articles. generalize 0%Z.
  induction articles as [| a l IH]; intros n; cbn [rag_tool.store_loop].
  - frames.
  - apply keeps_bind; [auto with frames | intros stored; apply IH].
Qed.

Lemma get_context_for_summary_keeps_files env self article_title keyword :
  keeps files (rag_tool.get_context_for_summary env self article_title keyword).
Proof.
  unfold rag_tool.get_context_for_summary, rag_tool.retrieve_relevant_articles.
  frames.
Qed.

Lemma kickoff_keeps_files env task : keeps files (agents.kickoff env task).
Proof. unfold agents.kickoff. frame. Qed.

#[local] Hint Resolve store_multiple_articles_keeps_files
  get_context_for_summary_keeps_files kickoff_keeps_files : frames.

Lemma search_arxiv_keeps_files env keyword n :
  keeps files (agents.search_arxiv env keyword n).
Proof. apply search_arxiv_keeps. reflexivity. Qed.

#[local] Hint Resolve search_arxiv_keeps_files : frames.

Lemma self_keeps_files : keeps files_of agents.self.
Proof. intros s. reflexivity. Qed.

Lemma world_keeps_files {A} (m : M World A) :
  keeps files m -> keeps files_of (agents.world m).
Proof. intros H. apply (keeps_lift_snd files m H). Qed.

Lemma set_articles_keeps_files l : keeps files_of (agents.set_articles l).
Proof. intros s. reflexivity. Qed.

Lemma append_summary_keeps_files d : keeps files_of (agents.append_summary d).
Proof. intros s. reflexivity. Qed.

#[local] Hint Resolve self_keeps_files world_keeps_files
  set_articles_keeps_files append_summary_keeps_files : frames.

Lemma execute_collection_keeps_files env :
  keeps files_of (agents.execute_collection env).
Proof. unfold agents.execute_collection. frames. Qed.

Lemma execute_quick_summary_keeps_files env :
  keeps files_of (agents.execute_quick_summary env).
Proof. unfold agents.execute_quick_summary. frames. Qed.

Lemma summarize_one_keeps_files env article :
  keeps files_of (agents.summarize_one env article).
Proof. unfold agents.summarize_one. frames. Qed.

#[local] Hint Resolve summarize_one_keeps_files : frames.

Lemma execute_summarization_keeps_files env :
  keeps files_of (agents.execute_summarization env).
Proof. unfold agents.execute_summarization. frames. Qed.

Lemma execute_global_synthesis_keeps_files env :
  keeps files_of (agents.execute_global_synthesis env).
Proof. unfold agents.execute_global_synthesis. frames. Qed.

(* ===================================================================== *)
(** * The workflow, stage by stage *)
(* ===================================================================== *)

Lemma execute_global_synthesis_eq env me w :
  agents.execute_global_synthesis env (me, w) =
  match agents.article_summaries me with
  | [] => (Returns (py "Aucun résumé disponible pour créer une synthèse."), (me, w))
  | _ :: _ =>
      (llm_api env (tick w)
         (agents.synthesis_task (agents.keyword me) (agents.article_summaries me)),
       (me, set_tick (S (tick w)) w))
  end.
Proof.
  unfold agents.execute_global_synthesis, agents.self, agents.world, lift_snd,
    agents.kickoff, external, bind, ret; cbn [fst snd].
  destruct (agents.article_summaries me) as [| a l]; [reflexivity |].
  cbn [fst snd].
  destruct (llm_api env (tick w)
              (agents.synthesis_task (agents.keyword me) (a :: l)));
    reflexivity.
Qed.

(** [run_complete_workflow] as the sequence of its stages: the first stage
    that raises ends the run with its exception. *)
Lemma run_complete_workflow_eq env s :
  agents.run_complete_workflow env s =
  match agents.execute_collection env s with
  | (Raises e, s1) => (Raises e, s1)
  | (Returns [], s1) => (Returns agents.no_articles, s1)
  | (Returns (a :: l), s1) =>
      match agents.execute_quick_summary env s1 with
      | (Raises e, s2) => (Raises e, s2)
      | (Returns quick_summary, s2) =>
          match agents.execute_summarization env s2 with
          | (Raises e, s3) => (Raises e, s3)
          | (Returns summaries, s3) =>
              match agents.execute_global_synthesis env s3 with
              | (Raises e, s4) => (Raises e, s4)
              | (Returns global_synthesis, s4) =>
                  match agents.generate_pdf_report env global_synthesis
                          (py "reports") s4 with
                  | (Raises e, s5) => (Raises e, s5)
                  | (Returns pdf_path, s5) =>
                      (Returns
                         {| RunResult.success := true;
                            RunResult.keyword := Some (agents.keyword (fst s5));
                            RunResult.articles_count :=
                              Some (Z.of_nat (List.length (a :: l)));
                            RunResult.quick_summary := Some quick_summary;
                            RunResult.global_synthesis := Some global_synthesis;
                            RunResult.article_summaries := Some summaries;
                            RunResult.pdf_path := Some pdf_path;
                            RunResult.error := None |}, s5)
                  end
              end
          end
      end
  end.
Proof.
  unfold agents.run_complete_workflow, bind.
  destruct (agents.execute_collection env s) as [[[| a l] | e] s1];
    reflexivity.
Qed.

(** What the collection leaves in the instance when it returns. *)
Lemma execute_collection_returns env me w found s1 :
  agents.execute_collection env (me, w) = (Returns found, s1) ->
  fst s1 = with_articles found me.
Proof.
  rewrite execute_collection_eq.
  destruct (agents.search_arxiv env (agents.keyword me) (agents.max_articles me) w)
    as [[[| a l] | e] w1].
  - intros H. injection H as <- <-. reflexivity.
  - destruct (rag_tool.store_multiple_articles env (agents.rag_tool me) (a :: l)
                (agents.keyword me) w1) as [[n | e] w2];
      intros H; [injection H as <- <-; reflexivity | discriminate].
  - discriminate.
Qed.

(** The handler, for a request that passes the validation: an exception of
    the workflow leaves the handler as [HTTPException(500)] with the text of
    the exception in its detail, which FastAPI answers with status 500. *)
Lemma post_api_search_run_raises env request w0 me w e s' :
  api.keyword_rejected request = false ->
  api.max_articles_rejected request = false ->
  agents.__init__ env (SearchRequest.keyword request)
    (SearchRequest.max_articles request) w0 = (Returns me, w) ->
  agents.run_complete_workflow env (me, w) = (Raises e, s') ->
  api.post_api_search env (Validated request) w0
  = ({| HTTPResponse.status_code := 500;
        HTTPResponse.body :=
          Detail (py "Erreur lors du traitement : " ++ str_of_exn e) |},
     snd s').
Proof.
  intros Hk Hm Hi Hr. destruct s' as [me' w'].
  unfold api.post_api_search, api.search_articles. rewrite Hk, Hm.
  erewrite try_except_raises.
  2:{ rewrite !bind_ret. erewrite bind_returns by exact Hi.
      apply bind_raises. unfold agents.call. rewrite Hr. reflexivity. }
  reflexivity.
Qed.

(** C2 (amended).  When the collection has found articles and the LLM call of
    the quick digest raises, or the summarization stage raises (an LLM call
    of one article did), or the LLM call of the synthesis raises, the
    workflow raises that exception to its caller: there is no run result, no
    report file has been written, and the endpoint answers 500 with the text
    of the exception.  What the completed stages computed stays in the
    instance only: [self.articles] holds the collected articles, and
    [self.article_summaries] holds, after those it held before, the
    summaries of the first articles, which are all the summaries that the
    summarization returned when it had completed, and those that it left
    when it was the stage that raised. *)
Theorem llm_failure_ends_the_run env me w found s1 e :
  agents.execute_collection env (me, w) = (Returns found, s1) ->
  found <> [] ->
  (llm_api env (tick (snd s1)) (agents.quick_task (agents.keyword me) found)
   = Raises e
   \/ (exists quick_summary s2,
         agents.execute_quick_summary env s1 = (Returns quick_summary, s2)
         /\ fst (agents.execute_summarization env s2) = Raises e)
   \/ (exists quick_summary s2 summaries s3,
         agents.execute_quick_summary env s1 = (Returns quick_summary, s2)
         /\ agents.execute_summarization env s2 = (Returns summaries, s3)
         /\ llm_api env (tick (snd s3))
              (agents.synthesis_task (agents.keyword me) summaries)
            = Raises e)) ->
  exists me' w',
    agents.run_complete_workflow env (me, w) = (Raises e, (me', w'))
    /\ files w' = files w
    /\ agents.articles me' = found
    /\ (exists new,
          agents.article_summaries me' = agents.article_summaries me ++ new
          /\ Forall2 summarizes (firstn (List.length new) found) new
          /\ (forall quick_summary s2 summaries s3,
                agents.execute_quick_summary env s1 = (Returns quick_summary, s2) ->
                agents.execute_summarization env s2 = (Returns summaries, s3) ->
                List.length new = List.length found
                /\ summaries = agents.article_summaries me'))
    /\ (forall quick_summary s2 e',
          agents.execute_quick_summary env s1 = (Returns quick_summary, s2) ->
          fst (agents.execute_summarization env s2) = Raises e' ->
          snd (agents.execute_summarization env s2) = (me', w'))
    /\ (forall request w0,
          api.keyword_rejected request = false ->
          api.max_articles_rejected request = false ->
          agents.__init__ env (SearchRequest.keyword request)
            (SearchRequest.max_articles request) w0 = (Returns me, w) ->
          api.post_api_search env (Validated request) w0
          = ({| HTTPResponse.status_code := 500;
                HTTPResponse.body :=
                  Detail (py "Erreur lors du traitement : " ++ str_of_exn e) |},
             w')).
Proof.
  intros Hc Hne Hcases.
  pose proof (execute_collection_keeps_files env (me, w)) as F1.
  pose proof (execute_collection_returns env me w found s1 Hc) as Hme.
  assert (Hapi : forall me' w',
            agents.run_complete_workflow env (me, w) = (Raises e, (me', w')) ->
            forall request w0,
              api.keyword_rejected request = false ->
              api.max_articles_rejected request = false ->
              agents.__init__ env (SearchRequest.keyword request)
                (SearchRequest.max_articles request) w0 = (Returns me, w) ->
              api.post_api_search env (Validated request) w0
              = ({| HTTPResponse.status_code := 500;
                    HTTPResponse.body :=
                      Detail (py "Erreur lors du traitement : " ++ str_of_exn e) |},
                 w')).
  { intros me' w' Hr request w0 Hk Hm Hi.
    exact (post_api_search_run_raises env request w0 me w e (me', w') Hk Hm Hi Hr). }
  rewrite Hc in F1. unfold files_of in F1. cbn [snd] in F1.
  destruct found as [| a l]; [now elim Hne |].
  destruct s1 as [me1 w1]. cbn [fst snd] in *. subst me1.
  pose proof (execute_quick_summary_keeps_files env (with_articles (a :: l) me, w1)) as F2.
  pose proof (execute_quick_summary_eq env (with_articles (a :: l) me) w1) as Eq.
  cbn [with_articles agents.articles agents.keyword] in Eq.
  unfold files_of in F2; cbn [snd] in F2.
  destruct Hcases as [Hq | [(q & s2 & Hq & Hs) | (q & s2 & sums & s3 & Hq & Hs & Hg)]].
  - (* the digest *)
    rewrite Hq in Eq.
    assert (Hr : agents.run_complete_workflow env (me, w)
                 = (Raises e, (with_articles (a :: l) me, set_tick (S (tick w1)) w1))).
    { rewrite run_complete_workflow_eq, Hc, Eq. reflexivity. }
    exists (with_articles (a :: l) me), (set_tick (S (tick w1)) w1).
    split; [exact Hr |]. split; [exact F1 |]. split; [reflexivity |].
    split; [| split].
    + exists []. cbn [with_articles agents.article_summaries].
      rewrite app_nil_r. split; [reflexivity |]. split; [constructor |].
      intros q s2 sums s3 Hq' _. rewrite Eq in Hq'. discriminate.
    + intros q s2 e' Hq' _. rewrite Eq in Hq'. discriminate.
    + exact (Hapi _ _ Hr).
  - (* the summarization *)
    rewrite Hq in F2. cbn [snd] in F2.
    pose proof (execute_summarization_keeps_files env s2) as F3.
    unfold files_of in F3.
    destruct (agents.execute_summarization env s2) as [[sums | e0] [me3 w3]] eqn:Es;
      cbn [fst snd] in *; [discriminate |].
    injection Hs as ->.
    assert (Hr : agents.run_complete_workflow env (me, w) = (Raises e, (me3, w3))).
    { rewrite run_complete_workflow_eq, Hc, Hq, Es. reflexivity. }
    pose proof Hq as HqK. pose proof Es as EsK.
    rewrite Eq in Hq. injection Hq as Hq0 <-.
    apply execute_summarization_spec in Es.
    destruct Es as (new & Hsum & Hfor & _ & Ha & _).
    cbn [with_articles agents.articles agents.article_summaries] in *.
    exists me3, w3.
    split; [exact Hr |]. split; [congruence |]. split; [exact Ha |].
    split; [| split].
    + exists new. split; [exact Hsum |]. split; [exact Hfor |].
      intros q' s2' sums' s3' Hq' Hs'.
      rewrite HqK in Hq'. injection Hq' as _ <-.
      rewrite EsK in Hs'. discriminate.
    + intros q' s2' e' Hq' _.
      rewrite HqK in Hq'. injection Hq' as _ <-.
      rewrite EsK. reflexivity.
    + exact (Hapi _ _ Hr).
  - (* the synthesis *)
    rewrite Hq in F2. cbn [snd] in F2.
    pose proof (execute_summarization_keeps_files env s2) as F3.
    unfold files_of in F3. rewrite Hs in F3. cbn [snd] in F3.
    destruct s3 as [me3 w3]. cbn [fst snd] in *.
    pose proof Hs as Hspec. pose proof Hq as HqK. pose proof Hs as HsK.
    rewrite Eq in Hq. injection Hq as Hq0 <-.
    apply execute_summarization_spec in Hspec.
    destruct Hspec as (new & Hsum & Hfor & Hk & Ha & Hl & Hout & _).
    cbn [with_articles agents.articles agents.keyword
         agents.article_summaries] in *.
    specialize (Hout ltac:(discriminate)). subst sums.
    assert (Hg' : agents.execute_global_synthesis env (me3, w3)
                  = (Raises e, (me3, set_tick (S (tick w3)) w3))).
    { rewrite execute_global_synthesis_eq.
      destruct (agents.article_summaries me3) as [| s0 rest] eqn:Es3.
      - destruct (agents.article_summaries me); destruct new; discriminate.
      - rewrite Hk, Hg. reflexivity. }
    assert (Hr : agents.run_complete_workflow env (me, w)
                 = (Raises e, (me3, set_tick (S (tick w3)) w3))).
    { rewrite run_complete_workflow_eq, Hc, Eq, Hq0, Hs, Hg'. reflexivity. }
    exists me3, (set_tick (S (tick w3)) w3).
    split; [exact Hr |]. split; [cbn [files set_tick]; congruence |].
    split; [exact Ha |].
    split; [| split].
    + exists new. split; [exact Hsum |]. split; [exact Hfor |].
      intros q' s2' sums' s3' Hq' Hs'. split; [exact Hl |].
      rewrite HqK in Hq'. injection Hq' as _ <-.
      rewrite HsK in Hs'. injection Hs' as <- _. reflexivity.
    + intros q' s2' e' Hq' He'.
      rewrite HqK in Hq'. injection Hq' as _ <-.
      rewrite HsK in He'. discriminate.
    + exact (Hapi _ _ Hr).
Qed.

(* ===================================================================== *)
(** * The two search paths (tools/arxiv_tool.py, mcp_servers/arxiv_server.py,
      tools/arxiv_mcp_client.py) *)
(* ===================================================================== *)

(** The search that the MCP server sends to arXiv for a tool call. *)
Lemma search_arxiv_tool_cases env keyword max_results w contents w' :
  arxiv_server.search_arxiv_tool env
    {| Arguments.keyword := Some keyword;
       Arguments.max_results := Some max_results |} w = (Returns contents, w') ->
  exists data,
    contents = [arxiv_server.text_content data]
    /\ match data with
       | SearchError _ => True
       | SearchOk _ _ articles =>
           exists rs,
             arxiv_api env (tick w)
               {| Search.query := keyword;
                  Search.max_results := Z.min max_results 50;
                  Search.sort_by := SubmittedDate;
                  Search.sort_order := Descending |} = Returns rs
             /\ articles = map arxiv_server.article_of rs
       end.
Proof.
  unfold arxiv_server.search_arxiv_tool, results, external, try_except, bind,
    ret; cbn [Arguments.keyword Arguments.max_results].
  destruct keyword as [| c k]; cbn [arxiv_server.missing].
  - intros H. injection H as <- <-. eexists. split; [reflexivity | exact I].
  - destruct (arxiv_api env (tick w) _) as [rs | e] eqn:E;
      intros H; injection H as <- <-; eexists; (split; [reflexivity |]).
    + exists rs. split; reflexivity.
    + exact I.
Qed.

Lemma search_arxiv_tool_total env arguments :
  total (arxiv_server.search_arxiv_tool env arguments).
Proof.
  unfold arxiv_server.search_arxiv_tool.
  destruct (arxiv_server.missing (Arguments.keyword arguments)).
  - apply total_ret.
  - apply total_try_except. intros e. apply total_ret.
Qed.

(** The validation of a call of [search_arxiv] with a keyword and a limit
    against the [inputSchema]: it passes exactly for a limit from 1 to 50. *)
Lemma inputSchema_cases keyword max_results :
  (arxiv_server.inputSchema
     {| Arguments.keyword := Some keyword;
        Arguments.max_results := Some max_results |} = None
   /\ (1 <= max_results <= 50)%Z)
  \/ ((exists violation,
         arxiv_server.inputSchema
           {| Arguments.keyword := Some keyword;
              Arguments.max_results := Some max_results |} = Some violation)
      /\ ~ (1 <= max_results <= 50)%Z).
Proof.
  unfold arxiv_server.inputSchema. cbn [Arguments.keyword Arguments.max_results].
  destruct (Z.ltb_spec max_results 1).
  - right. split; [eexists; reflexivity | lia].
  - destruct (Z.ltb_spec 50 max_results).
    + right. split; [eexists; reflexivity | lia].
    + left. split; [reflexivity | lia].
Qed.

Lemma search_arxiv_name : str_eqb (py "search_arxiv") (py "search_arxiv") = true.
Proof. vm_compute. reflexivity. Qed.

(** What [ArxivMCPClient.search_arxiv] returns: nothing, or the articles
    that the server built from the answer of arXiv to a search with the
    requested limit, which then lies between 1 and 50. *)
Lemma client_search_arxiv_cases env keyword max_results w l w' :
  arxiv_mcp_client.search_arxiv env keyword max_results w = (Returns l, w') ->
  l = []
  \/ exists t rs,
       (1 <= max_results <= 50)%Z
       /\ arxiv_api env t
            {| Search.query := keyword;
               Search.max_results := max_results;
               Search.sort_by := SubmittedDate;
               Search.sort_order := Descending |} = Returns rs
       /\ l = map arxiv_server.article_of rs.
Proof.
  unfold arxiv_mcp_client.search_arxiv, arxiv_mcp_client.session_call_tool,
    arxiv_server.call_tool.
  cbv zeta. rewrite search_arxiv_name.
  destruct (arxiv_mcp_client.sendable (py "search_arxiv") _); [| discriminate].
  unfold try_except at 1. unfold bind at 1. unfold bind at 1.
  unfold fallible, external.
  destruct (fault env (tick w)) as [e |].
  - intros H. apply ret_returns in H. destruct H as [<- _]. now left.
  - destruct (inputSchema_cases keyword max_results)
      as [(-> & Hin) | ((violation & ->) & Hout)].
    + destruct (search_arxiv_tool_total env
                  {| Arguments.keyword := Some keyword;
                     Arguments.max_results := Some max_results |}
                  (set_tick (S (tick w)) w)) as (contents & w1 & E).
      unfold try_except. rewrite E.
      apply search_arxiv_tool_cases in E. destruct E as (data & -> & Hd).
      cbn [arxiv_server.text_content TextContent.text json_dumps json_loads].
      destruct data as [k c articles | err]; cbn;
        intros H; apply ret_returns in H; destruct H as [<- _].
      * destruct Hd as (rs & Hrs & ->). right.
        exists (tick (set_tick (S (tick w)) w)), rs.
        rewrite Z.min_l in Hrs by lia.
        split; [exact Hin |]. split; [exact Hrs | reflexivity].
      * now left.
    + cbn. intros H. apply ret_returns in H. destruct H as [<- _]. now left.
Qed.

Lemma search_arxiv_sync_cases env keyword max_results w l w' :
  arxiv_mcp_client.search_arxiv_sync env keyword max_results w = (Returns l, w') ->
  l = []
  \/ exists t rs,
       (1 <= max_results <= 50)%Z
       /\ arxiv_api env t
            {| Search.query := keyword;
               Search.max_results := max_results;
               Search.sort_by := SubmittedDate;
               Search.sort_order := Descending |} = Returns rs
       /\ l = map arxiv_server.article_of rs.
Proof.
  unfold arxiv_mcp_client.search_arxiv_sync, arxiv_mcp_client._search,
    arxiv_mcp_client.connect, arxiv_mcp_client.disconnect.
  unfold bind at 1. unfold try_finally. unfold bind at 1.
  destruct (fallible env w) as [[u | e] w0].
  - destruct (arxiv_mcp_client.search_arxiv env keyword max_results w0)
      as [[l0 | e0] w1] eqn:E.
    + apply client_search_arxiv_cases in E.
      destruct (fallible env w1) as [[u1 | e1] w2]; [| discriminate].
      unfold bind.
      destruct (fallible env w2) as [[u2 | e2] w3]; [| discriminate].
      intros H. apply ret_returns in H. destruct H as [<- _]. exact E.
    + destruct (fallible env w1) as [[u1 | e1] w2]; discriminate.
  - destruct (fallible env w0) as [[u1 | e1] w2]; discriminate.
Qed.

Lemma sendable_search_arxiv (keyword : str) max_results :
  encodable keyword = true ->
  arxiv_mcp_client.sendable (py "search_arxiv")
    {| Arguments.keyword := Some keyword;
       Arguments.max_results := Some max_results |} = true.
Proof.
  intros He. unfold arxiv_mcp_client.sendable. cbn [Arguments.keyword].
  rewrite He.
  replace (encodable (py "search_arxiv")) with true by (vm_compute; reflexivity).
  reflexivity.
Qed.

(** The MCP path when everything works: the limit goes to arXiv as it is. *)
Lemma search_arxiv_sync_works env (keyword : str) max_results w rs :
  keyword <> [] ->
  encodable keyword = true ->
  (1 <= max_results <= 50)%Z ->
  fault env (tick w) = None ->
  fault env (1 + tick w) = None ->
  arxiv_api env (2 + tick w)
    {| Search.query := keyword;
       Search.max_results := max_results;
       Search.sort_by := SubmittedDate;
       Search.sort_order := Descending |} = Returns rs ->
  fault env (3 + tick w) = None ->
  fault env (4 + tick w) = None ->
  arxiv_mcp_client.search_arxiv_sync env keyword max_results w
  = (Returns (map arxiv_server.article_of rs), set_tick (5 + tick w) w).
Proof.
  intros Hk He Hin F0 F1 Ha F3 F4.
  assert (Htool : arxiv_server.search_arxiv_tool env
                    {| Arguments.keyword := Some keyword;
                       Arguments.max_results := Some max_results |}
                    (set_tick (2 + tick w) w)
                  = (Returns [arxiv_server.text_content
                                (SearchOk keyword
                                   (Z.of_nat (List.length (map arxiv_server.article_of rs)))
                                   (map arxiv_server.article_of rs))],
                     set_tick (3 + tick w) w)).
  { unfold arxiv_server.search_arxiv_tool.
    cbn [Arguments.keyword Arguments.max_results].
    destruct keyword as [| c k]; [now elim Hk |].
    cbn [arxiv_server.missing].
    unfold try_except, bind, results, external, ret.
    cbn [tick set_tick]. rewrite Z.min_l by lia.
    rewrite Ha. reflexivity. }
  assert (Hclient : arxiv_mcp_client.search_arxiv env keyword max_results
                      (set_tick (1 + tick w) w)
                    = (Returns (map arxiv_server.article_of rs),
                       set_tick (3 + tick w) w)).
  { unfold arxiv_mcp_client.search_arxiv, arxiv_mcp_client.session_call_tool,
      arxiv_server.call_tool.
    cbv zeta. rewrite search_arxiv_name.
    rewrite (sendable_search_arxiv keyword max_results He).
    destruct (inputSchema_cases keyword max_results)
      as [(-> & _) | (_ & Hout)]; [| lia].
    unfold try_except at 1. unfold bind at 1. unfold bind at 1.
    unfold fallible, external.
    cbn [tick set_tick]. rewrite F1.
    unfold try_except. cbn [set_tick tick].
    replace (set_tick (S (1 + tick w)) (set_tick (1 + tick w) w))
      with (set_tick (2 + tick w) w) by reflexivity.
    rewrite Htool.
    cbn [arxiv_server.text_content TextContent.text json_dumps json_loads].
    reflexivity. }
  unfold arxiv_mcp_client.search_arxiv_sync, arxiv_mcp_client._search,
    arxiv_mcp_client.connect, arxiv_mcp_client.disconnect.
  unfold bind at 1. unfold try_finally. unfold bind at 1.
  rewrite (fallible_ok env w F0).
  replace (set_tick (S (tick w)) w) with (set_tick (1 + tick w) w) by reflexivity.
  rewrite Hclient.
  rewrite (fallible_ok env (set_tick (3 + tick w) w)) by exact F3.
  unfold bind.
  rewrite (fallible_ok env (set_tick (S (tick (set_tick (3 + tick w) w)))
                              (set_tick (3 + tick w) w))) by exact F4.
  reflexivity.
Qed.

(** The MCP path when the limit is refused: no article, and arXiv is not
    asked. *)
Lemma search_arxiv_sync_refused env (keyword : str) max_results w :
  encodable keyword = true ->
  ~ (1 <= max_results <= 50)%Z ->
  fault env (tick w) = None ->
  fault env (1 + tick w) = None ->
  fault env (2 + tick w) = None ->
  fault env (3 + tick w) = None ->
  arxiv_mcp_client.search_arxiv_sync env keyword max_results w
  = (Returns [], set_tick (4 + tick w) w).
Proof.
  intros He Hout F0 F1 F2 F3.
  assert (Hclient : arxiv_mcp_client.search_arxiv env keyword max_results
                      (set_tick (1 + tick w) w)
                    = (Returns [], set_tick (2 + tick w) w)).
  { unfold arxiv_mcp_client.search_arxiv, arxiv_mcp_client.session_call_tool.
    cbv zeta. rewrite search_arxiv_name.
    rewrite (sendable_search_arxiv keyword max_results He).
    destruct (inputSchema_cases keyword max_results)
      as [(_ & Hin) | ((violation & ->) & _)]; [contradiction |].
    unfold try_except at 1. unfold bind at 1. unfold bind at 1.
    unfold fallible, external.
    cbn [tick set_tick]. rewrite F1. reflexivity. }
  unfold arxiv_mcp_client.search_arxiv_sync, arxiv_mcp_client._search,
    arxiv_mcp_client.connect, arxiv_mcp_client.disconnect.
  unfold bind at 1. unfold try_finally. unfold bind at 1.
  rewrite (fallible_ok env w F0).
  replace (set_tick (S (tick w)) w) with (set_tick (1 + tick w) w) by reflexivity.
  rewrite Hclient.
  rewrite (fallible_ok env (set_tick (2 + tick w) w)) by exact F2.
  unfold bind.
  rewrite (fallible_ok env (set_tick (S (tick (set_tick (2 + tick w) w)))
                              (set_tick (2 + tick w) w))) by exact F3.
  reflexivity.
Qed.

(** C4 (amended).  An article of the MCP path is the article that the direct
    path builds from the same arXiv result, with one more field,
    [primary_category].  Neither path clamps the limit.  On the MCP path a
    limit from 1 to 50 goes to arXiv as it is, and with a keyword that is
    not empty, a working transport and an answer of arXiv the articles
    built from that answer are returned; for any other limit the call is
    refused by the validation against the [inputSchema] of the tool, arXiv
    is not asked and the path returns no article: whatever it returns stems
    from a search with a limit from 1 to 50.  The direct path passes every
    limit on to arXiv. *)
Theorem mcp_path_shape_and_clamp env (keyword : str) max_results w :
  (forall result,
     Article.keys (arxiv_server.article_of result)
     = Article.keys (arxiv_tool.article_of result) ++ [py "primary_category"]
     /\ Article.title (arxiv_server.article_of result)
        = Article.title (arxiv_tool.article_of result)
     /\ Article.authors (arxiv_server.article_of result)
        = Article.authors (arxiv_tool.article_of result)
     /\ Article.summary (arxiv_server.article_of result)
        = Article.summary (arxiv_tool.article_of result)
     /\ Article.published (arxiv_server.article_of result)
        = Article.published (arxiv_tool.article_of result)
     /\ Article.pdf_url (arxiv_server.article_of result)
        = Article.pdf_url (arxiv_tool.article_of result)
     /\ Article.entry_id (arxiv_server.article_of result)
        = Article.entry_id (arxiv_tool.article_of result)
     /\ Article.categories (arxiv_server.article_of result)
        = Article.categories (arxiv_tool.article_of result))
  /\ (forall rs,
        keyword <> [] ->
        encodable keyword = true ->
        (1 <= max_results <= 50)%Z ->
        fault env (tick w) = None ->
        fault env (1 + tick w) = None ->
        arxiv_api env (2 + tick w)
          {| Search.query := keyword;
             Search.max_results := max_results;
             Search.sort_by := SubmittedDate;
             Search.sort_order := Descending |} = Returns rs ->
        fault env (3 + tick w) = None ->
        fault env (4 + tick w) = None ->
        arxiv_mcp_client.search_arxiv_sync env keyword max_results w
        = (Returns (map arxiv_server.article_of rs), set_tick (5 + tick w) w))
  /\ (encodable keyword = true ->
      ~ (1 <= max_results <= 50)%Z ->
      fault env (tick w) = None ->
      fault env (1 + tick w) = None ->
      fault env (2 + tick w) = None ->
      fault env (3 + tick w) = None ->
      arxiv_mcp_client.search_arxiv_sync env keyword max_results w
      = (Returns [], set_tick (4 + tick w) w))
  /\ (forall l w',
        arxiv_mcp_client.search_arxiv_sync env keyword max_results w
        = (Returns l, w') ->
        l = []
        \/ exists t rs,
             (1 <= max_results <= 50)%Z
             /\ arxiv_api env t
                  {| Search.query := keyword;
                     Search.max_results := max_results;
                     Search.sort_by := SubmittedDate;
                     Search.sort_order := Descending |} = Returns rs
             /\ l = map arxiv_server.article_of rs)
  /\ (forall rs,
        arxiv_api env (tick w)
          {| Search.query := keyword;
             Search.max_results := max_results;
             Search.sort_by := SubmittedDate;
             Search.sort_order := Descending |} = Returns rs ->
        arxiv_tool.search_arxiv env keyword max_results w
        = (Returns (map arxiv_tool.article_of rs), set_tick (S (tick w)) w)).
Proof.
  split; [| split; [| split; [| split]]].
  - intros result. split; [| repeat split].
    unfold Article.keys. cbn [arxiv_server.article_of arxiv_tool.article_of
      Article.primary_category]. rewrite app_nil_r. reflexivity.
  - intros rs. apply search_arxiv_sync_works.
  - apply search_arxiv_sync_refused.
  - intros l w'. apply search_arxiv_sync_cases.
  - intros rs Ha.
    unfold arxiv_tool.search_arxiv, try_except, bind, results, external, ret.
    rewrite Ha. reflexivity.
Qed.

(* ===================================================================== *)
(** * The database manager (tools/database.py) *)
(* ===================================================================== *)

(** A statement [try: body  except Exception: return v] returns in every
    state: the value of the body when the body returns, [v] when it
    raises. *)
Lemma try_except_ret_cases {S A} (body : M S A) (v : A) s :
  exists a s',
    try_except body (fun _ => ret v) s = (Returns a, s')
    /\ (forall e s1, body s = (Raises e, s1) -> a = v /\ s' = s1)
    /\ (forall a0 s1, body s = (Returns a0, s1) -> a = a0 /\ s' = s1).
Proof.
  unfold try_except. destruct (body s) as [[a0 | e] s1].
  - exists a0, s1. split; [reflexivity |]. split; intros ? ? H.
    + discriminate.
    + injection H as <- <-. auto.
  - exists v, s1. split; [reflexivity |]. split; intros ? ? H.
    + injection H as <- <-. auto.
    + discriminate.
Qed.

(** A failure to connect is the first thing that can go wrong in each
    operation. *)
Lemma connection_fault {A} env self (k : database.Connection -> M World A) w e :
  fault env (tick w) = Some e ->
  bind (database._get_connection env self) k w
  = (Raises e, set_tick (S (tick w)) w).
Proof.
  intros H. unfold database._get_connection.
  unfold bind at 1. unfold bind at 1.
  rewrite (fallible_fault env w e H). reflexivity.
Qed.

(** C10.  No public operation of the database manager raises: each returns
    in every world, and returns [False] (or the empty list) whenever its
    [try] block raised, for instance when the connection cannot be opened.
    The constructor returns the manager also when [_init_database] failed. *)
Theorem database_manager_never_raises env self w :
  (exists manager w', database.__init__ env w = (Returns manager, w'))
  /\ (exists w', database._init_database env self w = (Returns tt, w'))
  /\ (forall article keyword embedding,
        exists b w',
          database.insert_article env self article keyword embedding w
          = (Returns b, w')
          /\ (forall e w1,
                database.insert_article_try env self article keyword embedding w
                = (Raises e, w1) -> b = false /\ w' = w1)
          /\ (forall e, fault env (tick w) = Some e -> b = false))
  /\ (forall query_embedding keyword limit,
        exists l w',
          database.search_similar_articles env self query_embedding keyword limit w
          = (Returns l, w')
          /\ (forall e w1,
                database.search_similar_articles_try env self query_embedding
                  keyword limit w = (Raises e, w1) -> l = [] /\ w' = w1)
          /\ (forall e, fault env (tick w) = Some e -> l = []))
  /\ (forall keyword,
        exists l w',
          database.get_all_articles_by_keyword env self keyword w = (Returns l, w')
          /\ (forall e w1,
                database.get_all_articles_by_keyword_try env self keyword w
                = (Raises e, w1) -> l = [] /\ w' = w1)
          /\ (forall e, fault env (tick w) = Some e -> l = []))
  /\ (forall keyword,
        exists b w',
          database.clear_articles_by_keyword env self keyword w = (Returns b, w')
          /\ (forall e w1,
                database.clear_articles_by_keyword_try env self keyword w
                = (Raises e, w1) -> b = false /\ w' = w1)
          /\ (forall e, fault env (tick w) = Some e -> b = false)).
Proof.
  split; [| split; [| split; [| split; [| split]]]].
  - apply (total_bind (database._init_database env _)).
    + apply total_try_except. intros e. apply total_ret.
    + intros u. apply total_ret.
  - destruct (try_except_ret_cases (database._init_database_try env self) tt w)
      as ([] & w' & E & _).
    exists w'. exact E.
  - intros article keyword embedding.
    destruct (try_except_ret_cases
                (database.insert_article_try env self article keyword embedding)
                false w) as (b & w' & E & Hr & _).
    exists b, w'. split; [exact E |]. split; [exact Hr |].
    intros e He. eapply Hr. unfold database.insert_article_try.
    apply connection_fault, He.
  - intros q keyword limit.
    destruct (try_except_ret_cases
                (database.search_similar_articles_try env self q keyword limit)
                [] w) as (l & w' & E & Hr & _).
    exists l, w'. split; [exact E |]. split; [exact Hr |].
    intros e He. eapply Hr. unfold database.search_similar_articles_try.
    apply connection_fault, He.
  - intros keyword.
    destruct (try_except_ret_cases
                (database.get_all_articles_by_keyword_try env self keyword)
                [] w) as (l & w' & E & Hr & _).
    exists l, w'. split; [exact E |]. split; [exact Hr |].
    intros e He. eapply Hr. unfold database.get_all_articles_by_keyword_try.
    apply connection_fault, He.
  - intros keyword.
    destruct (try_except_ret_cases
                (database.clear_articles_by_keyword_try env self keyword)
                false w) as (b & w' & E & Hr & _).
    exists b, w'. split; [exact E |]. split; [exact Hr |].
    intros e He. eapply Hr. unfold database.clear_articles_by_keyword_try.
    apply connection_fault, He.
Qed.

(** Case analysis over the outcomes of the steps of a block. *)
Ltac world_simpl :=
  cbn [negb fst snd tick table serial files set_tick set_table set_serial
       set_files database.view].

Ltac block_step :=
  match goal with
  | |- context [fault ?env ?t] =>
      let F := fresh "F" in destruct (fault env t) eqn:F
  | H : ?x = Some _ |- context [match ?x with _ => _ end] => rewrite H
  | |- context [if database.adaptable ?s then _ else _] =>
      let A := fresh "A" in destruct (database.adaptable s) eqn:A
  | |- context [if database.adaptable_values ?v then _ else _] =>
      let A := fresh "A" in destruct (database.adaptable_values v) eqn:A
  | |- context [match database.coerce ?v with _ => _ end] =>
      let C := fresh "C" in destruct (database.coerce v) eqn:C
  | |- context [if (2147483647 <=? ?n)%Z then _ else _] =>
      let S := fresh "S" in destruct (2147483647 <=? n)%Z eqn:S
  | |- context [if database.has_entry_id ?i ?r then _ else _] =>
      let P := fresh "P" in destruct (database.has_entry_id i r) eqn:P
  end;
  world_simpl.

Ltac open_block :=
  autounfold with db;
  unfold try_except, bind, fallible, now, external, get, modify, ret, raise;
  world_simpl.

Ltac run_block := open_block; repeat block_step.

Lemma str_eqb_refl s : str_eqb s s = true.
Proof. unfold str_eqb. destruct (list_eq_dec N.eq_dec s s); congruence. Qed.

Lemma str_eqb_eq a b : str_eqb a b = true <-> a = b.
Proof.
  unfold str_eqb. destruct (list_eq_dec N.eq_dec a b); split; congruence.
Qed.

(** Under [Hf : no_fault_from env _], every fallible operation succeeds. *)
Ltac healthy Hf :=
  world_simpl;
  repeat (match goal with
          | |- context [fault _ ?t] => rewrite (Hf t) by (cbn; lia)
          end;
          world_simpl).

(* --------------------------------------------------------------------- *)
(** ** The values of an insertion *)
(* --------------------------------------------------------------------- *)

(** What a column of type [VARCHAR(n)] stores is the string cut to [n]
    characters. *)
Lemma varchar_firstn n s stored :
  database.varchar n s = Some stored -> stored = firstn n s.
Proof.
  unfold database.varchar.
  destruct (Nat.leb_spec (List.length s) n) as [H | H].
  - intros E. injection E as <-. symmetry. apply firstn_all2. exact H.
  - destruct (forallb _ _); intros E; [injection E as <- | discriminate].
    reflexivity.
Qed.

Lemma varchar_fits n s :
  (List.length s <=? n)%nat = true -> database.varchar n s = Some s.
Proof. intros H. unfold database.varchar. rewrite H. reflexivity. Qed.

(** The values that fit are adapted by the driver and stored as they are. *)
Lemma fits_columns_coerce v :
  database.fits_columns v = true ->
  database.adaptable_values v = true /\ database.coerce v = Some v.
Proof.
  unfold database.fits_columns. rewrite !andb_true_iff.
  intros (((((Ha & H1) & H2) & H3) & H4) & H5).
  split; [exact Ha |].
  unfold database.coerce, database.vector_ok.
  rewrite (varchar_fits _ _ H1), (varchar_fits _ _ H2), (varchar_fits _ _ H3).
  rewrite H4, H5. apply Nat.eqb_eq in H4. rewrite H4.
  replace ((1 <=? Z.of_nat 1536)%Z && (Z.of_nat 1536 <=? 16000)%Z) with true
    by (vm_compute; reflexivity).
  destruct v; reflexivity.
Qed.

(** The external id under which the values are stored. *)
Lemma coerce_entry_id v stored :
  database.coerce v = Some stored ->
  database.v_entry_id stored = firstn 255 (database.v_entry_id v).
Proof.
  unfold database.coerce.
  destruct (database.varchar 255 (database.v_entry_id v)) as [i |] eqn:Ei;
    [| discriminate].
  destruct (database.varchar 20 (database.v_published v)); [| discriminate].
  destruct (database.varchar 255 (database.v_keyword v)); [| discriminate].
  destruct (_ && _); [| discriminate].
  intros E. injection E as <-. cbn [database.v_entry_id].
  apply varchar_firstn. exact Ei.
Qed.

(* --------------------------------------------------------------------- *)
(** ** [insert_article] *)
(* --------------------------------------------------------------------- *)

(** Every way an [insert_article] can end, by what it leaves in the table:
    either the rows are as before, and then the answer is [True] only when
    the server took the values and their external id was stored already,
    or the server took the values, their id was new, and one row for them
    has been added at the end. *)
Lemma insert_article_cases env self article keyword embedding w rows :
  table w = Some rows ->
  exists b w',
    database.insert_article env self article keyword embedding w = (Returns b, w')
    /\ ((table w' = Some rows
         /\ (b = true ->
             exists stored,
               database.coerce (database.values_of article keyword embedding)
               = Some stored
               /\ database.has_entry_id (database.v_entry_id stored) rows = true))
        \/ (exists stored new_id stamp,
              database.coerce (database.values_of article keyword embedding)
              = Some stored
              /\ database.has_entry_id (database.v_entry_id stored) rows = false
              /\ table w' = Some (rows ++ [row_of new_id stamp stored]))).
Proof.
  intros Ht.
  run_block.
  all: eexists; eexists; (split; [reflexivity |]); world_simpl.
  all: first
    [ left; split; [exact Ht | discriminate]
    | left; split; [first [exact Ht | reflexivity] |];
      intros _; eexists; split; [reflexivity | assumption]
    | right; eexists; eexists; eexists;
      split; [reflexivity |]; split; [assumption | reflexivity] ].
Qed.

(** An [INSERT] under an external id that is stored already leaves the rows
    as they are, whatever else happens during the call. *)
Lemma insert_article_present env self article keyword embedding w rows :
  table w = Some rows ->
  database.has_entry_id (firstn 255 (Article.entry_id article)) rows = true ->
  table (snd (database.insert_article env self article keyword embedding w))
  = Some rows.
Proof.
  intros Ht Hp.
  destruct (insert_article_cases env self article keyword embedding w rows Ht)
    as (b & w' & E & [(H & _) | (stored & new_id & stamp & Hc & Hn & _)]);
    rewrite E; cbn [snd]; [exact H |].
  apply coerce_entry_id in Hc. cbn [database.values_of database.v_entry_id] in Hc.
  congruence.
Qed.

(** A healthy [INSERT] of values that fit the columns returns [True]; it
    appends one row when the external id is new and leaves the rows as they
    are when it is stored already. *)
Lemma insert_article_healthy env self article keyword embedding w rows :
  table w = Some rows ->
  no_fault_from env (tick w) ->
  database.fits_columns (database.values_of article keyword embedding) = true ->
  (serial w < 2147483647)%Z ->
  database.insert_article env self article keyword embedding w
  = (Returns true,
     {| tick := 7 + tick w;
        table :=
          Some (if database.has_entry_id (Article.entry_id article) rows
                then rows
                else rows ++ [row_of (serial w + 1)%Z (clock env (3 + tick w))
                                (database.values_of article keyword embedding)]);
        serial := (serial w + 1)%Z;
        files := files w |}).
Proof.
  intros Ht Hf Hfit Hs.
  destruct (fits_columns_coerce _ Hfit) as (Ha & Hc).
  open_block. rewrite Ha. healthy Hf. rewrite Ht, Hc. world_simpl.
  destruct (Z.leb_spec 2147483647 (serial w)); [lia |]. healthy Hf.
  replace (database.v_entry_id (database.values_of article keyword embedding))
    with (Article.entry_id article) by reflexivity.
  destruct (database.has_entry_id (Article.entry_id article) rows);
    healthy Hf.
  - rewrite <- Ht. reflexivity.
  - reflexivity.
Qed.

(** An [INSERT] whose values the driver or the server refuses returns
    [False]. *)
Lemma insert_article_refused env self article keyword embedding w :
  database.adaptable_values (database.values_of article keyword embedding) = false
  \/ database.coerce (database.values_of article keyword embedding) = None ->
  fst (database.insert_article env self article keyword embedding w)
  = Returns false.
Proof.
  intros H. open_block.
  destruct (fault env (tick w)) eqn:F0; world_simpl; [reflexivity |].
  destruct (fault env (S (tick w))) eqn:F1; world_simpl; [reflexivity |].
  destruct (database.adaptable_values _) eqn:A; world_simpl; [| reflexivity].
  destruct (fault env (S (S (tick w)))) eqn:F2; world_simpl; [reflexivity |].
  destruct (table w); world_simpl; [| reflexivity].
  destruct H as [H | H]; [discriminate |]. rewrite H. reflexivity.
Qed.

Lemma rows_with_id_absent entry_id rows :
  database.has_entry_id entry_id rows = false -> rows_with_id entry_id rows = [].
Proof.
  unfold database.has_entry_id, rows_with_id.
  induction rows as [| r rows IH]; cbn; [reflexivity |].
  destruct (str_eqb (Row.entry_id r) entry_id); cbn; [discriminate | exact IH].
Qed.

Lemma rows_with_id_present entry_id rows :
  database.has_entry_id entry_id rows = true ->
  (1 <= List.length (rows_with_id entry_id rows))%nat.
Proof.
  unfold database.has_entry_id, rows_with_id.
  induction rows as [| r rows IH]; cbn; [discriminate |].
  destruct (str_eqb (Row.entry_id r) entry_id); cbn; [lia | exact IH].
Qed.

(** C6 (amended).  With the table in place, an [insert_article] under an
    external id that is stored already (of at most 255 characters, as every
    stored id is) leaves the stored rows untouched, whatever the keyword and
    the embedding of the call.  It returns [True] when the database does
    not fail, the sequence of [id] is not exhausted and the values fit the
    columns: strings without NUL character and lone surrogate that the
    driver can adapt, an id and a keyword of at most 255 characters, a date
    of at most 20, a vector of 1536 elements in the range of [real].  It
    returns [False] when the driver or the server refuses the values.  Two
    calls in a row under the same external id and keyword, with values that
    fit, both return [True], the second one changes nothing, and the table
    holds exactly one row under that id afterwards (it held at most one
    before). *)
Theorem upsert_ignores_stored_id env self article keyword embedding w rows :
  table w = Some rows ->
  (database.has_entry_id (Article.entry_id article) rows = true ->
   (List.length (Article.entry_id article) <= 255)%nat ->
   table (snd (database.insert_article env self article keyword embedding w))
   = Some rows
   /\ (no_fault_from env (tick w) ->
       (serial w < 2147483647)%Z ->
       database.fits_columns (database.values_of article keyword embedding) = true ->
       fst (database.insert_article env self article keyword embedding w)
       = Returns true)
   /\ (database.adaptable_values (database.values_of article keyword embedding)
       = false
       \/ database.coerce (database.values_of article keyword embedding) = None ->
       fst (database.insert_article env self article keyword embedding w)
       = Returns false))
  /\ (no_fault_from env (tick w) ->
      (serial w + 1 < 2147483647)%Z ->
      database.fits_columns (database.values_of article keyword embedding) = true ->
      (List.length (rows_with_id (Article.entry_id article) rows) <= 1)%nat ->
      let first := database.insert_article env self article keyword embedding w in
      let second :=
        database.insert_article env self article keyword embedding (snd first) in
      fst first = Returns true
      /\ fst second = Returns true
      /\ table (snd second) = table (snd first)
      /\ exists rows2,
           table (snd second) = Some rows2
           /\ List.length (rows_with_id (Article.entry_id article) rows2) = 1%nat).
Proof.
  intros Ht. split.
  - intros Hp Hlen. split; [| split].
    + apply (insert_article_present env self article keyword embedding w rows Ht).
      rewrite firstn_all2 by exact Hlen. exact Hp.
    + intros Hf Hs Hfit.
      rewrite (insert_article_healthy env self article keyword embedding w rows
                 Ht Hf Hfit Hs). reflexivity.
    + apply insert_article_refused.
  - intros Hf Hs Hfit Hone first second. subst first second.
    rewrite (insert_article_healthy env self article keyword embedding w rows
               Ht Hf Hfit ltac:(lia)). cbn [fst snd].
    set (rows1 := if database.has_entry_id (Article.entry_id article) rows
                  then rows
                  else rows ++ [row_of (serial w + 1)%Z (clock env (3 + tick w))
                                  (database.values_of article keyword embedding)]).
    assert (Hp1 : database.has_entry_id (Article.entry_id article) rows1 = true).
    { subst rows1.
      destruct (database.has_entry_id (Article.entry_id article) rows) eqn:Hp;
        [exact Hp |].
      unfold database.has_entry_id. rewrite existsb_app. cbn.
      rewrite str_eqb_refl. rewrite orb_true_r. reflexivity. }
    assert (H1 : List.length (rows_with_id (Article.entry_id article) rows1) = 1%nat).
    { subst rows1.
      destruct (database.has_entry_id (Article.entry_id article) rows) eqn:Hp.
      - apply rows_with_id_present in Hp. lia.
      - unfold rows_with_id. rewrite filter_app.
        fold (rows_with_id (Article.entry_id article) rows).
        rewrite (rows_with_id_absent _ _ Hp). cbn.
        rewrite str_eqb_refl. reflexivity. }
    match goal with
    | |- context [database.insert_article env self article keyword embedding ?w1] =>
        rewrite (insert_article_healthy env self article keyword embedding w1
                   rows1 eq_refl)
    end.
    + cbn [fst snd table]. rewrite Hp1.
      split; [reflexivity |]. split; [reflexivity |]. split; [reflexivity |].
      exists rows1. split; [reflexivity | exact H1].
    + intros t Hle. apply Hf. cbn [tick] in Hle. lia.
    + exact Hfit.
    + cbn [serial]. lia.
Qed.

(* ===================================================================== *)
(** * Retrieval (tools/database.py, tools/rag_tool.py) *)
(* ===================================================================== *)

Lemma in_insert_by {A} (le : A -> A -> bool) x y l :
  In y (insert_by le x l) <-> y = x \/ In y l.
Proof.
  induction l as [| z l IH]; cbn.
  - intuition.
  - destruct (le x z); cbn; [intuition |]. rewrite IH. intuition.
Qed.

Lemma in_sort_by {A} (le : A -> A -> bool) y l :
  In y (sort_by le l) <-> In y l.
Proof.
  unfold sort_by. induction l as [| z l IH]; cbn; [reflexivity |].
  rewrite in_insert_by, IH. intuition.
Qed.

Lemma length_insert_by {A} (le : A -> A -> bool) x l :
  List.length (insert_by le x l) = S (List.length l).
Proof.
  induction l as [| z l IH]; cbn; [reflexivity |].
  destruct (le x z); cbn; [reflexivity | now rewrite IH].
Qed.

Lemma length_sort_by {A} (le : A -> A -> bool) l :
  List.length (sort_by le l) = List.length l.
Proof.
  unfold sort_by. induction l as [| z l IH]; cbn; [reflexivity |].
  now rewrite length_insert_by, IH.
Qed.

Lemma in_firstn {A} n (l : list A) x : In x (firstn n l) -> In x l.
Proof.
  revert l. induction n as [| n IH]; intros [| y l]; cbn; try tauto.
  intros [-> | H]; [now left | right; now apply IH].
Qed.

Lemma sort_by_permutation {A} (le : A -> A -> bool) l :
  Permutation (sort_by le l) l.
Proof.
  unfold sort_by. induction l as [| x l IH]; cbn; [constructor |].
  transitivity (x :: fold_right (insert_by le) [] l); [| now constructor].
  generalize (fold_right (insert_by le) [] l). clear.
  intros l. induction l as [| y l IH]; cbn; [reflexivity |].
  destruct (le x y); [reflexivity |].
  transitivity (y :: x :: l); [now constructor | constructor].
Qed.

Lemma insert_by_sorted {A} (le : A -> A -> bool) x l :
  (forall a b, le a b = false -> le b a = true) ->
  Sorted (fun a b => le a b = true) l ->
  Sorted (fun a b => le a b = true) (insert_by le x l).
Proof.
  intros Htot. induction 1 as [| y l Hs IH Hd]; cbn.
  - repeat constructor.
  - destruct (le x y) eqn:E.
    + constructor; [constructor; assumption | constructor; exact E].
    + constructor; [exact IH |].
      destruct l as [| z l]; cbn.
      * constructor. apply Htot, E.
      * destruct (le x z); constructor.
        -- apply Htot, E.
        -- inversion Hd; assumption.
Qed.

Lemma sort_by_sorted {A} (le : A -> A -> bool) l :
  (forall a b, le a b = false -> le b a = true) ->
  Sorted (fun a b => le a b = true) (sort_by le l).
Proof.
  intros Htot. unfold sort_by. induction l as [| x l IH]; cbn.
  - constructor.
  - apply insert_by_sorted; assumption.
Qed.

(** The order of [double precision] is total. *)
Lemma SFcompare_antisym x y :
  match SFcompare x y with
  | Some c => SFcompare y x = Some (CompOpp c)
  | None => SFcompare x x = None \/ SFcompare y y = None
  end.
Proof.
  destruct x as [sx | sx | | sx mx ex], y as [sy | sy | | sy my ey]; cbn;
    try (destruct sx); try (destruct sy); cbn; auto.
  all: rewrite (Z.compare_antisym ex ey); destruct (ex ?= ey)%Z; cbn;
    try reflexivity.
  all: rewrite ?CompOpp_involutive, ?Pos.compare_cont_antisym; reflexivity.
Qed.

Lemma float8_le_total a b : float8_le a b = false -> float8_le b a = true.
Proof.
  unfold float8_le, PrimFloat.is_nan.
  rewrite !FloatAxioms.eqb_spec, !FloatAxioms.leb_spec.
  unfold SFeqb, SFleb.
  pose proof (SFcompare_antisym (Prim2SF a) (Prim2SF b)) as H.
  destruct (SFcompare (Prim2SF a) (Prim2SF b)) as [c |].
  - rewrite H.
    destruct (SFcompare (Prim2SF b) (Prim2SF b)) as [[| |] |];
      destruct (SFcompare (Prim2SF a) (Prim2SF a)) as [[| |] |];
      destruct c; cbn; congruence.
  - destruct H as [-> | ->]; cbn.
    + intros _. reflexivity.
    + discriminate.
Qed.

(** The neighbours are at most [limit], and each is a stored row tagged with
    the keyword, shown with its title and abstract. *)
Lemma nearest_bounded env q keyword limit rows :
  (List.length (database.nearest env q keyword limit rows) <= Z.to_nat limit)%nat.
Proof.
  unfold database.nearest. rewrite length_map. apply firstn_le_length.
Qed.

Lemma nearest_stored env q keyword limit rows s :
  In s (database.nearest env q keyword limit rows) ->
  exists r,
    In r rows /\ Row.keyword r = keyword
    /\ Stored.title s = Row.title r /\ Stored.summary s = Row.summary r
    /\ Stored.entry_id s = Row.entry_id r.
Proof.
  unfold database.nearest. rewrite in_map_iff. intros (r & <- & Hin).
  apply in_firstn in Hin. rewrite in_sort_by in Hin.
  rewrite filter_In in Hin. destruct Hin as (Hin & _).
  unfold database.with_keyword in Hin. rewrite filter_In in Hin.
  destruct Hin as (Hin & Hk). apply str_eqb_eq in Hk.
  exists r. repeat split; assumption.
Qed.

(** The neighbours, row by row: the rows of the keyword that the scan
    visits, in the order of their distance to the query, cut at the
    limit. *)
Lemma nearest_rows env q keyword limit rows :
  exists ordered,
    Permutation ordered
      (filter (fun r => probed env q (Row.embedding r))
         (filter (fun r => str_eqb (Row.keyword r) keyword) rows))
    /\ Sorted
         (fun a b =>
            float8_le (cosine_distance env (Row.embedding a) q)
                      (cosine_distance env (Row.embedding b) q) = true)
         ordered
    /\ database.nearest env q keyword limit rows
       = map (fun r =>
                database.stored_of
                  (Some (1 - cosine_distance env (Row.embedding r) q)%float) r)
             (firstn (Z.to_nat limit) ordered).
Proof.
  eexists. split; [| split].
  - apply sort_by_permutation.
  - apply (sort_by_sorted
             (fun a b =>
                float8_le (cosine_distance env (Row.embedding a) q)
                          (cosine_distance env (Row.embedding b) q))).
    intros a b. apply float8_le_total.
  - reflexivity.
Qed.

Ltac query_step :=
  match goal with
  | |- context [if negb (database.vector_ok ?q) then _ else _] =>
      let V := fresh "V" in destruct (database.vector_ok q) eqn:V
  | |- context [if ((?l <? 0) || (9223372036854775807 <? ?l))%Z then _ else _] =>
      let L := fresh "L" in
      destruct ((l <? 0) || (9223372036854775807 <? l))%Z eqn:L
  | |- context [if existsb ?f ?l then _ else _] =>
      let D := fresh "D" in destruct (existsb f l) eqn:D
  end;
  world_simpl.

(** [search_similar_articles] returns nothing or the nearest rows of the
    committed table. *)
Lemma search_similar_articles_cases env self q keyword limit w :
  exists l w',
    database.search_similar_articles env self q keyword limit w = (Returns l, w')
    /\ (l = []
        \/ (exists rows,
              table w = Some rows
              /\ l = database.nearest env q keyword limit rows)
           /\ (forall t, tick w <= t < 6 + tick w -> fault env t = None)
           /\ database.vector_ok q = true).
Proof.
  open_block.
  destruct (fault env (tick w)) eqn:F0; world_simpl;
    [eexists; eexists; split; [reflexivity | now left] |].
  destruct (fault env (S (tick w))) eqn:F1; world_simpl;
    [eexists; eexists; split; [reflexivity | now left] |].
  destruct (database.adaptable keyword); world_simpl;
    [| eexists; eexists; split; [reflexivity | now left]].
  destruct (fault env (S (S (tick w)))) eqn:F2; world_simpl;
    [eexists; eexists; split; [reflexivity | now left] |].
  destruct (table w) as [rows |] eqn:Ht; world_simpl;
    [| eexists; eexists; split; [reflexivity | now left]].
  repeat query_step;
    try (eexists; eexists; split; [reflexivity | now left]).
  destruct (fault env (S (S (S (tick w))))) eqn:F3; world_simpl;
    [eexists; eexists; split; [reflexivity | now left] |].
  destruct (fault env (S (S (S (S (tick w)))))) eqn:F4; world_simpl;
    [eexists; eexists; split; [reflexivity | now left] |].
  destruct (fault env (S (S (S (S (S (tick w))))))) eqn:F5; world_simpl;
    [eexists; eexists; split; [reflexivity | now left] |].
  eexists. eexists. split; [reflexivity |]. right. split; [| split].
  - exists rows. split; reflexivity.
  - intros t Ht'.
    assert (Hc : t = tick w \/ t = S (tick w) \/ t = S (S (tick w))
                 \/ t = S (S (S (tick w))) \/ t = S (S (S (S (tick w))))
                 \/ t = S (S (S (S (S (tick w)))))) by lia.
    destruct Hc as [-> | [-> | [-> | [-> | [-> | ->]]]]]; assumption.
  - reflexivity.
Qed.

Lemma same_dimension_rows (q : list float) keyword rows :
  (forall r, In r rows -> Row.keyword r = keyword ->
             List.length (Row.embedding r) = List.length q) ->
  existsb
    (fun r => negb (List.length (Row.embedding r) =? List.length q)%nat)
    (database.with_keyword keyword rows) = false.
Proof.
  intros H. destruct (existsb _ _) eqn:E; [| reflexivity].
  apply existsb_exists in E. destruct E as (r & Hin & Hr).
  unfold database.with_keyword in Hin. rewrite filter_In in Hin.
  destruct Hin as (Hin & Hk). apply str_eqb_eq in Hk.
  rewrite (H r Hin Hk), Nat.eqb_refl in Hr. discriminate.
Qed.

Lemma search_similar_articles_healthy env self q keyword limit w rows :
  table w = Some rows ->
  no_fault_from env (tick w) ->
  database.adaptable keyword = true ->
  database.vector_ok q = true ->
  (0 <= limit <= 9223372036854775807)%Z ->
  (forall r, In r rows -> Row.keyword r = keyword ->
             List.length (Row.embedding r) = List.length q) ->
  database.search_similar_articles env self q keyword limit w
  = (Returns (database.nearest env q keyword limit rows),
     set_tick (6 + tick w) w).
Proof.
  intros Ht Hf Ha Hv Hl Hd.
  open_block. healthy Hf. rewrite Ha. healthy Hf. rewrite Ht, Hv. world_simpl.
  replace ((limit <? 0) || (9223372036854775807 <? limit))%Z with false
    by (symmetry; apply orb_false_iff; split; apply Z.ltb_ge; lia).
  rewrite (same_dimension_rows q keyword rows Hd). healthy Hf.
  destruct w; reflexivity.
Qed.

Lemma retrieve_relevant_articles_eq env self query keyword top_k w :
  rag_tool.retrieve_relevant_articles env self query keyword top_k w =
  match embedding_api env (tick w) query with
  | Returns q =>
      database.search_similar_articles env (rag_tool.db_manager self) q keyword
        top_k (set_tick (S (tick w)) w)
  | Raises e => (Returns [], set_tick (S (tick w)) w)
  end.
Proof.
  unfold rag_tool.retrieve_relevant_articles, rag_tool.embed_query, external,
    try_except, bind, ret.
  destruct (embedding_api env (tick w) query) as [q | e]; [| reflexivity].
  destruct (search_similar_articles_cases env (rag_tool.db_manager self) q
              keyword top_k (set_tick (S (tick w)) w)) as (l & w' & E & _).
  rewrite E. reflexivity.
Qed.

Lemma get_context_for_summary_eq env self article_title keyword w :
  rag_tool.get_context_for_summary env self article_title keyword w =
  match rag_tool.retrieve_relevant_articles env self article_title keyword 3 w with
  | (Returns articles, w') =>
      (Returns (join rag_tool.delimiter (map rag_tool.context_part articles)), w')
  | (Raises e, w') => (Returns [], w')
  end.
Proof.
  unfold rag_tool.get_context_for_summary, try_except, bind, ret.
  destruct (rag_tool.retrieve_relevant_articles env self article_title keyword 3 w)
    as [[articles | e] w']; reflexivity.
Qed.

(** C9.  [get_context_for_summary] always returns.  Its query is the
    embedding of the title alone.  When the embedding service and the
    database work, the neighbours are the first three, by increasing
    distance to that embedding, of the stored rows of the keyword that the
    scan of the server visits (all of them when it scans the table), and the
    context is the text ["Titre: <title>\nRésumé: <abstract>\n"] of each
    neighbour, in that order, joined by ["\n---\n"]; it is empty without
    neighbours.  The context is empty as well when the embedding service
    raises, when one of the six operations on the database fails, when the
    table is missing, and when the server refuses the query vector. *)
Theorem context_of_nearest_titles env self article_title keyword w :
  exists context w',
    rag_tool.get_context_for_summary env self article_title keyword w
    = (Returns context, w')
    /\ (forall q rows,
          embedding_api env (tick w) article_title = Returns q ->
          table w = Some rows ->
          no_fault_from env (S (tick w)) ->
          database.adaptable keyword = true ->
          database.vector_ok q = true ->
          (forall r, In r rows -> Row.keyword r = keyword ->
                     List.length (Row.embedding r) = List.length q) ->
          exists neighbours ordered,
            Permutation ordered
              (filter (fun r => probed env q (Row.embedding r))
                 (filter (fun r => str_eqb (Row.keyword r) keyword) rows))
            /\ Sorted
                 (fun a b =>
                    float8_le (cosine_distance env (Row.embedding a) q)
                              (cosine_distance env (Row.embedding b) q) = true)
                 ordered
            /\ neighbours = firstn 3 ordered
            /\ context
               = join (nl ++ py "---" ++ nl)
                   (map (fun r =>
                           py "Titre: " ++ Row.title r ++ nl
                           ++ py "Résumé: " ++ Row.summary r ++ nl)
                        neighbours)
            /\ (neighbours = [] -> context = []))
    /\ (forall e,
          embedding_api env (tick w) article_title = Raises e -> context = [])
    /\ (forall t e,
          tick w < t <= 6 + tick w -> fault env t = Some e -> context = [])
    /\ (table w = None -> context = [])
    /\ (forall q,
          embedding_api env (tick w) article_title = Returns q ->
          database.vector_ok q = false -> context = []).
Proof.
  rewrite get_context_for_summary_eq, retrieve_relevant_articles_eq.
  destruct (embedding_api env (tick w) article_title) as [q | e] eqn:E.
  - destruct (search_similar_articles_cases env (rag_tool.db_manager self) q
                keyword 3 (set_tick (S (tick w)) w)) as (l & w' & Es & Hl).
    rewrite Es. eexists. eexists. split; [reflexivity |].
    split; [| split; [| split; [| split]]].
    + intros q0 rows H0 Ht Hf Ha Hv Hd. injection H0 as <-.
      rewrite (search_similar_articles_healthy env (rag_tool.db_manager self)
                 q keyword 3 (set_tick (S (tick w)) w) rows Ht Hf Ha Hv
                 ltac:(lia) Hd) in Es.
      injection Es as <- _.
      destruct (nearest_rows env q keyword 3 rows) as (ordered & Hp & Hs & ->).
      exists (firstn 3 ordered), ordered.
      split; [exact Hp |]. split; [exact Hs |]. split; [reflexivity |].
      split.
      * rewrite map_map. reflexivity.
      * intros H. change (Z.to_nat 3) with 3%nat. rewrite H. reflexivity.
    + discriminate.
    + intros t e Ht He.
      destruct Hl as [-> | (_ & Hok & _)]; [reflexivity |].
      rewrite Hok in He by (cbn [tick set_tick]; lia). discriminate.
    + intros Ht.
      destruct Hl as [-> | ((rows & Hr & _) & _)]; [reflexivity |].
      cbn [table set_tick] in Hr. congruence.
    + intros q0 H0 Hv. injection H0 as <-.
      destruct Hl as [-> | (_ & _ & Hok)]; [reflexivity | congruence].
  - eexists. eexists. split; [reflexivity |].
    split; [discriminate |]. split; [reflexivity |].
    split; [reflexivity |]. split; [reflexivity | discriminate].
Qed.
(* ===================================================================== *)
(** * Runs on the sample inputs *)
(* ===================================================================== *)


(** C2, counterexample.  Two articles are found, the digest and the two
    summaries are computed, and the LLM fails on the synthesis: the workflow
    raises instead of returning a result with [success = True], no report is
    written, and the endpoint answers 500. *)
Lemma synthesis_failure_loses_the_run :
  fst (agents.run_complete_workflow
         (Sample.env false 2 Sample.llm_no_synthesis)
         (Sample.crew (py "llm") 2, Sample.world))
  = Raises Sample.boom
  /\ files (snd (snd (agents.run_complete_workflow
                        (Sample.env false 2 Sample.llm_no_synthesis)
                        (Sample.crew (py "llm") 2, Sample.world)))) = []
  /\ List.length
       (agents.article_summaries
          (fst (snd (agents.run_complete_workflow
                       (Sample.env false 2 Sample.llm_no_synthesis)
                       (Sample.crew (py "llm") 2, Sample.world))))) = 2%nat
  /\ fst (api.post_api_search (Sample.env false 2 Sample.llm_no_synthesis)
            (Validated
               {| SearchRequest.keyword := py "llm";
                  SearchRequest.max_articles := 2 |}) Sample.world)
     = {| HTTPResponse.status_code := 500;
          HTTPResponse.body :=
            Detail (py "Erreur lors du traitement : connection reset") |}.
Proof. split; [| split; [| split]]; vm_compute; reflexivity. Qed.

(** C4, counterexample.  With 52 papers in the archive and a limit of 51,
    the direct path returns 51 articles of seven fields, and the MCP path
    returns none, where a limit clamped to 50 would give 50 articles on
    both; with a limit of 50 the MCP path returns 50 articles of eight
    fields. *)
Lemma search_paths_differ :
  fst (arxiv_tool.search_arxiv (Sample.env false 52 Sample.llm_ok)
         (py "llm") 51 Sample.world)
  = Returns (map arxiv_tool.article_of (Sample.pool 51))
  /\ fst (arxiv_mcp_client.search_arxiv_sync (Sample.env true 52 Sample.llm_ok)
            (py "llm") 51 Sample.world)
     = Returns []
  /\ fst (arxiv_mcp_client.search_arxiv_sync (Sample.env true 52 Sample.llm_ok)
            (py "llm") 50 Sample.world)
     = Returns (map arxiv_server.article_of (Sample.pool 50))
  /\ Article.keys (arxiv_tool.article_of (Sample.result 1))
     = [py "title"; py "authors"; py "summary"; py "published"; py "pdf_url";
        py "entry_id"; py "categories"]
  /\ Article.keys (arxiv_server.article_of (Sample.result 1))
     = [py "title"; py "authors"; py "summary"; py "published"; py "pdf_url";
        py "entry_id"; py "categories"; py "primary_category"].
Proof. split; [| split; [| split; [| split]]]; vm_compute; reflexivity. Qed.

(** C6, counterexample.  The first paper is stored under ["llm"], and the
    database works.  Inserting it again under a keyword of 256 letters
    returns [False], not success, and so does inserting it with a NUL
    character in its title; the stored row is untouched in both cases. *)
Lemma upsert_of_stored_id_fails :
  database.has_entry_id (Article.entry_id (paper 1))
    (match table world_with_paper with Some rows => rows | None => [] end)
  = true
  /\ database.insert_article (Sample.env false 1 Sample.llm_ok) Sample.dbm
       (paper 1) long_keyword zeros world_with_paper
     = (Returns false, set_tick 3 world_with_paper)
  /\ database.insert_article (Sample.env false 1 Sample.llm_ok) Sample.dbm
       {| Article.title := py "Paper" ++ [0%N];
          Article.authors := Article.authors (paper 1);
          Article.summary := Article.summary (paper 1);
          Article.published := Article.published (paper 1);
          Article.pdf_url := Article.pdf_url (paper 1);
          Article.entry_id := Article.entry_id (paper 1);
          Article.categories := Article.categories (paper 1);
          Article.primary_category := None |}
       (py "llm") zeros world_with_paper
     = (Returns false, set_tick 2 world_with_paper).
Proof. split; [| split]; vm_compute; reflexivity. Qed.

(* ===================================================================== *)
(** * The theorems at the sample inputs *)
(* ===================================================================== *)

Lemma run_eta {A S1 S2} (x : outcome A * (S1 * S2)) :
  x = (fst x, (fst (snd x), snd (snd x))).
Proof. destruct x as [r [s1 s2]]. reflexivity. Qed.

(** C5 at a keyword for which the search finds nothing. *)
Lemma no_articles_short_circuit_witness :
  fst (agents.execute_collection Sample.env_arxiv_down
         (Sample.crew (py "zzzxxxyyy-nonexistent-term") 10, Sample.world))
  = Returns []
  /\ fst (agents.run_complete_workflow Sample.env_arxiv_down
            (Sample.crew (py "zzzxxxyyy-nonexistent-term") 10, Sample.world))
     = Returns agents.no_articles.
Proof.
  assert (H : fst (agents.execute_collection Sample.env_arxiv_down
                     (Sample.crew (py "zzzxxxyyy-nonexistent-term") 10,
                      Sample.world)) = Returns [])
    by (vm_compute; reflexivity).
  split; [exact H |].
  exact (proj1 (no_articles_short_circuit Sample.env_arxiv_down _ _ H)).
Defined.

(** C8 at a run over two articles. *)
Lemma summaries_copy_article_fields_witness :
  exists new,
    agents.article_summaries
      (fst (snd (agents.execute_summarization (Sample.env false 2 Sample.llm_ok)
                   (Sample.crew_with 2, Sample.world))))
    = agents.article_summaries (Sample.crew_with 2) ++ new
    /\ Forall2
         (fun article summary =>
            ArticleSummary.authors summary = Article.authors article
            /\ ArticleSummary.published summary = Article.published article
            /\ ArticleSummary.pdf_url summary = Article.pdf_url article)
         (firstn (List.length new) (agents.articles (Sample.crew_with 2))) new
    /\ List.length new = 2%nat.
Proof.
  destruct (summaries_copy_article_fields (Sample.env false 2 Sample.llm_ok)
              (Sample.crew_with 2) Sample.world _ _ _ (run_eta _))
    as (new & Hs & Hf & Hl).
  exists new. split; [exact Hs |]. split; [exact Hf |].
  apply (Hl (returned
               (fst (agents.execute_summarization
                       (Sample.env false 2 Sample.llm_ok)
                       (Sample.crew_with 2, Sample.world))))).
  vm_compute. reflexivity.
Defined.


(** C7 at two instances that differ beyond the first three titles and the
    first 200 characters of the abstracts. *)
Lemma quick_digest_reads_first_three_witness :
  agents.articles crew_of_four <> agents.articles crew_of_three
  /\ fst (agents.execute_quick_summary (Sample.env false 4 Sample.llm_ok)
            (crew_of_four, Sample.world))
     = fst (agents.execute_quick_summary (Sample.env false 4 Sample.llm_ok)
              (crew_of_three, Sample.world))
  /\ agents.execute_quick_summary (Sample.env false 4 Sample.llm_ok)
       (crew_of_four, Sample.world)
     = (Returns (py "ok"), (crew_of_four, set_tick 1 Sample.world)).
Proof.
  destruct (quick_digest_reads_first_three (Sample.env false 4 Sample.llm_ok)
              crew_of_four Sample.world) as (H1 & _ & H3 & _).
  split; [vm_compute; discriminate |]. split.
  - apply (H3 crew_of_three); vm_compute; reflexivity.
  - rewrite H1 by (vm_compute; discriminate). reflexivity.
Defined.

(** C2 (amended) at a run in which the LLM fails on the synthesis. *)
Lemma llm_failure_ends_the_run_witness :
  exists me' w',
    agents.run_complete_workflow (Sample.env false 2 Sample.llm_no_synthesis)
      (Sample.crew (py "llm") 2, Sample.world)
    = (Raises Sample.boom, (me', w'))
    /\ files w' = files Sample.world
    /\ agents.articles me' = map arxiv_tool.article_of (Sample.pool 2).
Proof.
  pose (env := Sample.env false 2 Sample.llm_no_synthesis).
  pose (collected := agents.execute_collection env
                       (Sample.crew (py "llm") 2, Sample.world)).
  pose (digest := agents.execute_quick_summary env (snd collected)).
  pose (summarized := agents.execute_summarization env (snd digest)).
  destruct (llm_failure_ends_the_run env (Sample.crew (py "llm") 2) Sample.world
              (returned (fst collected)) (snd collected) Sample.boom)
    as (me' & w' & Hr & Hf & Ha & _).
  - vm_compute. reflexivity.
  - vm_compute. discriminate.
  - right. right.
    exists (py "ok"), (snd digest), (returned (fst summarized)), (snd summarized).
    split; [| split]; vm_compute; reflexivity.
  - exists me', w'. split; [exact Hr |]. split; [exact Hf |].
    rewrite Ha. vm_compute. reflexivity.
Defined.

(** C4 (amended) at a limit of 2 over an archive of 52 papers. *)
Lemma mcp_path_shape_and_clamp_witness :
  arxiv_mcp_client.search_arxiv_sync (Sample.env true 52 Sample.llm_ok)
    (py "llm") 2 Sample.world
  = (Returns (map arxiv_server.article_of (Sample.pool 2)),
     set_tick 5 Sample.world).
Proof.
  destruct (mcp_path_shape_and_clamp (Sample.env true 52 Sample.llm_ok)
              (py "llm") 2 Sample.world) as (_ & H & _).
  apply (H (Sample.pool 2));
    first [ lia | reflexivity | vm_compute; reflexivity | vm_compute; discriminate ].
Defined.

(** C6 (amended) at a second insertion of the first paper, under another
    keyword. *)
Lemma upsert_ignores_stored_id_witness :
  table (snd (database.insert_article (Sample.env false 1 Sample.llm_ok)
                Sample.dbm (paper 1) (py "transformers") zeros world_with_paper))
  = table world_with_paper
  /\ fst (database.insert_article (Sample.env false 1 Sample.llm_ok)
            Sample.dbm (paper 1) (py "transformers") zeros world_with_paper)
     = Returns true.
Proof.
  destruct (upsert_ignores_stored_id (Sample.env false 1 Sample.llm_ok)
              Sample.dbm (paper 1) (py "transformers") zeros world_with_paper
              _ eq_refl) as [H _].
  destruct H as (Hsame & Htrue & _);
    [vm_compute; reflexivity | vm_compute; lia |].
  split; [exact Hsame |].
  apply Htrue;
    [intros t _; reflexivity | vm_compute; reflexivity | vm_compute; reflexivity].
Defined.

(** C9 at a table with four papers of the keyword and one of another: the
    context holds the three nearest, the nearest first. *)
Lemma context_of_nearest_titles_witness :
  exists context neighbours,
    fst (rag_tool.get_context_for_summary env_gap
           {| rag_tool.db_manager := Sample.dbm |} (py "A new paper") (py "llm")
           world_of_five)
    = Returns context
    /\ List.length neighbours = 3%nat
    /\ context
       = join (nl ++ py "---" ++ nl)
           (map (fun r =>
                   py "Titre: " ++ Row.title r ++ nl
                   ++ py "Résumé: " ++ Row.summary r ++ nl)
                neighbours)
    /\ context
       = py "Titre: Paper 2" ++ nl ++ py "Résumé: Abstract of paper 2" ++ nl
         ++ nl ++ py "---" ++ nl
         ++ py "Titre: Paper 4" ++ nl ++ py "Résumé: Abstract of paper 4" ++ nl
         ++ nl ++ py "---" ++ nl
         ++ py "Titre: Paper 3" ++ nl ++ py "Résumé: Abstract of paper 3" ++ nl.
Proof.
  destruct (context_of_nearest_titles env_gap
              {| rag_tool.db_manager := Sample.dbm |} (py "A new paper")
              (py "llm") world_of_five) as (context & w' & E & H & _).
  destruct (H zeros
              [row_at 1 0.5 (py "llm"); row_at 2 0.125 (py "llm");
               row_at 3 0.375 (py "llm"); row_at 4 0.25 (py "llm");
               row_at 5 0 (py "vision")])
    as (neighbours & ordered & Hp & _ & Hn & Hc & _).
  - reflexivity.
  - reflexivity.
  - intros t _. reflexivity.
  - vm_compute. reflexivity.
  - vm_compute. reflexivity.
  - intros r Hin _.
    repeat (destruct Hin as [<- | Hin]; [vm_compute; reflexivity |]).
    destruct Hin.
  - exists context, neighbours.
    split; [rewrite E; reflexivity |]. split; [| split; [exact Hc |]].
    + rewrite Hn. apply Permutation_length in Hp.
      rewrite length_firstn, Hp. vm_compute. reflexivity.
    + assert (Hv : fst (rag_tool.get_context_for_summary env_gap
                          {| rag_tool.db_manager := Sample.dbm |}
                          (py "A new paper") (py "llm") world_of_five)
                   = Returns
                       (py "Titre: Paper 2" ++ nl
                        ++ py "Résumé: Abstract of paper 2" ++ nl
                        ++ nl ++ py "---" ++ nl
                        ++ py "Titre: Paper 4" ++ nl
                        ++ py "Résumé: Abstract of paper 4" ++ nl
                        ++ nl ++ py "---" ++ nl
                        ++ py "Titre: Paper 3" ++ nl
                        ++ py "Résumé: Abstract of paper 3" ++ nl))
        by (vm_compute; reflexivity).
      rewrite E in Hv. cbn [fst] in Hv. injection Hv as Hv. exact Hv.
Defined.

(* ===================================================================== *)
(** * More on the database manager *)
(* ===================================================================== *)

Lemma has_entry_id_in entry_id rows :
  database.has_entry_id entry_id rows = true
  <-> In entry_id (map Row.entry_id rows).
Proof.
  unfold database.has_entry_id. rewrite existsb_exists, in_map_iff.
  split; intros (r & H1 & H2).
  - exists r. apply str_eqb_eq in H2. auto.
  - exists r. split; [exact H2 |]. apply str_eqb_eq. exact H1.
Qed.

(** X1.  When [insert_article] answers [True], the committed table holds a row
    under the external id of the article as the column stores it: the id
    itself when it has at most 255 characters, and its first 255 characters
    beyond (the column cuts the spaces of a longer id and refuses any
    other). *)
Theorem insert_article_true_is_stored env self article keyword embedding w :
  fst (database.insert_article env self article keyword embedding w)
  = Returns true ->
  exists rows',
    table (snd (database.insert_article env self article keyword embedding w))
    = Some rows'
    /\ In (firstn 255 (Article.entry_id article)) (map Row.entry_id rows')
    /\ ((List.length (Article.entry_id article) <= 255)%nat ->
        In (Article.entry_id article) (map Row.entry_id rows')).
Proof.
  assert (Hcut : forall rows' : list Row.t,
            In (firstn 255 (Article.entry_id article)) (map Row.entry_id rows') ->
            In (firstn 255 (Article.entry_id article)) (map Row.entry_id rows')
            /\ ((List.length (Article.entry_id article) <= 255)%nat ->
                In (Article.entry_id article) (map Row.entry_id rows'))).
  { intros rows' H. split; [exact H |]. intros Hl.
    rewrite firstn_all2 in H by exact Hl. exact H. }
  destruct (table w) as [rows |] eqn:Hw.
  - destruct (insert_article_cases env self article keyword embedding w rows Hw)
      as (b & w' & E & H).
    rewrite E. cbn [fst snd]. intros Hb. injection Hb as ->.
    destruct H as [(Ht & Hp) | (stored & new_id & stamp & Hc & Hp & Ht)].
    + destruct (Hp eq_refl) as (stored & Hc & Hin).
      apply coerce_entry_id in Hc. cbn [database.values_of database.v_entry_id] in Hc.
      exists rows. split; [exact Ht |]. apply Hcut.
      apply has_entry_id_in. congruence.
    + apply coerce_entry_id in Hc. cbn [database.values_of database.v_entry_id] in Hc.
      eexists. split; [exact Ht |]. apply Hcut.
      rewrite map_app, in_app_iff. right.
      left. cbn [row_of Row.entry_id]. exact Hc.
  - run_block; try discriminate; rewrite Hw; world_simpl; discriminate.
Qed.

(** X2.  The answer [False] does not tell that nothing was stored.  When the
    first five operations of the call succeed (connection, cursor, INSERT,
    its time stamp, commit) and the sixth, [cursor.close()], raises, the row
    of a new external id is in the committed table and the answer is
    [False].  (With the sequence of [id] exhausted the INSERT itself is
    refused: the answer is [False] and the table is as it was.) *)
Theorem insert_article_false_after_commit env self article keyword embedding
    w rows e :
  table w = Some rows ->
  database.has_entry_id (Article.entry_id article) rows = false ->
  database.fits_columns (database.values_of article keyword embedding) = true ->
  (forall t, tick w <= t < 5 + tick w -> fault env t = None) ->
  fault env (5 + tick w) = Some e ->
  fst (database.insert_article env self article keyword embedding w)
  = Returns false
  /\ ((serial w < 2147483647)%Z ->
      table (snd (database.insert_article env self article keyword embedding w))
      = Some (rows ++ [row_of (serial w + 1)%Z (clock env (3 + tick w))
                         (database.values_of article keyword embedding)]))
  /\ ((2147483647 <= serial w)%Z ->
      table (snd (database.insert_article env self article keyword embedding w))
      = Some rows).
Proof.
  intros Ht Hp Hfit Hf He.
  destruct (fits_columns_coerce _ Hfit) as (Ha & Hc).
  open_block. rewrite Ha. healthy Hf. rewrite Ht, Hc. world_simpl.
  destruct (Z.leb_spec 2147483647 (serial w)).
  - split; [reflexivity |]. split; [lia |]. intros _. exact Ht.
  - healthy Hf.
    replace (database.v_entry_id (database.values_of article keyword embedding))
      with (Article.entry_id article) by reflexivity.
    rewrite Hp. healthy Hf. cbn [Nat.add] in He. rewrite He. cbn.
    split; [reflexivity |]. split; [reflexivity | lia].
Qed.

(** X3.  [insert_article] keeps the external ids of the table distinct,
    whatever fails during the call. *)
Theorem insert_article_keeps_ids_distinct env self article keyword embedding
    w rows :
  table w = Some rows ->
  NoDup (map Row.entry_id rows) ->
  exists rows',
    table (snd (database.insert_article env self article keyword embedding w))
    = Some rows'
    /\ NoDup (map Row.entry_id rows').
Proof.
  intros Ht Hn.
  destruct (insert_article_cases env self article keyword embedding w rows Ht)
    as (b & w' & E & H).
  rewrite E. cbn [snd].
  destruct H as [(Hs & _) | (stored & new_id & stamp & _ & Hp & Hs)].
  - exists rows. auto.
  - eexists. split; [exact Hs |].
    rewrite map_app. cbn [map row_of Row.entry_id].
    apply NoDup_app; [exact Hn | repeat constructor; intros [] |].
    intros id Hin [<- | []].
    apply has_entry_id_in in Hin. congruence.
Qed.

(** X4.  [_init_database] never drops stored rows, whatever fails; and when
    the database does not fail, the table exists afterwards, empty if it
    was missing. *)
Theorem init_database_keeps_rows env self w :
  (forall rows,
     table w = Some rows ->
     table (snd (database._init_database env self w)) = Some rows)
  /\ (no_fault_from env (tick w) ->
      table (snd (database._init_database env self w))
      = Some (match table w with Some rows => rows | None => [] end)).
Proof.
  split.
  - intros rows Ht. run_block; first [exact Ht | reflexivity].
  - intros Hf. autounfold with db.
    unfold try_except, bind, fallible, now, external, get, modify, ret, raise.
    healthy Hf. destruct (table w); healthy Hf; reflexivity.
Qed.

Lemma str_leb_total a b : str_leb a b = false -> str_leb b a = true.
Proof.
  revert b. induction a as [| x a IH]; intros [| y b]; cbn; try congruence.
  destruct (N.ltb_spec x y); [discriminate |].
  destruct (N.ltb_spec y x); [reflexivity |].
  apply IH.
Qed.

Lemma get_all_articles_by_keyword_healthy env self keyword w rows :
  table w = Some rows ->
  no_fault_from env (tick w) ->
  database.adaptable keyword = true ->
  database.get_all_articles_by_keyword env self keyword w
  = (Returns
       (map (database.stored_of None)
          (sort_by (fun a b => str_leb (Row.published b) (Row.published a))
             (database.with_keyword keyword rows))),
     set_tick (6 + tick w) w).
Proof.
  intros Ht Hf Ha.
  open_block. healthy Hf. rewrite Ha. healthy Hf. rewrite Ht. healthy Hf.
  destruct w; reflexivity.
Qed.

Lemma sorted_map {A B} (f : A -> B) (R : B -> B -> Prop) l :
  Sorted (fun a b => R (f a) (f b)) l -> Sorted R (map f l).
Proof.
  induction 1 as [| x l Hs IH Hd]; cbn; constructor; [exact IH |].
  destruct Hd; cbn; constructor; assumption.
Qed.

(** X5.  On a database that does not fail, [get_all_articles_by_keyword]
    returns, for a keyword that the driver can adapt (no NUL character, no
    lone surrogate), the stored rows of the keyword, each once, none of
    another keyword, the later publication dates first; for a keyword that
    the driver cannot adapt it returns the empty list.  The table is left
    as it is. *)
Theorem get_all_articles_by_keyword_lists_the_keyword env self keyword w rows :
  table w = Some rows ->
  no_fault_from env (tick w) ->
  (database.adaptable keyword = false ->
   fst (database.get_all_articles_by_keyword env self keyword w) = Returns []
   /\ table (snd (database.get_all_articles_by_keyword env self keyword w))
      = Some rows)
  /\ (database.adaptable keyword = true ->
      exists l,
        fst (database.get_all_articles_by_keyword env self keyword w)
        = Returns l
        /\ Permutation l
             (map (database.stored_of None)
                (database.with_keyword keyword rows))
        /\ Sorted
             (fun a b => str_leb (Stored.published b) (Stored.published a) = true)
             l
        /\ table (snd (database.get_all_articles_by_keyword env self keyword w))
           = Some rows).
Proof.
  intros Ht Hf. split.
  { intros Ha. open_block. healthy Hf. rewrite Ha. split; [reflexivity | exact Ht]. }
  intros Ha.
  rewrite (get_all_articles_by_keyword_healthy env self keyword w rows Ht Hf Ha).
  eexists. split; [reflexivity |]. split; [| split].
  - apply Permutation_map, sort_by_permutation.
  - apply (sorted_map (database.stored_of None)
             (fun a b => str_leb (Stored.published b) (Stored.published a) = true)).
    cbn [database.stored_of Stored.published].
    apply (sort_by_sorted (fun a b => str_leb (Row.published b) (Row.published a))).
    intros a b. apply str_leb_total.
  - exact Ht.
Qed.

Lemma clear_articles_by_keyword_healthy env self keyword w rows :
  table w = Some rows ->
  no_fault_from env (tick w) ->
  database.adaptable keyword = true ->
  database.clear_articles_by_keyword env self keyword w
  = (Returns true,
     {| tick := 6 + tick w;
        table := Some (filter (fun r => negb (str_eqb (Row.keyword r) keyword)) rows);
        serial := serial w;
        files := files w |}).
Proof.
  intros Ht Hf Ha.
  open_block. healthy Hf. rewrite Ha. healthy Hf. rewrite Ht. healthy Hf.
  reflexivity.
Qed.

Lemma str_eqb_neq a b : a <> b -> str_eqb a b = false.
Proof.
  intros H. destruct (str_eqb a b) eqn:E; [| reflexivity].
  apply str_eqb_eq in E. contradiction.
Qed.

(** X6.  On a database that does not fail, [clear_articles_by_keyword]
    answers [True] for a keyword that the driver can adapt (no NUL character,
    no lone surrogate), leaves no row of the keyword and keeps the rows of
    every other keyword, in their order; for a keyword that the driver
    cannot adapt it answers [False] and leaves the table as it is. *)
Theorem clear_articles_by_keyword_removes_the_keyword env self keyword w rows :
  table w = Some rows ->
  no_fault_from env (tick w) ->
  (database.adaptable keyword = false ->
   fst (database.clear_articles_by_keyword env self keyword w) = Returns false
   /\ table (snd (database.clear_articles_by_keyword env self keyword w))
      = Some rows)
  /\ (database.adaptable keyword = true ->
  fst (database.clear_articles_by_keyword env self keyword w) = Returns true
  /\ exists rows',
       table (snd (database.clear_articles_by_keyword env self keyword w))
       = Some rows'
       /\ database.with_keyword keyword rows' = []
       /\ forall other,
            other <> keyword ->
            database.with_keyword other rows' = database.with_keyword other rows).
Proof.
  intros Ht Hf. split.
  { intros Ha. open_block. healthy Hf. rewrite Ha. split; [reflexivity | exact Ht]. }
  intros Ha.
  rewrite (clear_articles_by_keyword_healthy env self keyword w rows Ht Hf Ha).
  cbn [fst snd table]. split; [reflexivity |].
  eexists. split; [reflexivity |]. unfold database.with_keyword. split.
  - clear Ht. induction rows as [| r rows IH]; cbn; [reflexivity |].
    destruct (str_eqb (Row.keyword r) keyword) eqn:E; cbn;
      [exact IH | rewrite E; exact IH].
  - intros other Hne. clear Ht.
    induction rows as [| r rows IH]; cbn; [reflexivity |].
    destruct (str_eqb (Row.keyword r) keyword) eqn:E; cbn.
    + apply str_eqb_eq in E.
      rewrite (str_eqb_neq (Row.keyword r) other) by congruence. exact IH.
    + destruct (str_eqb (Row.keyword r) other); [f_equal |]; exact IH.
Qed.

(** X7.  An article stored under one keyword stays invisible under another
    one, also after it has been inserted again under that other keyword:
    the second insertion is ignored, and the similarity search of the other
    keyword does not return it. *)
Theorem stored_article_is_invisible_under_another_keyword
    env self article keyword embedding w rows q limit l w' :
  table w = Some rows ->
  (forall r, In r rows -> Row.entry_id r = Article.entry_id article ->
             Row.keyword r <> keyword) ->
  In (Article.entry_id article) (map Row.entry_id rows) ->
  database.search_similar_articles env self q keyword limit
    (snd (database.insert_article env self article keyword embedding w))
  = (Returns l, w') ->
  forall s, In s l -> Stored.entry_id s <> Article.entry_id article.
Proof.
  intros Ht Hother Hin Hs s Hl Heq.
  apply has_entry_id_in in Hin.
  destruct (search_similar_articles_cases env self q keyword limit
              (snd (database.insert_article env self article keyword embedding w)))
    as (l0 & w0 & E & Hc).
  rewrite E in Hs. injection Hs as <- <-.
  destruct Hc as [-> | ((rows' & Hr & ->) & _)]; [contradiction |].
  apply nearest_stored in Hl.
  destruct Hl as (r & Hin' & Hk & _ & _ & Hid).
  destruct (insert_article_cases env self article keyword embedding w rows Ht)
    as (b & w1 & Ei & [(Hsame & _) | (stored & new_id & stamp & Hco & Hnew & Happ)]);
    rewrite Ei in Hr; cbn [snd] in Hr.
  - rewrite Hsame in Hr. injection Hr as <-.
    apply (Hother r Hin'); congruence.
  - rewrite Happ in Hr. injection Hr as <-.
    apply in_app_iff in Hin'. destruct Hin' as [Hin' | [<- | []]].
    + apply (Hother r Hin'); congruence.
    + cbn [row_of Row.entry_id] in Hid. congruence.
Qed.

Lemma fits_columns_keyword v :
  database.fits_columns v = true ->
  database.adaptable (database.v_keyword v) = true.
Proof.
  intros H. apply fits_columns_coerce in H. destruct H as (H & _).
  unfold database.adaptable_values in H. rewrite !andb_true_iff in H.
  apply H.
Qed.

(** X8.  Insert, then list.  On a database that does not fail and whose
    sequence of ids is not exhausted, an article of a new external id whose
    values fit the columns (strings without NUL character and lone
    surrogate, an id and a keyword of at most 255 characters, a date of at
    most 20, a vector of 1536 elements in the range of [real]) is listed
    under its keyword afterwards, with the fields it was inserted with. *)
Theorem inserted_article_is_listed env self article keyword embedding w rows :
  table w = Some rows ->
  no_fault_from env (tick w) ->
  (serial w < 2147483647)%Z ->
  database.fits_columns (database.values_of article keyword embedding) = true ->
  database.has_entry_id (Article.entry_id article) rows = false ->
  exists l s,
    fst (database.get_all_articles_by_keyword env self keyword
           (snd (database.insert_article env self article keyword embedding w)))
    = Returns l
    /\ In s l
    /\ Stored.entry_id s = Article.entry_id article
    /\ Stored.title s = Article.title article
    /\ Stored.authors s = Article.authors article
    /\ Stored.summary s = Article.summary article
    /\ Stored.published s = Article.published article
    /\ Stored.pdf_url s = Article.pdf_url article
    /\ Stored.categories s = Article.categories article.
Proof.
  intros Ht Hf Hs Hfit Hp.
  rewrite (insert_article_healthy env self article keyword embedding w rows
             Ht Hf Hfit Hs), Hp. cbn [snd].
  set (row := row_of (serial w + 1)%Z (clock env (3 + tick w))
                (database.values_of article keyword embedding)).
  match goal with
  | |- context [database.get_all_articles_by_keyword env self keyword ?w1] =>
      rewrite (get_all_articles_by_keyword_healthy env self keyword w1
                 (rows ++ [row]) eq_refl)
  end.
  2:{ intros t Hle. apply Hf. cbn [tick] in Hle. lia. }
  2:{ exact (fits_columns_keyword _ Hfit). }
  cbn [fst]. eexists. exists (database.stored_of None row).
  split; [reflexivity |]. split; [| repeat split].
  apply in_map. apply in_sort_by.
  unfold database.with_keyword. rewrite filter_In, in_app_iff. split.
  - right. left. reflexivity.
  - apply str_eqb_refl.
Qed.

(* ===================================================================== *)
(** * Reading never writes *)
(* ===================================================================== *)

Create HintDb reads.

Ltac reads :=
  repeat first
    [ solve [auto with reads nocore]
    | frame_step
    | progress cbv zeta ].

Lemma fallible_keeps_table env : keeps table (fallible env).
Proof. unfold fallible. frame. Qed.

Lemma now_keeps_table env : keeps table (now env).
Proof. unfold now. frame. Qed.

#[local] Hint Resolve fallible_keeps_table now_keeps_table : reads.

Lemma search_similar_articles_keeps_table env self q keyword limit :
  keeps table (database.search_similar_articles env self q keyword limit).
Proof. autounfold with db. reads. Qed.

Lemma get_all_articles_by_keyword_keeps_table env self keyword :
  keeps table (database.get_all_articles_by_keyword env self keyword).
Proof. autounfold with db. reads. Qed.

#[local] Hint Resolve search_similar_articles_keeps_table
  get_all_articles_by_keyword_keeps_table : reads.

Lemma get_context_for_summary_keeps_table env self article_title keyword :
  keeps table (rag_tool.get_context_for_summary env self article_title keyword).
Proof.
  unfold rag_tool.get_context_for_summary, rag_tool.retrieve_relevant_articles,
    rag_tool.embed_query.
  reads.
Qed.

Lemma kickoff_keeps_table env task : keeps table (agents.kickoff env task).
Proof. unfold agents.kickoff. frame. Qed.

#[local] Hint Resolve get_context_for_summary_keeps_table
  kickoff_keeps_table : reads.

Lemma self_keeps_table : keeps table_of agents.self.
Proof. intros s. reflexivity. Qed.

Lemma world_keeps_table {A} (m : M World A) :
  keeps table m -> keeps table_of (agents.world m).
Proof. intros H. apply (keeps_lift_snd table m H). Qed.

Lemma append_summary_keeps_table d : keeps table_of (agents.append_summary d).
Proof. intros s. reflexivity. Qed.

#[local] Hint Resolve self_keeps_table world_keeps_table
  append_summary_keeps_table : reads.

Lemma summarize_one_keeps_table env article :
  keeps table_of (agents.summarize_one env article).
Proof. unfold agents.summarize_one. reads. Qed.

#[local] Hint Resolve summarize_one_keeps_table : reads.

Lemma on_path_keeps_table env path : keeps table (on_path env path).
Proof. unfold on_path. frame. Qed.

Lemma laid_out_keeps_table env path story :
  keeps table (laid_out env path story).
Proof. unfold laid_out. frame. Qed.

Lemma paragraph_keeps_table env text style :
  keeps table (pdf_generator.paragraph env text style).
Proof. unfold pdf_generator.paragraph. frame. Qed.

#[local] Hint Resolve on_path_keeps_table laid_out_keeps_table
  paragraph_keeps_table : reads.

Lemma article_loop_keeps_table env total summaries :
  forall idx, keeps table (pdf_generator.article_loop env idx total summaries).
Proof.
  induction summaries as [| a l IH]; intros idx; cbn [pdf_generator.article_loop].
  - reads.
  - apply keeps_bind.
    + unfold pdf_generator.article_elements. reads.
    + intros elements. apply keeps_bind; [apply IH | intros more; reads].
Qed.

#[local] Hint Resolve article_loop_keeps_table : reads.

Lemma generate_pdf_report_keeps_table env keyword global_summary summaries dir :
  keeps table
    (pdf_generator.generate_pdf_report env keyword global_summary summaries dir).
Proof.
  unfold pdf_generator.generate_pdf_report, pdf_generator.makedirs,
    pdf_generator.generate_report, pdf_generator._create_cover_page,
    pdf_generator._create_global_summary,
    pdf_generator._create_article_summaries, pdf_generator.build.
  reads.
Qed.

#[local] Hint Resolve generate_pdf_report_keeps_table : reads.

Lemma execute_quick_summary_keeps_table env :
  keeps table_of (agents.execute_quick_summary env).
Proof. unfold agents.execute_quick_summary. reads. Qed.

Lemma execute_summarization_keeps_table env :
  keeps table_of (agents.execute_summarization env).
Proof. unfold agents.execute_summarization. reads. Qed.

Lemma execute_global_synthesis_keeps_table env :
  keeps table_of (agents.execute_global_synthesis env).
Proof. unfold agents.execute_global_synthesis. reads. Qed.

Lemma agents_generate_pdf_report_keeps_table env global_synthesis dir :
  keeps table_of (agents.generate_pdf_report env global_synthesis dir).
Proof. unfold agents.generate_pdf_report. reads. Qed.

(** X9.  Once the articles are collected, no stage writes to the database:
    the digest, the summaries with their retrieval, the synthesis and the
    report leave the table as it is, on every exit. *)
Theorem later_stages_keep_the_table env s global_synthesis dir :
  table (snd (snd (agents.execute_quick_summary env s))) = table (snd s)
  /\ table (snd (snd (agents.execute_summarization env s))) = table (snd s)
  /\ table (snd (snd (agents.execute_global_synthesis env s))) = table (snd s)
  /\ table (snd (snd (agents.generate_pdf_report env global_synthesis dir s)))
     = table (snd s).
Proof.
  split; [| split; [| split]].
  - apply (execute_quick_summary_keeps_table env s).
  - apply (execute_summarization_keeps_table env s).
  - apply (execute_global_synthesis_keeps_table env s).
  - apply (agents_generate_pdf_report_keeps_table env global_synthesis dir s).
Qed.

(** X10.  [search_similar_articles] returns at most [limit] rows, and every
    row that it returns is a committed row tagged with the keyword of the
    call. *)
Theorem search_similar_articles_is_bounded env self q keyword limit w :
  exists l w',
    database.search_similar_articles env self q keyword limit w = (Returns l, w')
    /\ (List.length l <= Z.to_nat limit)%nat
    /\ Forall
         (fun s =>
            exists rows r,
              table w = Some rows /\ In r rows /\ Row.keyword r = keyword
              /\ Stored.entry_id s = Row.entry_id r
              /\ Stored.title s = Row.title r
              /\ Stored.summary s = Row.summary r)
         l.
Proof.
  destruct (search_similar_articles_cases env self q keyword limit w)
    as (l & w' & E & H).
  exists l, w'. split; [exact E |].
  destruct H as [-> | ((rows & Ht & ->) & _)].
  - split; [cbn; lia | constructor].
  - split; [apply nearest_bounded |].
    apply Forall_forall. intros s Hs.
    apply nearest_stored in Hs. destruct Hs as (r & H1 & H2 & H3 & H4 & H5).
    exists rows, r. repeat (split; [assumption |]). assumption.
Qed.

(* ===================================================================== *)
(** * More on the endpoint *)
(* ===================================================================== *)

(** Whatever the handler raises is an [HTTPException] of status 500. *)
Lemma search_articles_raises env request w e w' :
  api.search_articles env request w = (Raises e, w') ->
  exists detail, e = HTTPException 500 detail.
Proof.
  unfold api.search_articles, try_except.
  match goal with
  | |- context [match ?body w with _ => _ end] => destruct (body w) as [[r | e0] s]
  end.
  - discriminate.
  - unfold raise. intros H. injection H as <- _. eexists. reflexivity.
Qed.

(** X11.  A request that reaches the handler is answered 200 or 500 and
    nothing else: 200 with the model that the handler returned, for a
    request that passed its validation and whose response can be encoded;
    the 400 that the handler raises for a blank keyword or a limit out of
    range never reaches the client.  The only client errors of the endpoint
    are those of FastAPI itself, 400 for a body that it cannot read and 422
    for a body that fails the model [SearchRequest]; then the handler does
    not run and the world is as it was. *)
Theorem endpoint_status_codes env body w :
  (forall request,
     body = Validated request ->
     (HTTPResponse.status_code (fst (api.post_api_search env body w)) = 200
      \/ HTTPResponse.status_code (fst (api.post_api_search env body w)) = 500)%Z
     /\ (HTTPResponse.status_code (fst (api.post_api_search env body w)) = 200%Z ->
         api.keyword_rejected request = false
         /\ api.max_articles_rejected request = false
         /\ exists response,
              api.search_articles env request w
              = (Returns response, snd (api.post_api_search env body w))
              /\ api.renders response = true
              /\ HTTPResponse.body (fst (api.post_api_search env body w))
                 = Model response)
     /\ (api.keyword_rejected request || api.max_articles_rejected request = true ->
         HTTPResponse.status_code (fst (api.post_api_search env body w)) = 500%Z
         /\ snd (api.post_api_search env body w) = w))
  /\ (HTTPResponse.status_code (fst (api.post_api_search env body w)) = 422%Z
      <-> exists errors, body = Unprocessable errors)
  /\ (HTTPResponse.status_code (fst (api.post_api_search env body w)) = 400%Z
      <-> body = Unreadable)
  /\ ((forall request, body <> Validated request) ->
      snd (api.post_api_search env body w) = w).
Proof.
  destruct body as [request | errors |]; cbn [api.post_api_search].
  - split; [| split; [| split]].
    + intros r Hr. injection Hr as <-.
      destruct (api.search_articles env request w) as [[response | e] w'] eqn:E.
      * assert (Hv : api.keyword_rejected request = false
                     /\ api.max_articles_rejected request = false).
        { destruct (api.keyword_rejected request
                    || api.max_articles_rejected request) eqn:R.
          - destruct (rejected_request_raises_500 env request w R) as (detail & H).
            congruence.
          - apply orb_false_iff. exact R. }
        destruct Hv as (Hk & Hm). rewrite Hk, Hm.
        destruct (api.renders response) eqn:Hr;
          cbn [fst snd HTTPResponse.status_code HTTPResponse.body
               api.internal_server_error orb].
        -- split; [now left |]. split; [| discriminate].
           intros _. split; [reflexivity |]. split; [reflexivity |].
           exists response. split; [reflexivity |]. split; [exact Hr | reflexivity].
        -- split; [now right |]. split; discriminate.
      * destruct (search_articles_raises env request w e w' E) as (detail & ->).
        cbn [fst snd HTTPResponse.status_code].
        split; [now right |]. split; [discriminate |].
        intros R. split; [reflexivity |].
        destruct (rejected_request_raises_500 env request w R) as (detail' & H).
        congruence.
    + destruct (api.search_articles env request w) as [[response | e] w'] eqn:E.
      * destruct (api.renders response);
          cbn [fst HTTPResponse.status_code api.internal_server_error];
          (split; [discriminate | intros (x & Hx); discriminate]).
      * destruct (search_articles_raises env request w e w' E) as (detail & ->).
        cbn [fst HTTPResponse.status_code].
        split; [discriminate | intros (x & Hx); discriminate].
    + destruct (api.search_articles env request w) as [[response | e] w'] eqn:E.
      * destruct (api.renders response);
          cbn [fst HTTPResponse.status_code api.internal_server_error];
          (split; discriminate).
      * destruct (search_articles_raises env request w e w' E) as (detail & ->).
        cbn [fst HTTPResponse.status_code].
        split; discriminate.
    + intros H. now elim (H request).
  - cbn [fst snd HTTPResponse.status_code].
    split; [intros r Hr; discriminate |].
    split; [split; [intros _; eexists; reflexivity | reflexivity] |].
    split; [split; discriminate | reflexivity].
  - cbn [fst snd HTTPResponse.status_code].
    split; [intros r Hr; discriminate |].
    split; [split; [discriminate | intros (x & Hx); discriminate] |].
    split; [split; reflexivity | reflexivity].
Qed.

Lemma lstrip_nil s : lstrip s = [] <-> Forall (fun c => isspace c = true) s.
Proof.
  induction s as [| c s IH]; cbn.
  - split; constructor.
  - destruct (isspace c) eqn:E.
    + rewrite IH. split; [now constructor | now inversion 1].
    + split; [discriminate | inversion 1; congruence].
Qed.

Lemma lstrip_head s c rest : lstrip s = c :: rest -> isspace c = false.
Proof.
  induction s as [| x s IH]; cbn; [discriminate |].
  destruct (isspace x) eqn:E; [exact IH |].
  intros H. injection H as <- _. exact E.
Qed.

Lemma strip_nil s : strip s = [] <-> Forall (fun c => isspace c = true) s.
Proof.
  unfold strip. split.
  - intros H. apply (f_equal (@rev N)) in H. rewrite rev_involutive in H.
    cbn in H. apply lstrip_nil in H. apply lstrip_nil.
    destruct (lstrip s) as [| c rest] eqn:E; [reflexivity |].
    apply lstrip_head in E.
    rewrite Forall_forall in H. specialize (H c).
    rewrite <- in_rev in H. cbn in H. rewrite H in E by now left. discriminate.
  - intros H. apply lstrip_nil in H. rewrite H. reflexivity.
Qed.

(** X12.  The validation rejects exactly the keywords made of white space only
    (the empty one included) and the limits outside 1..50; a rejected request
    is answered with an [HTTPException] of status 500 and leaves the world
    as it is. *)
Theorem validation_rejects_blank_and_out_of_range env request w :
  (api.keyword_rejected request = true
   <-> Forall (fun c => isspace c = true) (SearchRequest.keyword request))
  /\ (api.max_articles_rejected request = true
      <-> ~ (1 <= SearchRequest.max_articles request <= 50)%Z)
  /\ (api.keyword_rejected request = true
      \/ api.max_articles_rejected request = true ->
      exists detail,
        api.search_articles env request w
        = (Raises (HTTPException 500 detail), w)).
Proof.
  split; [| split].
  - unfold api.keyword_rejected. rewrite orb_true_iff, str_eqb_eq, strip_nil.
    split.
    + intros [H | H]; [| exact H].
      destruct (SearchRequest.keyword request); [constructor | discriminate].
    + auto.
  - unfold api.max_articles_rejected.
    rewrite orb_true_iff, !Z.ltb_lt. lia.
  - intros H. apply rejected_request_raises_500.
    apply orb_true_iff. exact H.
Qed.

(* ===================================================================== *)
(** * More on the orchestrator *)
(* ===================================================================== *)

Lemma synthesis_task_view keyword l1 l2 :
  synthesis_view l1 = synthesis_view l2 ->
  agents.synthesis_task keyword l1 = agents.synthesis_task keyword l2.
Proof.
  intros H. unfold agents.synthesis_task.
  assert (E : forall l,
             map agents.synthesis_block l
             = map (fun p => py "Article : " ++ fst p ++ nl ++ py "Résumé : " ++ snd p)
                 (synthesis_view l)).
  { intros l. unfold synthesis_view. rewrite map_map. reflexivity. }
  rewrite !E, H. reflexivity.
Qed.

(** X13.  The synthesis reads the summaries only, through their titles and
    texts: two instances with the same keyword whose summaries agree on
    those get the same synthesis from the same world, whatever articles and
    abstracts they hold; and the synthesis leaves the instance as it was. *)
Theorem synthesis_reads_summaries_only env me1 me2 w :
  agents.keyword me1 = agents.keyword me2 ->
  synthesis_view (agents.article_summaries me1)
  = synthesis_view (agents.article_summaries me2) ->
  fst (agents.execute_global_synthesis env (me1, w))
  = fst (agents.execute_global_synthesis env (me2, w))
  /\ snd (snd (agents.execute_global_synthesis env (me1, w)))
     = snd (snd (agents.execute_global_synthesis env (me2, w)))
  /\ fst (snd (agents.execute_global_synthesis env (me1, w))) = me1.
Proof.
  intros Hk Hv. rewrite !execute_global_synthesis_eq.
  destruct (agents.article_summaries me1) as [| a1 l1] eqn:E1;
    destruct (agents.article_summaries me2) as [| a2 l2] eqn:E2;
    cbn [fst snd]; try discriminate.
  - auto.
  - rewrite Hk, (synthesis_task_view (agents.keyword me2) _ _ Hv). auto.
Qed.

(** X14.  The summaries accumulate in the instance.  A second
    [execute_summarization] on the same instance appends a second summary of
    every article after those of the first call. *)
Theorem summarization_twice_appends_twice env me w out1 s1 out2 s2 :
  agents.articles me <> [] ->
  agents.execute_summarization env (me, w) = (Returns out1, s1) ->
  agents.execute_summarization env s1 = (Returns out2, s2) ->
  map ArticleSummary.title out2
  = map ArticleSummary.title (agents.article_summaries me)
    ++ map Article.title (agents.articles me)
    ++ map Article.title (agents.articles me)
  /\ List.length out2 = (List.length out1 + List.length (agents.articles me))%nat.
Proof.
  intros Hne H1 H2. destruct s1 as [me1 w1], s2 as [me2 w2].
  apply execute_summarization_spec in H1, H2.
  destruct H1 as (new1 & Hs1 & Hf1 & _ & Ha1 & Hl1 & Ho1 & _).
  destruct H2 as (new2 & Hs2 & Hf2 & _ & Ha2 & Hl2 & Ho2 & _).
  rewrite Ha1 in *.
  specialize (Ho1 Hne). specialize (Ho2 Hne). subst out1 out2.
  rewrite Hl1, firstn_all in Hf1. rewrite Hl2, firstn_all in Hf2.
  apply summarizes_titles in Hf1, Hf2.
  split.
  - rewrite Hs2, Hs1, !map_app, Hf1, Hf2, <- app_assoc. reflexivity.
  - rewrite Hs2, length_app, Hl2. reflexivity.
Qed.

(* ===================================================================== *)
(** * Configuration checks (config.py, healthcheck.py) *)
(* ===================================================================== *)

Lemma startswith_sk s :
  startswith s (py "sk-") = true <-> exists rest, s = py "sk-" ++ rest.
Proof.
  unfold startswith. rewrite str_eqb_eq. change (py "sk-") with [115; 107; 45]%N.
  split.
  - destruct s as [| a [| b [| c rest]]]; cbn; try discriminate.
    intros H. injection H as -> -> ->. exists rest. reflexivity.
  - intros (rest & ->). reflexivity.
Qed.

(** X15.  The key check of the health check and the one of [Config.validate]
    are the same test, and it accepts exactly the keys that start with
    ["sk-"]: the tests for an empty key and for the placeholder never
    decide. *)
Theorem api_key_check_is_the_prefix_test env :
  healthcheck.check_openai_api_key env
  = startswith (getenv env (py "OPENAI_API_KEY") []) (py "sk-")
  /\ config.openai_api_key (config.validate env)
     = healthcheck.check_openai_api_key env.
Proof.
  split; [| reflexivity].
  unfold healthcheck.check_openai_api_key. cbv zeta.
  destruct (startswith (getenv env (py "OPENAI_API_KEY") []) (py "sk-")) eqn:E.
  - apply startswith_sk in E. destruct E as (rest & ->).
    rewrite andb_true_r.
    change (py "sk-") with [115; 107; 45]%N. cbn [app truthy andb].
    unfold str_eqb.
    destruct (list_eq_dec N.eq_dec _ _) as [H |]; [| reflexivity].
    vm_compute in H. discriminate.
  - apply andb_false_r.
Qed.

Lemma truthy_getenv env name default :
  truthy default = true ->
  (truthy (getenv env name default) = false <-> environ env name = Some []).
Proof.
  intros Hd. unfold getenv. destruct (environ env name) as [[| c v] |]; cbn.
  - tauto.
  - split; discriminate.
  - rewrite Hd. split; discriminate.
Qed.

(** X16.  [Config.validate] reports the database configuration as incomplete
    exactly when one of the five [DB_*] variables is set to the empty
    string; unset variables take their defaults. *)
Theorem db_config_fails_on_an_empty_variable env :
  config.db_config (config.validate env) = false
  <-> exists name,
        In name [py "DB_HOST"; py "DB_PORT"; py "DB_NAME"; py "DB_USER";
                 py "DB_PASSWORD"]
        /\ environ env name = Some [].
Proof.
  cbn [config.validate config.db_config forallb].
  rewrite !andb_false_iff.
  unfold config.DB_HOST, config.DB_PORT, config.DB_NAME, config.DB_USER,
    config.DB_PASSWORD.
  rewrite !truthy_getenv by (vm_compute; reflexivity).
  split.
  - intros [H | [H | [H | [H | [H | H]]]]]; try discriminate;
      eexists; (split; [| exact H]); cbn; tauto.
  - intros (name & Hin & H). cbn in Hin.
    destruct Hin as [<- | [<- | [<- | [<- | [<- | []]]]]]; tauto.
Qed.

(* ===================================================================== *)
(** * Storing the collected articles (tools/rag_tool.py) *)
(* ===================================================================== *)

Lemma embed_and_store_article_total env self article keyword :
  total (rag_tool.embed_and_store_article env self article keyword).
Proof.
  unfold rag_tool.embed_and_store_article.
  apply total_try_except. intros e. apply total_ret.
Qed.

Lemma store_loop_bounds env self keyword articles :
  forall n w,
  exists m w',
    rag_tool.store_loop env self articles keyword n w = (Returns m, w')
    /\ (n <= m <= n + Z.of_nat (List.length articles))%Z.
Proof.
  induction articles as [| a l IH]; intros n w; cbn [rag_tool.store_loop].
  - exists n, w. split; [reflexivity | cbn; lia].
  - destruct (embed_and_store_article_total env self a keyword w)
      as (stored & w1 & E).
    unfold bind. rewrite E.
    destruct (IH (if stored then n + 1 else n)%Z w1) as (m & w' & E' & Hm).
    exists m, w'. split; [exact E' |].
    cbn [List.length]. destruct stored; lia.
Qed.



(** X17.  [store_multiple_articles] never raises, and its count lies between 0
    and the number of articles. *)
Theorem store_multiple_articles_counts env self articles keyword w :
  exists n w',
    rag_tool.store_multiple_articles env self articles keyword w = (Returns n, w')
    /\ (0 <= n <= Z.of_nat (List.length articles))%Z.
Proof.
  unfold rag_tool.store_multiple_articles.
  destruct (store_loop_bounds env self keyword articles 0%Z w)
    as (m & w' & E & Hm).
  exists m, w'. split; [exact E | lia].
Qed.


(* ===================================================================== *)
(** * More on the search paths *)
(* ===================================================================== *)




(** X20.  The contract of the MCP tool.  [search_arxiv_tool] never raises and
    always answers with one text content holding a JSON object; a success
    object echoes the keyword and counts the articles it carries; a call
    without keyword, or with an empty one, is answered with the error object
    without any call to arXiv. *)
Theorem search_arxiv_tool_contract env arguments w :
  exists data w',
    arxiv_server.search_arxiv_tool env arguments w
    = (Returns [{| TextContent.type := py "text";
                   TextContent.text := JsonText data |}], w')
    /\ match data with
       | SearchOk keyword count articles =>
           Arguments.keyword arguments = Some keyword
           /\ count = Z.of_nat (List.length articles)
       | SearchError _ => True
       end
    /\ (arxiv_server.missing (Arguments.keyword arguments) = true ->
        data = SearchError (py "Le paramètre 'keyword' est requis") /\ w' = w).
Proof.
  unfold arxiv_server.search_arxiv_tool.
  destruct (arxiv_server.missing (Arguments.keyword arguments)) eqn:Em.
  - eexists. eexists. split; [reflexivity |]. split; [exact I |]. auto.
  - destruct (Arguments.keyword arguments) as [[| c k] |] eqn:Ek;
      try discriminate.
    unfold try_except, bind, results, external, ret.
    destruct (arxiv_api env (tick w) _) as [rs | e].
    + eexists. eexists. split; [reflexivity |].
      split; [split; reflexivity | discriminate].
    + eexists. eexists. split; [reflexivity |].
      split; [exact I | discriminate].
Qed.
(* ===================================================================== *)
(** * The report (tools/pdf_generator.py) *)
(* ===================================================================== *)

(** The constructor of a paragraph returns for the texts that parse, and
    changes nothing. *)
Lemma paragraph_parses env text style w :
  parses env text = true ->
  pdf_generator.paragraph env text style w = (Returns (Paragraph text style), w).
Proof. intros H. unfold pdf_generator.paragraph. rewrite H. reflexivity. Qed.

Lemma paragraph_refused env text style w :
  parses env text = false ->
  pdf_generator.paragraph env text style w
  = (Raises pdf_generator.markup_error, w).
Proof. intros H. unfold pdf_generator.paragraph. rewrite H. reflexivity. Qed.

(** A step [x <- paragraph text style ;; k x]. *)
Lemma bind_paragraph {A} env text style (k : Flowable -> M World A) w :
  bind (pdf_generator.paragraph env text style) k w
  = if parses env text then k (Paragraph text style) w
    else (Raises pdf_generator.markup_error, w).
Proof.
  unfold bind, pdf_generator.paragraph. destruct (parses env text); reflexivity.
Qed.

Lemma headings_app a b : headings (a ++ b) = headings a ++ headings b.
Proof. unfold headings. apply flat_map_app. Qed.

(** The elements of one article: they are built when the five texts parse,
    and the constructor of the first text that does not parse raises. *)
Lemma article_elements_run env idx total article w :
  if forallb (parses env) (article_texts idx article) then
    exists elements,
      pdf_generator.article_elements env idx total article w
      = (Returns elements, w)
      /\ headings elements
         = [py "<b>Article " ++ str_of_int idx ++ py " :</b> "
            ++ ArticleSummary.title article]
  else
    pdf_generator.article_elements env idx total article w
    = (Raises pdf_generator.markup_error, w).
Proof.
  unfold pdf_generator.article_elements, article_texts. cbv zeta.
  cbn [forallb].
  rewrite bind_paragraph. destruct (parses env _); [| reflexivity].
  rewrite bind_paragraph. destruct (parses env _); [| reflexivity].
  rewrite bind_paragraph. destruct (parses env _); [| reflexivity].
  rewrite bind_paragraph. destruct (parses env _); [| reflexivity].
  rewrite bind_paragraph. destruct (parses env _); [| reflexivity].
  cbn [andb]. eexists. split; [reflexivity |].
  rewrite headings_app.
  assert (E : headings (if (idx <? total)%Z then [Spacer 3] else []) = [])
    by (destruct (idx <? total)%Z; reflexivity).
  rewrite E, app_nil_r. unfold headings. cbn [flat_map].
  replace (str_eqb (py "ArticleTitle") (py "ArticleTitle")) with true
    by (vm_compute; reflexivity).
  replace (str_eqb (py "Normal") (py "ArticleTitle")) with false
    by (vm_compute; reflexivity).
  replace (str_eqb (py "Justified") (py "ArticleTitle")) with false
    by (vm_compute; reflexivity).
  reflexivity.
Qed.

(** The texts of the articles from the position [k] on. *)
Lemma article_loop_run env total summaries :
  forall k w,
    if forallb (parses env)
         (List.concat (map (fun p => article_texts (Z.of_nat (fst p)) (snd p))
                    (combine (seq k (List.length summaries)) summaries)))
    then
      exists elements,
        pdf_generator.article_loop env (Z.of_nat k) total summaries w
        = (Returns elements, w)
        /\ headings elements
           = map (fun p =>
                    py "<b>Article " ++ str_of_int (Z.of_nat (fst p))
                    ++ py " :</b> " ++ ArticleSummary.title (snd p))
               (combine (seq k (List.length summaries)) summaries)
    else
      pdf_generator.article_loop env (Z.of_nat k) total summaries w
      = (Raises pdf_generator.markup_error, w).
Proof.
  induction summaries as [| a l IH]; intros k w.
  - cbn [List.length seq combine map List.concat forallb pdf_generator.article_loop].
    exists []. split; reflexivity.
  - cbn [List.length seq combine map List.concat fst snd pdf_generator.article_loop].
    rewrite forallb_app.
    pose proof (article_elements_run env (Z.of_nat k) total a w) as H1.
    unfold bind.
    destruct (forallb (parses env) (article_texts (Z.of_nat k) a)).
    + destruct H1 as (els & E1 & Hh). rewrite E1. cbn [andb].
      specialize (IH (S k) w).
      replace (Z.of_nat k + 1)%Z with (Z.of_nat (S k)) by lia.
      destruct (forallb (parses env) _).
      * destruct IH as (more & E2 & Hm).
        exists (els ++ more). split; [rewrite E2; reflexivity |].
        rewrite headings_app, Hh, Hm. reflexivity.
      * rewrite IH. reflexivity.
    + rewrite H1. reflexivity.
Qed.

(** The article section. *)
Lemma create_article_summaries_run env summaries w :
  if forallb (parses env) (section_texts summaries) then
    exists elements,
      pdf_generator._create_article_summaries env summaries w
      = (Returns elements, w)
      /\ headings elements
         = map (fun p =>
                  py "<b>Article " ++ str_of_int (Z.of_nat (fst p))
                  ++ py " :</b> " ++ ArticleSummary.title (snd p))
             (combine (seq 1 (List.length summaries)) summaries)
  else
    pdf_generator._create_article_summaries env summaries w
    = (Raises pdf_generator.markup_error, w).
Proof.
  unfold section_texts. cbn [forallb].
  pose proof (article_loop_run env (Z.of_nat (List.length summaries))
                summaries 1 w) as H.
  change (Z.of_nat 1) with 1%Z in H.
  destruct (parses env (py "Résumés des Articles")) eqn:P; cbn [andb].
  2:{ unfold pdf_generator._create_article_summaries.
      rewrite bind_paragraph, P. reflexivity. }
  destruct (forallb (parses env) _).
  - destruct H as (els & E & Hh).
    eexists. split.
    + unfold pdf_generator._create_article_summaries.
      rewrite bind_paragraph, P. unfold bind. rewrite E. reflexivity.
    + rewrite headings_app.
      replace (headings [Paragraph (py "Résumés des Articles") (py "SectionTitle");
                         Spacer 5]) with (@nil str) by (vm_compute; reflexivity).
      exact Hh.
  - unfold pdf_generator._create_article_summaries.
    rewrite bind_paragraph, P. unfold bind. rewrite H. reflexivity.
Qed.

(** The cover, whose date is read between the second paragraph and the
    third. *)
Lemma create_cover_page_run env keyword w :
  if forallb (parses env)
       [py "Rapport de Veille Scientifique";
        py "<b>Mot-clé :</b> " ++ keyword;
        py "<b>Date :</b> " ++ strftime_cover (clock env (tick w))]
  then
    pdf_generator._create_cover_page env keyword w
    = (Returns
         [Spacer 30;
          Paragraph (py "Rapport de Veille Scientifique") (py "CustomTitle");
          Spacer 10;
          Paragraph (py "<b>Mot-clé :</b> " ++ keyword) (py "Heading2");
          Spacer 10;
          Paragraph (py "<b>Date :</b> " ++ strftime_cover (clock env (tick w)))
            (py "Normal")],
       set_tick (S (tick w)) w)
  else
    exists w',
      pdf_generator._create_cover_page env keyword w
      = (Raises pdf_generator.markup_error, w')
      /\ files w' = files w.
Proof.
  cbn [forallb].
  destruct (parses env (py "Rapport de Veille Scientifique")) eqn:P1; cbn [andb].
  2:{ exists w. split; [| reflexivity].
      unfold pdf_generator._create_cover_page.
      rewrite bind_paragraph, P1. reflexivity. }
  destruct (parses env (py "<b>Mot-clé :</b> " ++ keyword)) eqn:P2; cbn [andb].
  2:{ exists w. split; [| reflexivity].
      unfold pdf_generator._create_cover_page.
      rewrite bind_paragraph, P1, bind_paragraph, P2. reflexivity. }
  destruct (parses env
              (py "<b>Date :</b> " ++ strftime_cover (clock env (tick w))))
    eqn:P3.
  2:{ exists (set_tick (S (tick w)) w). split; [| reflexivity].
      unfold pdf_generator._create_cover_page.
      rewrite bind_paragraph, P1, bind_paragraph, P2.
      unfold bind at 1, now, external. cbv beta iota.
      rewrite bind_paragraph, P3. reflexivity. }
  unfold pdf_generator._create_cover_page.
  rewrite bind_paragraph, P1, bind_paragraph, P2.
  unfold bind at 1, now, external. cbv beta iota.
  rewrite bind_paragraph, P3. reflexivity.
Qed.

Lemma create_global_summary_run env global_summary w :
  if forallb (parses env)
       [py "Synthèse Globale"; replace 10 (py "<br/>") global_summary]
  then
    pdf_generator._create_global_summary env global_summary w
    = (Returns
         [Paragraph (py "Synthèse Globale") (py "SectionTitle");
          Spacer 5;
          Paragraph (replace 10 (py "<br/>") global_summary) (py "Justified")],
       w)
  else
    pdf_generator._create_global_summary env global_summary w
    = (Raises pdf_generator.markup_error, w).
Proof.
  unfold pdf_generator._create_global_summary. cbv zeta. cbn [forallb].
  rewrite bind_paragraph. destruct (parses env _); [| reflexivity].
  rewrite bind_paragraph. destruct (parses env _); reflexivity.
Qed.

(** The three exits of [generate_report]: a text does not parse, the build
    fails, the document is written. *)
Lemma generate_report_run env keyword global_summary summaries path w :
  if forallb (parses env)
       (report_texts keyword global_summary summaries (clock env (tick w)))
  then
    exists articles,
      pdf_generator._create_article_summaries env summaries
        (set_tick (S (tick w)) w)
      = (Returns articles, set_tick (S (tick w)) w)
      /\ let story :=
           [Spacer 30;
            Paragraph (py "Rapport de Veille Scientifique") (py "CustomTitle");
            Spacer 10;
            Paragraph (py "<b>Mot-clé :</b> " ++ keyword) (py "Heading2");
            Spacer 10;
            Paragraph (py "<b>Date :</b> " ++ strftime_cover (clock env (tick w)))
              (py "Normal");
            PageBreak;
            Paragraph (py "Synthèse Globale") (py "SectionTitle");
            Spacer 5;
            Paragraph (replace 10 (py "<br/>") global_summary) (py "Justified");
            PageBreak]
           ++ articles in
         pdf_generator.generate_report env keyword global_summary summaries
           path w
         = match layout env (S (tick w)) path story with
           | None =>
               (Returns path,
                set_files ((path, story) :: files w) (set_tick (2 + tick w) w))
           | Some _ => (Returns [], set_tick (2 + tick w) w)
           end
  else
    exists w',
      pdf_generator.generate_report env keyword global_summary summaries path w
      = (Returns [], w')
      /\ files w' = files w.
Proof.
  unfold report_texts.
  change ([py "Rapport de Veille Scientifique";
           py "<b>Mot-clé :</b> " ++ keyword;
           py "<b>Date :</b> " ++ strftime_cover (clock env (tick w));
           py "Synthèse Globale";
           replace 10 (py "<br/>") global_summary]
          ++ section_texts summaries)
    with ([py "Rapport de Veille Scientifique";
           py "<b>Mot-clé :</b> " ++ keyword;
           py "<b>Date :</b> " ++ strftime_cover (clock env (tick w))]
          ++ [py "Synthèse Globale"; replace 10 (py "<br/>") global_summary]
          ++ section_texts summaries).
  rewrite !forallb_app.
  pose proof (create_cover_page_run env keyword w) as H1.
  pose proof (create_global_summary_run env global_summary
                (set_tick (S (tick w)) w)) as H2.
  pose proof (create_article_summaries_run env summaries
                (set_tick (S (tick w)) w)) as H3.
  match goal with
  | |- context [forallb (parses env) [?a; ?b; ?c]] =>
      destruct (forallb (parses env) [a; b; c])
  end; cbn [andb].
  2:{ destruct H1 as (w1 & E1 & F). exists w1. split; [| exact F].
      unfold pdf_generator.generate_report, try_except, bind.
      rewrite E1. reflexivity. }
  match goal with
  | |- context [forallb (parses env) [?a; ?b]] =>
      destruct (forallb (parses env) [a; b])
  end; cbn [andb].
  2:{ exists (set_tick (S (tick w)) w). split; [| reflexivity].
      unfold pdf_generator.generate_report, try_except, bind.
      rewrite H1, H2. reflexivity. }
  destruct (forallb (parses env) (section_texts summaries)).
  2:{ exists (set_tick (S (tick w)) w). split; [| reflexivity].
      unfold pdf_generator.generate_report, try_except, bind.
      rewrite H1, H2, H3. reflexivity. }
  destruct H3 as (articles & E3 & _).
  exists articles. split; [exact E3 |].
  cbv zeta.
  unfold pdf_generator.generate_report, try_except, bind.
  rewrite H1, H2, E3.
  unfold pdf_generator.build, bind, laid_out, external, modify, ret.
  cbn [tick set_tick].
  destruct (layout env (S (tick w)) path _); reflexivity.
Qed.

(** X21.  The report is all or nothing.  [generate_report] never raises.
    When every text that it hands to [Paragraph] parses (the title, the
    keyword line and the date of the cover, the title and the text of the
    synthesis, the title of the article section and the heading, the
    authors, the date, the summary and the link of every article) and
    [doc.build] does not fail, it returns the output path and has written
    one document under that path: the cover, a page break, the synthesis
    section, a page break and the article section.  When a text does not
    parse or [doc.build] fails, it returns the empty string and no document
    has been written. *)
Theorem generate_report_outcome env keyword global_summary summaries path w :
  exists p w',
    pdf_generator.generate_report env keyword global_summary summaries path w
    = (Returns p, w')
    /\ (forallb (parses env)
          (report_texts keyword global_summary summaries (clock env (tick w)))
        = true ->
        exists articles,
          pdf_generator._create_article_summaries env summaries
            (set_tick (S (tick w)) w)
          = (Returns articles, set_tick (S (tick w)) w)
          /\ let story :=
               [Spacer 30;
                Paragraph (py "Rapport de Veille Scientifique")
                  (py "CustomTitle");
                Spacer 10;
                Paragraph (py "<b>Mot-clé :</b> " ++ keyword) (py "Heading2");
                Spacer 10;
                Paragraph
                  (py "<b>Date :</b> " ++ strftime_cover (clock env (tick w)))
                  (py "Normal");
                PageBreak;
                Paragraph (py "Synthèse Globale") (py "SectionTitle");
                Spacer 5;
                Paragraph (replace 10 (py "<br/>") global_summary)
                  (py "Justified");
                PageBreak]
               ++ articles in
             (layout env (S (tick w)) path story = None ->
              p = path /\ files w' = (path, story) :: files w)
             /\ (layout env (S (tick w)) path story <> None ->
                 p = [] /\ files w' = files w))
    /\ (forallb (parses env)
          (report_texts keyword global_summary summaries (clock env (tick w)))
        = false ->
        p = [] /\ files w' = files w).
Proof.
  pose proof (generate_report_run env keyword global_summary summaries path w)
    as H.
  destruct (forallb (parses env) _).
  - destruct H as (articles & E3 & H). cbv zeta in H.
    destruct (layout env (S (tick w)) path _) as [e |] eqn:F.
    + eexists. eexists. split; [exact H |].
      split; [| discriminate].
      intros _. exists articles. split; [exact E3 |]. cbv zeta.
      rewrite F. split; [discriminate |]. intros _. split; reflexivity.
    + eexists. eexists. split; [exact H |].
      split; [| discriminate].
      intros _. exists articles. split; [exact E3 |]. cbv zeta.
      rewrite F. split; [| intros C; now elim C]. intros _. split; reflexivity.
  - destruct H as (w' & E & F).
    exists [], w'. split; [exact E |].
    split; [discriminate |]. intros _. split; [reflexivity | exact F].
Qed.

(** X22.  When the article section of the report is built, it has one heading
    per summary, in the order of the summaries, numbered from 1 and carrying
    the title; and it is built when its title and the five texts of every
    article parse. *)
Theorem report_has_one_heading_per_summary env summaries w :
  (forall elements w',
     pdf_generator._create_article_summaries env summaries w
     = (Returns elements, w') ->
     headings elements
     = map (fun p =>
              py "<b>Article " ++ str_of_int (Z.of_nat (fst p)) ++ py " :</b> "
              ++ ArticleSummary.title (snd p))
         (combine (seq 1 (List.length summaries)) summaries))
  /\ (forallb (parses env) (section_texts summaries) = true ->
      exists elements,
        pdf_generator._create_article_summaries env summaries w
        = (Returns elements, w)).
Proof.
  pose proof (create_article_summaries_run env summaries w) as H.
  destruct (forallb (parses env) (section_texts summaries)).
  - destruct H as (els & E & Hh). split.
    + intros elements w' E'. rewrite E in E'.
      apply ret_returns in E'. destruct E' as [<- _]. exact Hh.
    + intros _. exists els. exact E.
  - split; [| discriminate].
    intros elements w' E'. rewrite H in E'. discriminate.
Qed.

(* ===================================================================== *)
(** * A run in which the LLM answers *)
(* ===================================================================== *)




(* ===================================================================== *)
(** * The further theorems at the sample inputs *)
(* ===================================================================== *)

(** X1 at the insertion of the first paper into an empty table. *)
Lemma insert_article_true_is_stored_witness :
  exists rows',
    table (snd (database.insert_article (Sample.env false 1 Sample.llm_ok)
                  Sample.dbm (paper 1) (py "llm") zeros Sample.world))
    = Some rows'
    /\ In (Article.entry_id (paper 1)) (map Row.entry_id rows').
Proof.
  destruct (insert_article_true_is_stored (Sample.env false 1 Sample.llm_ok)
              Sample.dbm (paper 1) (py "llm") zeros Sample.world)
    as (rows' & Ht & _ & Hin).
  - vm_compute. reflexivity.
  - exists rows'. split; [exact Ht |]. apply Hin, Nat.leb_le.
    vm_compute. reflexivity.
Defined.

(** X2 at the first paper, with the sixth operation of the call failing. *)
Lemma insert_article_false_after_commit_witness :
  fst (database.insert_article env_sixth_fails Sample.dbm (paper 1) (py "llm")
         zeros Sample.world) = Returns false
  /\ table (snd (database.insert_article env_sixth_fails Sample.dbm (paper 1)
                   (py "llm") zeros Sample.world))
     = Some ([] ++ [row_of (serial Sample.world + 1)%Z
                      (clock env_sixth_fails (3 + tick Sample.world))
                      (database.values_of (paper 1) (py "llm") zeros)]).
Proof.
  destruct (insert_article_false_after_commit env_sixth_fails Sample.dbm
              (paper 1) (py "llm") zeros Sample.world [] Sample.boom)
    as (Hfalse & Hrow & _).
  - reflexivity.
  - reflexivity.
  - vm_compute. reflexivity.
  - intros t Ht. cbn in Ht.
    destruct t as [| [| [| [| [| t]]]]]; try reflexivity. lia.
  - reflexivity.
  - split; [exact Hfalse |]. apply Hrow. reflexivity.
Defined.

(** X3 at the insertion of a second paper into a table of one. *)
Lemma insert_article_keeps_ids_distinct_witness :
  exists rows',
    table (snd (database.insert_article (Sample.env false 2 Sample.llm_ok)
                  Sample.dbm (paper 2) (py "llm") zeros world_with_paper))
    = Some rows'
    /\ NoDup (map Row.entry_id rows').
Proof.
  apply (insert_article_keeps_ids_distinct (Sample.env false 2 Sample.llm_ok)
           Sample.dbm (paper 2) (py "llm") zeros world_with_paper _ eq_refl).
  cbn [map]. constructor; [intros [] | constructor].
Defined.

(** X5 at a table of one paper under the keyword. *)
Lemma get_all_articles_by_keyword_lists_the_keyword_witness :
  exists l,
    fst (database.get_all_articles_by_keyword (Sample.env false 1 Sample.llm_ok)
           Sample.dbm (py "llm") world_with_paper) = Returns l
    /\ List.length l = 1%nat.
Proof.
  destruct (proj2 (get_all_articles_by_keyword_lists_the_keyword
                     (Sample.env false 1 Sample.llm_ok) Sample.dbm (py "llm")
                     world_with_paper _ eq_refl (fun t _ => eq_refl))
              eq_refl)
    as (l & Hl & Hp & _).
  exists l. split; [exact Hl |].
  rewrite (Permutation_length Hp). vm_compute. reflexivity.
Defined.

(** X6 at a table of one paper under the keyword. *)
Lemma clear_articles_by_keyword_removes_the_keyword_witness :
  fst (database.clear_articles_by_keyword (Sample.env false 1 Sample.llm_ok)
         Sample.dbm (py "llm") world_with_paper) = Returns true.
Proof.
  exact (proj1 (proj2 (clear_articles_by_keyword_removes_the_keyword
                         (Sample.env false 1 Sample.llm_ok) Sample.dbm (py "llm")
                         world_with_paper _ eq_refl (fun t _ => eq_refl))
                  eq_refl)).
Defined.

(** X7 at the first paper, stored under ["llm"] and inserted again under
    ["transformers"]. *)
Lemma stored_article_is_invisible_under_another_keyword_witness :
  Forall (fun s => Stored.entry_id s <> Article.entry_id (paper 1))
    (returned
       (fst (database.search_similar_articles (Sample.env false 1 Sample.llm_ok)
               Sample.dbm zeros (py "transformers") 3
               (snd (database.insert_article (Sample.env false 1 Sample.llm_ok)
                       Sample.dbm (paper 1) (py "transformers") zeros
                       world_with_paper))))).
Proof.
  apply Forall_forall.
  apply (stored_article_is_invisible_under_another_keyword
           (Sample.env false 1 Sample.llm_ok) Sample.dbm (paper 1)
           (py "transformers") zeros world_with_paper _ zeros 3 _
           (snd (database.search_similar_articles
                   (Sample.env false 1 Sample.llm_ok) Sample.dbm zeros
                   (py "transformers") 3
                   (snd (database.insert_article
                           (Sample.env false 1 Sample.llm_ok) Sample.dbm
                           (paper 1) (py "transformers") zeros
                           world_with_paper)))) eq_refl).
  - intros r [<- | []] _. vm_compute. discriminate.
  - left. reflexivity.
  - vm_compute. reflexivity.
Defined.

(** X8 at the first paper and an empty table. *)
Lemma inserted_article_is_listed_witness :
  exists l s,
    fst (database.get_all_articles_by_keyword (Sample.env false 1 Sample.llm_ok)
           Sample.dbm (py "llm")
           (snd (database.insert_article (Sample.env false 1 Sample.llm_ok)
                   Sample.dbm (paper 1) (py "llm") zeros Sample.world)))
    = Returns l
    /\ In s l
    /\ Stored.entry_id s = Article.entry_id (paper 1)
    /\ Stored.title s = Article.title (paper 1).
Proof.
  destruct (inserted_article_is_listed (Sample.env false 1 Sample.llm_ok)
              Sample.dbm (paper 1) (py "llm") zeros Sample.world []
              eq_refl (fun t _ => eq_refl))
    as (l & s & Hl & Hin & Hid & Ht & _).
  - reflexivity.
  - vm_compute. reflexivity.
  - reflexivity.
  - exists l, s. auto.
Defined.

(** X11 at a request for two articles on the direct path, which is answered
    200 with the model that the handler returned. *)
Lemma endpoint_status_codes_witness :
  exists response,
    api.search_articles (Sample.env false 2 Sample.llm_ok)
      {| SearchRequest.keyword := py "llm"; SearchRequest.max_articles := 2 |}
      Sample.world
    = (Returns response,
       snd (api.post_api_search (Sample.env false 2 Sample.llm_ok)
              (Validated {| SearchRequest.keyword := py "llm";
                            SearchRequest.max_articles := 2 |})
              Sample.world))
    /\ api.renders response = true
    /\ HTTPResponse.body
         (fst (api.post_api_search (Sample.env false 2 Sample.llm_ok)
                 (Validated {| SearchRequest.keyword := py "llm";
                               SearchRequest.max_articles := 2 |})
                 Sample.world))
       = Model response.
Proof.
  destruct (endpoint_status_codes (Sample.env false 2 Sample.llm_ok)
              (Validated {| SearchRequest.keyword := py "llm";
                            SearchRequest.max_articles := 2 |})
              Sample.world) as (H & _).
  destruct (H _ eq_refl) as (_ & H200 & _).
  destruct (H200 ltac:(vm_compute; reflexivity)) as (_ & _ & Hr).
  exact Hr.
Defined.

(** X13 at two instances with the same summary and different articles. *)
Lemma synthesis_reads_summaries_only_witness :
  agents.articles crew_of_three <> agents.articles crew_with_summary_only
  /\ fst (agents.execute_global_synthesis (Sample.env false 3 Sample.llm_ok)
            (crew_of_three, Sample.world))
     = fst (agents.execute_global_synthesis (Sample.env false 3 Sample.llm_ok)
              (crew_with_summary_only, Sample.world)).
Proof.
  split.
  - vm_compute. discriminate.
  - apply (synthesis_reads_summaries_only (Sample.env false 3 Sample.llm_ok)
             crew_of_three crew_with_summary_only Sample.world);
      vm_compute; reflexivity.
Defined.

(** X14 at an instance of two articles. *)
Lemma summarization_twice_appends_twice_witness :
  List.length
    (returned
       (fst (agents.execute_summarization (Sample.env false 2 Sample.llm_ok)
               (snd (agents.execute_summarization
                       (Sample.env false 2 Sample.llm_ok)
                       (Sample.crew_with 2, Sample.world))))))
  = (List.length
       (returned
          (fst (agents.execute_summarization (Sample.env false 2 Sample.llm_ok)
                  (Sample.crew_with 2, Sample.world))))
     + List.length (agents.articles (Sample.crew_with 2)))%nat.
Proof.
  apply (summarization_twice_appends_twice (Sample.env false 2 Sample.llm_ok)
           (Sample.crew_with 2) Sample.world _
           (snd (agents.execute_summarization (Sample.env false 2 Sample.llm_ok)
                   (Sample.crew_with 2, Sample.world)))
           _
           (snd (agents.execute_summarization (Sample.env false 2 Sample.llm_ok)
                   (snd (agents.execute_summarization
                           (Sample.env false 2 Sample.llm_ok)
                           (Sample.crew_with 2, Sample.world)))))).
  - vm_compute. discriminate.
  - vm_compute. reflexivity.
  - vm_compute. reflexivity.
Defined.


(** X22 at a section of two summaries. *)
Lemma report_has_one_heading_per_summary_witness :
  headings
    (returned
       (fst (pdf_generator._create_article_summaries
               (Sample.env false 2 Sample.llm_ok)
               [summary_of (paper 1) (py "first"); summary_of (paper 2) (py "second")]
               Sample.world)))
  = [py "<b>Article 1 :</b> " ++ Article.title (paper 1);
     py "<b>Article 2 :</b> " ++ Article.title (paper 2)].
Proof.
  apply (proj1 (report_has_one_heading_per_summary
                  (Sample.env false 2 Sample.llm_ok)
                  [summary_of (paper 1) (py "first");
                   summary_of (paper 2) (py "second")]
                  Sample.world)
           _
           (snd (pdf_generator._create_article_summaries
                   (Sample.env false 2 Sample.llm_ok)
                   [summary_of (paper 1) (py "first");
                    summary_of (paper 2) (py "second")]
                   Sample.world))).
  vm_compute. reflexivity.
Defined.

(** X21: a report of two summaries is written under its path; with a
    keyword that is no markup, nothing is written. *)
Lemma generate_report_outcome_witness :
  (fst (pdf_generator.generate_report (Sample.env false 2 Sample.llm_ok)
          (py "llm") (py "synthesis")
          [summary_of (paper 1) (py "first"); summary_of (paper 2) (py "second")]
          (py "reports/llm.pdf") Sample.world)
   = Returns (py "reports/llm.pdf")
   /\ exists story,
        files
          (snd (pdf_generator.generate_report (Sample.env false 2 Sample.llm_ok)
                  (py "llm") (py "synthesis")
                  [summary_of (paper 1) (py "first");
                   summary_of (paper 2) (py "second")]
                  (py "reports/llm.pdf") Sample.world))
        = [(py "reports/llm.pdf", story)])
  /\ fst (pdf_generator.generate_report (Sample.env false 2 Sample.llm_ok)
            (py "a<b") (py "synthesis")
            [summary_of (paper 1) (py "first")]
            (py "reports/llm.pdf") Sample.world)
     = Returns []
  /\ files
       (snd (pdf_generator.generate_report (Sample.env false 2 Sample.llm_ok)
               (py "a<b") (py "synthesis")
               [summary_of (paper 1) (py "first")]
               (py "reports/llm.pdf") Sample.world))
     = [].
Proof.
  split; [| apply and_comm; split].
  - destruct (generate_report_outcome (Sample.env false 2 Sample.llm_ok)
                (py "llm") (py "synthesis")
                [summary_of (paper 1) (py "first");
                 summary_of (paper 2) (py "second")]
                (py "reports/llm.pdf") Sample.world)
      as (p & w' & E & Hyes & _).
    destruct (Hyes ltac:(vm_compute; reflexivity)) as (articles & _ & Hok & _).
    destruct (Hok ltac:(vm_compute; reflexivity)) as (-> & F).
    rewrite E. split; [reflexivity |]. eexists. exact F.
  - destruct (generate_report_outcome (Sample.env false 2 Sample.llm_ok)
                (py "a<b") (py "synthesis")
                [summary_of (paper 1) (py "first")]
                (py "reports/llm.pdf") Sample.world)
      as (p & w' & E & _ & Hno).
    destruct (Hno ltac:(vm_compute; reflexivity)) as (_ & F).
    rewrite E. exact F.
  - destruct (generate_report_outcome (Sample.env false 2 Sample.llm_ok)
                (py "a<b") (py "synthesis")
                [summary_of (paper 1) (py "first")]
                (py "reports/llm.pdf") Sample.world)
      as (p & w' & E & _ & Hno).
    destruct (Hno ltac:(vm_compute; reflexivity)) as (-> & _).
    rewrite E. reflexivity.
Defined.

